(** * camera_utils: the Helios and Intel RealSense camera adapters

    A shallow embedding of [camera_utils/cameras/Helios.py] and
    [camera_utils/cameras/IntelRealsense.py].

    - Python objects are records, the mutable instance is threaded through
      a state-and-outcome monad ([Py]); an outcome is a normal return, a
      raised exception or [exit(code)].
    - NumPy integer arrays are a dtype, a shape and the flat row-major list
      of samples; [float64] values are IEEE-754 binary64 numbers
      ([spec_float] with precision 53), computed with the Standard
      Library's reference operations.
    - The vendor SDKs (pyrealsense2, arena_api) and OpenCV are outside the
      repository; the part of their behaviour the adapters rely on is
      modelled where it is used and documented there. *)

From Stdlib Require Import ZArith List String Ascii Bool Lia Strings.Byte.
From Stdlib Require Import QArith Qround.
From Stdlib Require Import Floats.SpecFloat DecimalString.
Import ListNotations.

Local Open Scope string_scope.
Local Open Scope list_scope.
Local Open Scope Z_scope.

(** ** Python outcomes and the state monad of an instance *)

Inductive exn : Type :=
| Exception (msg : string)
| RuntimeError (msg : string)
| TypeError (msg : string)
| IndexError (msg : string)
| TimeoutError (msg : string).

Inductive outcome (A : Type) : Type :=
| Return (a : A)
| Raise (e : exn)
| SystemExit (code : Z).

Arguments Return {A} a.
Arguments Raise {A} e.
Arguments SystemExit {A} code.

Definition Py (S A : Type) : Type := S -> outcome A * S.

Definition ret {S A : Type} (a : A) : Py S A := fun s => (Return a, s).

Definition bind {S A B : Type} (m : Py S A) (k : A -> Py S B) : Py S B :=
  fun s =>
    match m s with
    | (Return a, s') => k a s'
    | (Raise e, s') => (Raise e, s')
    | (SystemExit c, s') => (SystemExit c, s')
    end.

Definition raise {S A : Type} (e : exn) : Py S A := fun s => (Raise e, s).

(** [exit(code)] *)
Definition exit {S A : Type} (code : Z) : Py S A := fun s => (SystemExit code, s).

Definition get {S : Type} : Py S S := fun s => (Return s, s).

Definition modify {S : Type} (f : S -> S) : Py S unit := fun s => (Return tt, f s).

(** [try: body  except <class> as ex: handler]; [catches] selects the
    exception class of the clause, every other outcome passes through. *)
Definition try_except {S A : Type} (body : Py S A) (catches : exn -> bool)
           (handler : exn -> Py S A) : Py S A :=
  fun s =>
    match body s with
    | (Raise e, s') => if catches e then handler e s' else (Raise e, s')
    | r => r
    end.

Declare Scope py_scope.
Delimit Scope py_scope with py.
Notation "x <- m ;; k" := (bind m (fun x => k))
  (at level 100, m at next level, right associativity) : py_scope.
Notation "m ;;; k" := (bind m (fun _ => k))
  (at level 100, right associativity) : py_scope.

Definition is_RuntimeError (e : exn) : bool :=
  match e with RuntimeError _ => true | _ => false end.

Definition is_TypeError (e : exn) : bool :=
  match e with TypeError _ => true | _ => false end.

(** [type(ex).__name__] and [str(ex)] *)
Definition exn_name (e : exn) : string :=
  match e with
  | Exception _ => "Exception"
  | RuntimeError _ => "RuntimeError"
  | TypeError _ => "TypeError"
  | IndexError _ => "IndexError"
  | TimeoutError _ => "TimeoutError"
  end.

Definition exn_str (e : exn) : string :=
  match e with
  | Exception m | RuntimeError m | TypeError m | IndexError m | TimeoutError m => m
  end.

(** Decimal rendering of integers, as [%d] and f-strings print them. *)
Definition str_nat (n : nat) : string := NilEmpty.string_of_uint (Nat.to_uint n).

Definition str_Z (z : Z) : string :=
  match z with
  | Z0 => "0"
  | Zpos p => str_nat (Pos.to_nat p)
  | Zneg p => ("-" ++ str_nat (Pos.to_nat p))%string
  end.

(** The escape character of the ANSI colour sequences ([\033]). *)
Definition ESC : string := String (ascii_of_nat 27) EmptyString.
Definition CR : string := String (ascii_of_nat 13) EmptyString.
Definition LF : string := String (ascii_of_nat 10) EmptyString.

(** [s * n] on strings *)
Fixpoint str_repeat (s : string) (n : nat) : string :=
  match n with
  | O => ""
  | S n' => (s ++ str_repeat s n')%string
  end.

(** ** NumPy *)

Module np.

(** [float64]: IEEE-754 binary64. *)
Definition float64 : Type := spec_float.
Definition prec : Z := 53.
Definition emax : Z := 1024.

(** Conversion of a Python int or an integer sample to [float64]. *)
Definition of_int (z : Z) : float64 := binary_normalize prec emax z 0 false.

Definition add : float64 -> float64 -> float64 := SFadd prec emax.
Definition mul : float64 -> float64 -> float64 := SFmul prec emax.
Definition div : float64 -> float64 -> float64 := SFdiv prec emax.

(** The C conversion of a double to an integer: truncation toward zero.
    Infinities and NaN have no defined conversion; they are mapped to 0. *)
Definition trunc (x : float64) : Z :=
  match x with
  | S754_finite s m e =>
      cond_Zopp s (if 0 <=? e then Z.shiftl (Zpos m) e else Z.shiftr (Zpos m) (- e))
  | _ => 0
  end.

Inductive dtype : Type := uint8 | uint16.

Definition bits (d : dtype) : Z :=
  match d with uint8 => 8 | uint16 => 16 end.

(** An integer array: element type, shape and flat row-major samples. *)
Record ndarray : Type := mk_ndarray {
  dtype_of : dtype;
  shape : list nat;
  flat : list Z
}.

(** A [float64] array, as the arithmetic on integer arrays produces. *)
Record farray : Type := mk_farray {
  fshape : list nat;
  fflat : list float64
}.

(** [a / k] for an integer array and a Python int: true division,
    elementwise, in [float64]. *)
Definition true_divide (a : ndarray) (k : Z) : farray :=
  mk_farray (shape a) (map (fun x => div (of_int x) (of_int k)) (flat a)).

(** [a / k] for a [float64] array and a Python int. *)
Definition fdivide (a : farray) (k : Z) : farray :=
  mk_farray (fshape a) (map (fun x => div x (of_int k)) (fflat a)).

(** [a * scale + offset] for an integer array and two Python floats. *)
Definition scale_offset (a : ndarray) (scale offset : float64) : farray :=
  mk_farray (shape a) (map (fun x => add (mul (of_int x) scale) offset) (flat a)).

(** Conversion of one [float64] to an unsigned integer of [bits d] bits:
    truncation, then reduction modulo [2^bits]. For a value inside the
    range of the type this is the C conversion; outside of it C leaves the
    result open, and the model wraps around. *)
Definition cast_float (d : dtype) (x : float64) : Z := trunc x mod 2 ^ bits d.

(** Conversion of an integer sample to [d] (wrap-around). *)
Definition cast_int (d : dtype) (x : Z) : Z := x mod 2 ^ bits d.

(** [np.asanyarray(a, dtype=d)] and assignment into a [d] array, for a
    [float64] array [a]. *)
Definition astype_f (d : dtype) (a : farray) : ndarray :=
  mk_ndarray d (fshape a) (map (cast_float d) (fflat a)).

(** [np.array(a, dtype=d)], [np.uint8(a)] for an integer array [a]. *)
Definition astype (d : dtype) (a : ndarray) : ndarray :=
  mk_ndarray d (shape a) (map (cast_int d) (flat a)).

(** Number of channels: 1 for a 2-D array, the last axis of a 3-D one. *)
Definition channels (a : ndarray) : nat :=
  match shape a with
  | [_; _] => 1%nat
  | [_; _; c] => c
  | _ => 0%nat
  end.

(** [a[r, c]] of a 2-D array. *)
Definition item (a : ndarray) (r c : nat) : Z :=
  nth (r * nth 1 (shape a) 0 + c)%nat (flat a) 0.

(** [a[r, c, k]] of a 3-D array. *)
Definition item3 (a : ndarray) (r c k : nat) : Z :=
  nth ((r * nth 1 (shape a) 0 + c) * nth 2 (shape a) 0 + k)%nat (flat a) 0.

(** [a[:, :, k]]: the 2-D slice of channel [k] of a 3-D array. *)
Definition channel (a : ndarray) (k : nat) : ndarray :=
  let h := nth 0 (shape a) 0%nat in
  let w := nth 1 (shape a) 0%nat in
  let ch := nth 2 (shape a) 0%nat in
  mk_ndarray (dtype_of a) [h; w]
             (map (fun p => nth (p * ch + k)%nat (flat a) 0) (seq 0 (h * w))).

End np.

(** ** Standard output *)

(** A state that carries the lines written by [print]. *)
Class Console (S : Type) : Type := {
  get_stdout : S -> list string;
  set_stdout : list string -> S -> S
}.

(** [print(text)]: one entry per call; the trailing line end is not stored. *)
Definition print {S : Type} `{Console S} (text : string) : Py S unit :=
  modify (fun s => set_stdout (get_stdout s ++ [text]) s).

(** ** Strings: the [str] methods the adapters use *)

Definition upper_ascii (c : ascii) : ascii :=
  let n := nat_of_ascii c in
  if ((97 <=? n) && (n <=? 122))%nat then ascii_of_nat (n - 32) else c.

(** [s.upper()] *)
Fixpoint upper (s : string) : string :=
  match s with
  | EmptyString => EmptyString
  | String c s' => String (upper_ascii c) (upper s')
  end.

Fixpoint replace_from (old new : string) (skip : nat) (s : string) : string :=
  match s with
  | EmptyString => EmptyString
  | String c s' =>
      match skip with
      | S k => replace_from old new k s'
      | O =>
          if String.prefix old s
          then (new ++ replace_from old new (String.length old - 1) s')%string
          else String c (replace_from old new 0 s')
      end
  end.

(** [s.replace(old, new)] for a non-empty [old]. *)
Definition replace (old new s : string) : string := replace_from old new 0 s.

(** ** The camera interface *)

Module Camera.

(** Modelled from the spec: [CameraInterface.py] is not among the sources.
    The resolution enumeration of the interface. *)
Inductive Resolution : Type := VGA | HD | FullHD.

Definition Resolution_eqb (a b : Resolution) : bool :=
  match a, b with
  | VGA, VGA | HD, HD | FullHD, FullHD => true
  | _, _ => false
  end.

(** Modelled from the spec: what [Camera.__init__(self, rgb_resolution,
    depth_resolution, fps, serial_number)] stores on the instance; both
    adapters read these attributes back right after the call. *)
Record Config : Type := mk_Config {
  rgb_resolution : Resolution;
  depth_resolution : Resolution;
  fps : Z;
  serial_number : string
}.

Definition __init__ (rgb depth : Resolution) (fps : Z) (serial : string) : Config :=
  mk_Config rgb depth fps serial.

(** The [intr] dictionary of an adapter, keys [fx fy px py width height]. *)
Record Intrinsics : Type := mk_Intrinsics {
  fx : np.float64;
  fy : np.float64;
  px : np.float64;
  py : np.float64;
  width : nat;
  height : nat
}.

End Camera.

(** ** pyrealsense2, as far as the adapter uses it

    The SDK is external. The model keeps what the adapter observes: a
    configuration is a device request and a list of stream requests;
    [start] resolves it against the connected devices and fails with a
    [RuntimeError] when no device satisfies it; a started pipeline hands
    out the captures of its device one by one, each frame carrying the
    profile of the stream it was requested with. *)

Module rs.

Inductive stream : Type := depth | color.
Inductive format : Type := z16 | bgr8.

Definition stream_eqb (a b : stream) : bool :=
  match a, b with
  | depth, depth | color, color => true
  | _, _ => false
  end.

Record stream_profile : Type := mk_stream_profile {
  sp_stream : stream;
  sp_width : nat;
  sp_height : nat;
  sp_format : format;
  sp_fps : Z
}.

Record config : Type := mk_config {
  cfg_device : option string;
  cfg_streams : list stream_profile
}.

(** [rs.config()], [config.enable_device], [config.enable_stream] *)
Definition config_new : config := mk_config None [].

Definition enable_device (c : config) (serial : string) : config :=
  mk_config (Some serial) (cfg_streams c).

Definition enable_stream (c : config) (s : stream) (w h : nat) (f : format) (fps : Z)
  : config :=
  mk_config (cfg_device c) (cfg_streams c ++ [mk_stream_profile s w h f fps]).

Record intrinsics : Type := mk_intrinsics {
  fx : np.float64;
  fy : np.float64;
  ppx : np.float64;
  ppy : np.float64;
  width : nat;
  height : nat
}.

(** What one capture of the device delivers: the samples of the depth
    stream and of the colour stream, either of which may be missing. *)
Record capture : Type := mk_capture {
  depth_samples : option (list Z);
  color_samples : option (list Z)
}.

(** An option of a sensor: its value, the range the SDK reports for it
    ([get_option_range]) and whether it can only be read. *)
Record option_state : Type := mk_option_state {
  opt_value : np.float64;
  opt_min : np.float64;
  opt_max : np.float64;
  opt_read_only : bool
}.

(** A sensor: the options it supports, with their states. *)
Definition sensor : Type := list (string * option_state).

Record device : Type := mk_device {
  serial : string;
  supports : stream_profile -> bool;
  intrinsics_of : stream_profile -> intrinsics;
  sensors : list sensor;
  feed : list capture
}.

Record pipeline_profile : Type := mk_pipeline_profile {
  pp_device : device;
  pp_streams : list stream_profile
}.

(** [rs.pipeline()]: not started until [start] succeeds. *)
Record pipeline : Type := mk_pipeline {
  active_profile : option pipeline_profile
}.

Definition pipeline_new : pipeline := mk_pipeline None.

Record frame : Type := mk_frame {
  profile : stream_profile;
  samples : list Z
}.

(** [frames]: a frame set; a missing frame is an empty (falsy) frame. *)
Record composite_frame : Type := mk_composite_frame {
  get_depth_frame : option frame;
  get_color_frame : option frame
}.

(** The device the configuration resolves to: the requested serial when
    one is given, else the first device; it has to support every
    requested stream. *)
Definition resolve (connected : list device) (c : config) : option device :=
  find (fun d =>
          match cfg_device c with
          | Some s => String.eqb s (serial d)
          | None => true
          end && forallb (supports d) (cfg_streams c))
       connected.

(** [pipeline.start(config)] *)
Definition start (connected : list device) (p : pipeline) (c : config)
  : outcome pipeline_profile * pipeline :=
  match active_profile p with
  | Some _ => (Raise (RuntimeError "start() cannot be called before stop()"), p)
  | None =>
      match resolve connected c with
      | Some d =>
          let pp := mk_pipeline_profile d (cfg_streams c) in
          (Return pp, mk_pipeline (Some pp))
      | None => (Raise (RuntimeError "Couldn't resolve requests"), p)
      end
  end.

(** [pipeline.stop()] *)
Definition stop (p : pipeline) : outcome unit * pipeline :=
  match active_profile p with
  | Some _ => (Return tt, mk_pipeline None)
  | None => (Raise (RuntimeError "stop() cannot be called before start()"), p)
  end.

Definition find_stream (streams : list stream_profile) (s : stream)
  : option stream_profile :=
find (fun sp => stream_eqb (sp_stream sp) s) streams.

(** [cfg.get_stream(s)] *)
Definition get_stream (pp : pipeline_profile) (s : stream) : option stream_profile :=
find_stream (pp_streams pp) s.

(** The frame of stream [s] in a capture: the payload, under the profile
    the stream was requested with. *)
Definition frame_of (streams : list stream_profile) (s : stream)
           (payload : option (list Z)) : option frame :=
match find_stream streams s, payload with
| Some sp, Some data => Some (mk_frame sp data)
| _, _ => None
end.

Definition frameset_of (streams : list stream_profile) (cap : capture) : composite_frame :=
mk_composite_frame (frame_of streams depth (depth_samples cap))
                   (frame_of streams color (color_samples cap)).

(** [pipeline.wait_for_frames()]: the next capture of the device, or the
    SDK's timeout error when none arrives. *)
Definition wait_for_frames (p : pipeline) : outcome composite_frame * pipeline :=
match active_profile p with
| None =>
    (Raise (RuntimeError "wait_for_frames cannot be called before start()"), p)
| Some pp =>
    let d := pp_device pp in
    match feed d with
    | [] => (Raise (RuntimeError "Frame didn't arrive within 5000"), p)
    | cap :: rest =>
        let d' := mk_device (serial d) (supports d) (intrinsics_of d) (sensors d) rest in
        (Return (frameset_of (pp_streams pp) cap),
         mk_pipeline (Some (mk_pipeline_profile d' (pp_streams pp))))
    end
end.

(** [frame.get_data()] seen through [np.asanyarray]: a [z16] frame is a
    height x width array of [uint16], a [bgr8] frame a height x width x 3
    array of [uint8]. *)
Definition get_data (f : frame) : np.ndarray :=
  let sp := profile f in
  match sp_format sp with
  | z16 => np.mk_ndarray np.uint16 [sp_height sp; sp_width sp] (samples f)
  | bgr8 => np.mk_ndarray np.uint8 [sp_height sp; sp_width sp; 3%nat] (samples f)
  end.

(** [frames.first(s)]: raises when the frame set has no frame of [s]. *)
Definition first (fs : composite_frame) (s : stream) : outcome frame :=
  match (match s with depth => get_depth_frame fs | color => get_color_frame fs end) with
  | Some f => Return f
  | None => Raise (RuntimeError "Frame of requested stream type was not found!")
  end.

(** Arguments of the option calls, as Python passes them: an [rs.option]
    value or some other object, a number or some other object. *)
Inductive option_arg : Type :=
| option (name : string)
| not_an_option (repr : string).

Inductive value_arg : Type :=
| py_int (z : Z)
| py_float (x : np.float64)
| not_a_number (repr : string).

(** [str(option)] *)
Definition option_str (o : option_arg) : string :=
  match o with
  | option name => ("option." ++ name)%string
  | not_an_option repr => repr
  end.

Definition value_float (v : value_arg) : Datatypes.option np.float64 :=
  match v with
  | py_int z => Some (np.of_int z)
  | py_float x => Some x
  | not_a_number _ => None
  end.

Fixpoint assoc (name : string) (s : sensor) : Datatypes.option option_state :=
  match s with
  | [] => None
  | (k, v) :: rest => if String.eqb k name then Some v else assoc name rest
  end.

Fixpoint assoc_set (name : string) (x : np.float64) (s : sensor) : sensor :=
  match s with
  | [] => []
  | (k, v) :: rest =>
      if String.eqb k name
      then (k, mk_option_state x (opt_min v) (opt_max v) (opt_read_only v)) :: rest
      else (k, v) :: assoc_set name x rest
  end.

(** The binding takes the value as a C [float]: the double is rounded to
    binary32 (an infinity when it is too large); read as a double again. *)
Definition c_float (x : np.float64) : np.float64 :=
  match x with
  | S754_finite s m e =>
      match binary_normalize 24 128 (cond_Zopp s (Zpos m)) e s with
      | S754_finite s' m' e' =>
          binary_normalize np.prec np.emax (cond_Zopp s' (Zpos m')) e' s'
      | y => y
      end
  | _ => x
  end.

(** The validation of the SDK: the value is refused when it is below the
    minimum or above the maximum of the option. *)
Definition out_of_range (st : option_state) (x : np.float64) : bool :=
  SFltb x (opt_min st) || SFltb (opt_max st) x.

(** [sensor.set_option(option, value)]: arguments of the wrong Python
    type are a [TypeError]; an option the sensor lacks, a value outside
    the range of the option and an option that can only be read are a
    [RuntimeError], and the option is then left as it was. *)
Definition sensor_set_option (s : sensor) (o : option_arg) (v : value_arg)
  : outcome sensor :=
  match o, value_float v with
  | option name, Some x =>
      match assoc name s with
      | Some st =>
          let x := c_float x in
          if out_of_range st x
          then Raise (RuntimeError "out of range value for argument value")
          else if opt_read_only st
               then Raise (RuntimeError "This option is read-only!")
               else Return (assoc_set name x s)
      | None => Raise (RuntimeError "object doesn't support option")
      end
  | _, _ => Raise (TypeError "set_option(): incompatible function arguments.")
  end.

(** [sensor.get_option(option)] *)
Definition sensor_get_option (s : sensor) (o : option_arg) : outcome np.float64 :=
  match o with
  | option name =>
      match assoc name s with
      | Some st => Return (opt_value st)
      | None => Raise (RuntimeError "object doesn't support option")
      end
  | not_an_option _ => Raise (TypeError "get_option(): incompatible function arguments.")
  end.

(** [int(x)] of a float: truncation; not defined for infinities and NaN. *)
Definition int_of_float (x : np.float64) : outcome Z :=
  match x with
  | S754_zero _ | S754_finite _ _ _ => Return (np.trunc x)
  | _ => Raise (Exception "cannot convert float to integer")
  end.

End rs.

(** ** Polling loops

    [while not x: x = body()]: the body runs until it yields a value.
    [fuel] bounds the number of iterations the model follows; [None] means
    the loop is still running after [fuel] iterations. *)

Fixpoint while_not {S A : Type} (fuel : nat) (body : Py S (option A)) : Py S (option A) :=
  match fuel with
  | O => ret None
  | S n =>
      bind body (fun r =>
                   match r with
                   | Some a => ret (Some a)
                   | None => while_not n body
                   end)
  end.

(** ** IntelRealsense.py *)

Module IntelRealsense.

Import Camera.

(** The attributes of an [IntelRealsense] object. *)
Record instance : Type := mk_instance {
  camera_name : string;
  rgb_resolution : Resolution;
  depth_resolution : Resolution;
  fps : Z;
  serial_number : string;
  pipeline : rs.pipeline;
  intr : Intrinsics;
  mm2m_conversion : Z
}.

Definition start_failed_message : string :=
  LF ++ ESC ++ "[1;31;40mError during camera initialization." ++ LF
     ++ "Make sure to have set the right RGB camera resolution. Some cameras doesn't have FullHD resolution (e.g. Intel Realsense D455)."
     ++ LF
     ++ "If you have connected more cameras make sure to insert the serial numbers to distinguish cameras during initialization."
     ++ ESC ++ "[0m" ++ LF.

#[global] Instance Console_stdout : Console (list string) := {
  get_stdout := fun s => s;
  set_stdout := fun out _ => out
}.

(** The configuration the constructor requests: the device when a serial
    number is given, one depth stream and one colour stream. *)
Definition stream_config (base : Camera.Config) : rs.config :=
let config := rs.config_new in
let config :=
  if negb (String.eqb (Camera.serial_number base) "")
  then rs.enable_device config (Camera.serial_number base)
  else config in
(* set resolutions *)
let config := rs.enable_stream config rs.depth 1280 720 rs.z16 (Camera.fps base) in
if Resolution_eqb (Camera.rgb_resolution base) HD
then rs.enable_stream config rs.color 1280 720 rs.bgr8 (Camera.fps base)
else rs.enable_stream config rs.color 1920 1080 rs.bgr8 (Camera.fps base).

(** [IntelRealsense(rgb_resolution, depth_resolution, fps, serial_number,
    depth_in_meters)], run against the devices [connected] to the host;
    the state is the standard output. *)
Definition __init__ (connected : list rs.device)
           (rgb_resolution depth_resolution : Resolution) (fps : Z)
           (serial_number : string) (depth_in_meters : bool)
  : Py (list string) instance :=
let camera_name := "Intel Realsense" in
let base := Camera.__init__ rgb_resolution depth_resolution fps serial_number in
(* start camera *)
let pipeline := rs.pipeline_new in
let config := stream_config base in
(* Start streaming *)
match rs.start connected pipeline config with
| (Raise (RuntimeError _), _) =>
    (print start_failed_message ;;; exit 1)%py
| (Raise e, _) => raise e
| (SystemExit c, _) => exit c
| (Return cfg, pipeline) =>
    match rs.get_stream cfg rs.color with
    | None => raise (RuntimeError "Profile does not contain the requested stream")
    | Some profile =>
        let intr := rs.intrinsics_of (rs.pp_device cfg) profile in
        let intr := mk_Intrinsics (rs.fx intr) (rs.fy intr) (rs.ppx intr) (rs.ppy intr)
                                  (rs.width intr) (rs.height intr) in
        let mm2m_conversion := if depth_in_meters then 1000 else 1 in
        (print (camera_name ++ " " ++ Camera.serial_number base
                            ++ " camera configured." ++ LF) ;;;
         ret (mk_instance camera_name (Camera.rgb_resolution base)
                          (Camera.depth_resolution base) (Camera.fps base)
                          (Camera.serial_number base) pipeline intr
                          mm2m_conversion))%py
    end
end.

(** The state of the methods: the object and the standard output. *)
Record State : Type := mk_State {
  self : instance;
  stdout : list string
}.

#[global] Instance Console_State : Console State := {
  get_stdout := stdout;
  set_stdout := fun out s => mk_State (self s) out
}.

Definition set_pipeline (p : rs.pipeline) (s : State) : State :=
  let o := self s in
  mk_State (mk_instance (camera_name o) (rgb_resolution o) (depth_resolution o) (fps o)
                        (serial_number o) p (intr o) (mm2m_conversion o))
           (stdout s).

(** A call on [self.pipeline]. *)
Definition on_pipeline {A : Type} (op : rs.pipeline -> outcome A * rs.pipeline)
  : Py State A :=
  fun s => let (r, p) := op (pipeline (self s)) in (r, set_pipeline p s).

Definition lift {A : Type} (r : outcome A) : Py State A := fun s => (r, s).

Definition closed_message (o : instance) : string :=
  camera_name o ++ " " ++ serial_number o ++ " camera closed".

Definition exception_message (ex : exn) : string :=
  ESC ++ "[0;33;40mException (" ++ exn_name ex ++ "): " ++ exn_str ex ++ ESC ++ "[0m".

Definition __del__ : Py State unit :=
  try_except
    (on_pipeline rs.stop ;;;
     o <- get ;;
     print (closed_message (self o)))%py
    is_RuntimeError
    (fun ex => print (exception_message ex)).

(** [get_rgb]: poll until a colour frame arrives, return its data. *)
Definition get_rgb (fuel : nat) : Py State (option np.ndarray) :=
  (color_frame <- while_not fuel
                    (frames <- on_pipeline rs.wait_for_frames ;;
                     ret (rs.get_color_frame frames)) ;;
   ret (option_map rs.get_data color_frame))%py.

(** The conversion of [get_depth]:
    [np.asanyarray(np.asanyarray(data, dtype=np.uint16) / mm2m, dtype=np.uint16)] *)
Definition depth_once (mm2m_conversion : Z) (data : np.ndarray) : np.ndarray :=
  let depth_frame := np.astype np.uint16 data in
  np.astype_f np.uint16 (np.true_divide depth_frame mm2m_conversion).

Definition get_depth (fuel : nat) : Py State (option np.ndarray) :=
  (depth_frame <- while_not fuel
                    (frames <- on_pipeline rs.wait_for_frames ;;
                     ret (rs.get_depth_frame frames)) ;;
   s <- get ;;
   ret (option_map (fun f => depth_once (mm2m_conversion (self s)) (rs.get_data f))
                   depth_frame))%py.

(** The conversion of [get_frames] and [get_aligned_frames]:
    [depth_frame = np.asanyarray(data) / mm2m] and then
    [np.asanyarray(depth_frame / mm2m, dtype=np.uint16)] *)
Definition depth_of_frames (mm2m_conversion : Z) (data : np.ndarray) : np.ndarray :=
  let depth_frame := np.true_divide data mm2m_conversion in
  np.astype_f np.uint16 (np.fdivide depth_frame mm2m_conversion).

(** Both frames, once both are present. *)
Definition both (depth_frame_cam color_frame_cam : option rs.frame)
  : option (rs.frame * rs.frame) :=
  match color_frame_cam, depth_frame_cam with
  | Some c, Some d => Some (d, c)
  | _, _ => None
  end.

Definition frames_result (mm2m_conversion : Z) (fr : rs.frame * rs.frame)
  : np.ndarray * np.ndarray :=
  let (depth_frame_cam, color_frame_cam) := fr in
  (rs.get_data color_frame_cam,
   depth_of_frames mm2m_conversion (rs.get_data depth_frame_cam)).

Definition get_frames (fuel : nat) : Py State (option (np.ndarray * np.ndarray)) :=
  (fr <- while_not fuel
           (frames <- on_pipeline rs.wait_for_frames ;;
            ret (both (rs.get_depth_frame frames) (rs.get_color_frame frames))) ;;
   s <- get ;;
   ret (option_map (frames_result (mm2m_conversion (self s))) fr))%py.

Section Aligned.

(** [rs.align(target).process(frames)]: the reprojection is the SDK's. *)
Variable align_process : rs.stream -> rs.composite_frame -> rs.composite_frame.

Definition get_aligned_frames (fuel : nat)
  : Py State (option (np.ndarray * np.ndarray)) :=
  (fr <- while_not fuel
           (frames <- on_pipeline rs.wait_for_frames ;;
            let aligned_frames := align_process rs.color frames in
            color_frame_cam <- lift (rs.first aligned_frames rs.color) ;;
            let depth_frame_cam := rs.get_depth_frame aligned_frames in
            ret (both depth_frame_cam (Some color_frame_cam))) ;;
   s <- get ;;
   ret (option_map (frames_result (mm2m_conversion (self s))) fr))%py.

End Aligned.

(** [self.pipeline.get_active_profile().get_device().query_sensors()[1]] *)
Definition second_sensor (p : rs.pipeline) : outcome rs.sensor * rs.pipeline :=
  match rs.active_profile p with
  | None => (Raise (RuntimeError "get_active_profile() can only be called between a start() and a following stop()"), p)
  | Some pp =>
      match nth_error (rs.sensors (rs.pp_device pp)) 1 with
      | Some sensor => (Return sensor, p)
      | None => (Raise (IndexError "list index out of range"), p)
      end
  end.

Fixpoint list_set {A : Type} (l : list A) (i : nat) (x : A) : list A :=
  match l, i with
  | [], _ => []
  | _ :: t, O => x :: t
  | h :: t, S j => h :: list_set t j x
  end.

(** The effect of [sensor.set_option] on the device behind the pipeline. *)
Definition store_second_sensor (sensor : rs.sensor) (p : rs.pipeline)
  : outcome unit * rs.pipeline :=
  match rs.active_profile p with
  | None => (Return tt, p)
  | Some pp =>
      let d := rs.pp_device pp in
      let d' := rs.mk_device (rs.serial d) (rs.supports d) (rs.intrinsics_of d)
                             (list_set (rs.sensors d) 1 sensor) (rs.feed d) in
      (Return tt, rs.mk_pipeline (Some (rs.mk_pipeline_profile d' (rs.pp_streams pp))))
  end.

(** [int(value)] *)
Definition int_of_value (value : rs.value_arg) : outcome Z :=
  match value with
  | rs.py_int z => Return z
  | rs.py_float x => rs.int_of_float x
  | rs.not_a_number _ => Raise (TypeError "int() argument must be a number")
  end.

Definition set_option (option : rs.option_arg) (value : rs.value_arg) : Py State unit :=
  let option_name := rs.option_str option in
  try_except
    (sensor <- on_pipeline second_sensor ;;
     sensor <- lift (rs.sensor_set_option sensor option value) ;;
     on_pipeline (store_second_sensor sensor) ;;;
     let option_name := upper (replace "option." "" (rs.option_str option)) in
     v <- lift (int_of_value value) ;;
     print ("Option " ++ option_name ++ " changed to value: " ++ str_Z v))%py
    is_TypeError
    (fun ex => print (ESC ++ "[0;33;40m Exception (" ++ exn_name ex
                          ++ "): the option " ++ option_name ++ " has NOT been set.")).

Definition get_option (option : rs.option_arg) : Py State unit :=
  let option_name := upper (replace "option." "" (rs.option_str option)) in
  try_except
    (sensor <- on_pipeline second_sensor ;;
     value <- lift (rs.sensor_get_option sensor option) ;;
     v <- lift (rs.int_of_float value) ;;
     print ("Option " ++ option_name ++ " value: " ++ str_Z v))%py
    is_TypeError
    (fun ex => print (ESC ++ "[1;33;40m Exception (" ++ exn_name ex
                          ++ "): the option " ++ option_name ++ " has NOT been set.")).

End IntelRealsense.

(** ** NumPy views of a raw buffer *)

Module npview.

(** Two bytes read as one little-endian [uint16]. *)
Fixpoint le_pairs (b : list Z) : list Z :=
  match b with
  | lo :: hi :: rest => (lo + 256 * hi) :: le_pairs rest
  | _ => []
  end.

(** [np.ctypeslib.as_array(pdata, shape=(h, w, n))]: the bytes as they are. *)
Definition as_array (pdata : list byte) (h w n : nat) : np.ndarray :=
  np.mk_ndarray np.uint8 [h; w; n] (map (fun b => Z.of_N (Byte.to_N b)) pdata).

(** [a.view(np.uint16)] of a 3-D [uint8] array: the last axis halves. *)
Definition view_uint16 (a : np.ndarray) : np.ndarray :=
  np.mk_ndarray np.uint16
                [nth 0 (np.shape a) 0%nat; nth 1 (np.shape a) 0%nat;
                 (nth 2 (np.shape a) 0 / 2)%nat]
                (le_pairs (np.flat a)).

(** [a[:, :, k] = v]: channel [k] of [a] overwritten by the 2-D
    [float64] array [v], whose samples are converted to the element type
    of [a]. *)
Definition set_channel (a : np.ndarray) (k : nat) (v : np.farray) : np.ndarray :=
  let ch := nth 2 (np.shape a) 0%nat in
  np.mk_ndarray (np.dtype_of a) (np.shape a)
                (map (fun i => if (i mod ch =? k)%nat
                               then np.cast_float (np.dtype_of a)
                                                  (nth (i / ch) (np.fflat v) (S754_zero false))
                               else nth i (np.flat a) 0)
                     (seq 0 (List.length (np.flat a)))).

End npview.

(** ** OpenCV: [cv2.normalize(src, dst, alpha, beta, cv2.NORM_MINMAX)]

    OpenCV is external. The model follows the library's definition of
    min-max normalisation: with [smin], [smax] the extreme samples of [src],
    [scale = (dmax - dmin) / (smax - smin)] (0 when the samples do not
    differ by more than [DBL_EPSILON]), [shift = dmin - smin * scale], and
    every sample becomes [saturate(round(x * scale + shift))] in the element
    type of [dst]. The arithmetic is exact (rationals); rounding is to the
    nearest integer, ties to even, as [cvRound] does. OpenCV evaluates the
    same expression in floating point (scale and shift in double, the
    conversion of the samples in single precision), so a sample strictly
    between the extremes can come out differently from the exact value;
    what is proved of this model is about the extreme samples, the frame
    whose samples are all equal, and the shape and type of the result. *)

Module cv2.

Definition minimum (l : list Z) : Z := fold_right Z.min (hd 0 l) l.
Definition maximum (l : list Z) : Z := fold_right Z.max (hd 0 l) l.

Definition DBL_EPSILON : Q := 1 # (2 ^ 52).

Definition cvRound (x : Q) : Z :=
  let f := Qfloor x in
  match Qcompare (x - inject_Z f) (1 # 2) with
  | Lt => f
  | Gt => f + 1
  | Eq => if Z.even f then f else f + 1
  end.

(** [saturate_cast] to an unsigned type of [bits d] bits. *)
Definition saturate_cast (d : np.dtype) (v : Z) : Z :=
  Z.max 0 (Z.min (2 ^ np.bits d - 1) v).

Definition minmax_scale (smin smax dmin dmax : Z) : Q :=
  (inject_Z (dmax - dmin)
   * (if Qle_bool (inject_Z smax - inject_Z smin) DBL_EPSILON
      then 0
      else 1 / (inject_Z smax - inject_Z smin)))%Q.

Definition minmax_shift (smin dmin : Z) (scale : Q) : Q :=
  (inject_Z dmin - inject_Z smin * scale)%Q.

Definition convert (d : np.dtype) (scale shift : Q) (x : Z) : Z :=
  saturate_cast d (cvRound (inject_Z x * scale + shift)%Q).

(** The array left in [dst] when [dst] is [src] itself. *)
Definition normalize_minmax (src : np.ndarray) (alpha beta : Z) : np.ndarray :=
  let smin := minimum (np.flat src) in
  let smax := maximum (np.flat src) in
  let dmin := Z.min alpha beta in
  let dmax := Z.max alpha beta in
  let scale := minmax_scale smin smax dmin dmax in
  let shift := minmax_shift smin dmin scale in
  np.mk_ndarray (np.dtype_of src) (np.shape src)
                (map (convert (np.dtype_of src) scale shift) (np.flat src)).

End cv2.

(** ** arena_api, as far as the adapter uses it

    The SDK is external. A device is its node map (the nodes the adapter
    reads or writes, one field per node), its transport-layer stream node
    map, the streaming flag and the buffers it will deliver. The values of
    [Scan3dCoordinateScale] and [Scan3dCoordinateOffset] are those of the
    coordinate chosen by [Scan3dCoordinateSelector]. *)

Module arena.

Record Buffer : Type := mk_Buffer {
  pdata : list byte;
  width : nat;
  height : nat;
  bits_per_pixel : nat
}.

Record Nodemap : Type := mk_Nodemap {
  DeviceSerialNumber : string;
  CalibFocalLengthX : np.float64;
  CalibFocalLengthY : np.float64;
  CalibOpticalCenterX : np.float64;
  CalibOpticalCenterY : np.float64;
  Width : nat;
  Height : nat;
  PixelFormat : string;
  Scan3dConfidenceThresholdEnable : bool;
  Scan3dAmplitudeGain : np.float64;
  Scan3dCoordinateSelector : string;
  coordinate_scale : string -> np.float64;
  coordinate_offset : string -> np.float64
}.

Definition Scan3dCoordinateScale (n : Nodemap) : np.float64 :=
  coordinate_scale n (Scan3dCoordinateSelector n).

Definition Scan3dCoordinateOffset (n : Nodemap) : np.float64 :=
  coordinate_offset n (Scan3dCoordinateSelector n).

Record StreamNodemap : Type := mk_StreamNodemap {
  StreamBufferHandlingMode : string;
  StreamAutoNegotiatePacketSize : bool;
  StreamPacketResendEnable : bool
}.

Record Device : Type := mk_Device {
  nodemap : Nodemap;
  tl_stream_nodemap : StreamNodemap;
  streaming : bool;
  queue : list Buffer
}.

(** Node assignments, [nodemap[name].value = v]. *)
Definition set_PixelFormat (v : string) (n : Nodemap) : Nodemap :=
  mk_Nodemap (DeviceSerialNumber n) (CalibFocalLengthX n) (CalibFocalLengthY n)
             (CalibOpticalCenterX n) (CalibOpticalCenterY n) (Width n) (Height n)
             v (Scan3dConfidenceThresholdEnable n) (Scan3dAmplitudeGain n)
             (Scan3dCoordinateSelector n) (coordinate_scale n) (coordinate_offset n).

Definition set_Scan3dConfidenceThresholdEnable (v : bool) (n : Nodemap) : Nodemap :=
  mk_Nodemap (DeviceSerialNumber n) (CalibFocalLengthX n) (CalibFocalLengthY n)
             (CalibOpticalCenterX n) (CalibOpticalCenterY n) (Width n) (Height n)
             (PixelFormat n) v (Scan3dAmplitudeGain n)
             (Scan3dCoordinateSelector n) (coordinate_scale n) (coordinate_offset n).

Definition set_Scan3dAmplitudeGain (v : np.float64) (n : Nodemap) : Nodemap :=
  mk_Nodemap (DeviceSerialNumber n) (CalibFocalLengthX n) (CalibFocalLengthY n)
             (CalibOpticalCenterX n) (CalibOpticalCenterY n) (Width n) (Height n)
             (PixelFormat n) (Scan3dConfidenceThresholdEnable n) v
             (Scan3dCoordinateSelector n) (coordinate_scale n) (coordinate_offset n).

Definition set_Scan3dCoordinateSelector (v : string) (n : Nodemap) : Nodemap :=
  mk_Nodemap (DeviceSerialNumber n) (CalibFocalLengthX n) (CalibFocalLengthY n)
             (CalibOpticalCenterX n) (CalibOpticalCenterY n) (Width n) (Height n)
             (PixelFormat n) (Scan3dConfidenceThresholdEnable n) (Scan3dAmplitudeGain n)
             v (coordinate_scale n) (coordinate_offset n).

Definition set_nodemap (n : Nodemap) (d : Device) : Device :=
  mk_Device n (tl_stream_nodemap d) (streaming d) (queue d).

Definition set_tl_stream_nodemap (t : StreamNodemap) (d : Device) : Device :=
  mk_Device (nodemap d) t (streaming d) (queue d).

(** [device.start_stream()] *)
Definition start_stream (d : Device) : Device :=
  mk_Device (nodemap d) (tl_stream_nodemap d) true (queue d).

(** [device.get_buffer()]: the next buffer, or the SDK's timeout error. *)
Definition get_buffer (d : Device) : outcome Buffer * Device :=
  match queue d with
  | [] => (Raise (TimeoutError "get_buffer timed out"), d)
  | b :: rest => (Return b, mk_Device (nodemap d) (tl_stream_nodemap d) (streaming d) rest)
  end.

(** [BufferFactory.copy(buffer)]: a private copy with the same content. *)
Definition copy (b : Buffer) : Buffer :=
  mk_Buffer (pdata b) (width b) (height b) (bits_per_pixel b).

(** [device.requeue_buffer(buffer)]: the buffer goes back to the pool of
    the device; the data the device will deliver is not affected. *)
Definition requeue_buffer (d : Device) (b : Buffer) : Device := d.

(** The process-wide [system] object: what each successive call of
    [create_device] discovers, the number of calls made so far, and the
    devices currently created. *)
Record System : Type := mk_System {
  discover : nat -> list Device;
  calls : nat;
  created : list Device
}.

(** [system.create_device()]: creates every discovered device. *)
Definition create_device (sys : System) : list Device * System :=
  let devices := discover sys (calls sys) in
  (devices, mk_System (discover sys) (S (calls sys)) devices).

End arena.

(** ** Helios.py *)

Module Helios.

Import Camera.

(** The attributes of a [Helios] object. *)
Record instance : Type := mk_instance {
  camera_name : string;
  rgb_resolution : Resolution;
  depth_resolution : Resolution;
  fps : Z;
  serial_number : string;
  pipeline : arena.Device;
  intr : Intrinsics;
  scale_A : np.float64;
  offset_A : np.float64;
  scale_B : np.float64;
  offset_B : np.float64;
  scale_C : np.float64;
  offset_C : np.float64
}.

(** The process around the constructor: the SDK's [system] object, the
    standard output, and the seconds spent in [time.sleep]. *)
Record World : Type := mk_World {
  system : arena.System;
  stdout : list string;
  slept : nat
}.

#[global] Instance Console_World : Console World := {
  get_stdout := stdout;
  set_stdout := fun out w => mk_World (system w) out (slept w)
}.

(** [print(text, end=e)] *)
Definition print_end (text e : string) : Py World unit :=
  modify (fun w => mk_World (system w) (stdout w ++ [(text ++ e)%string]) (slept w)).

(** [time.sleep(secs)] *)
Definition sleep (secs : nat) : Py World unit :=
  modify (fun w => mk_World (system w) (stdout w) (slept w + secs)).

(** [system.create_device()] *)
Definition create_device : Py World (list arena.Device) :=
  fun w =>
    let (devices, sys) := arena.create_device (system w) in
    (Return devices, mk_World sys (stdout w) (slept w)).

(** [for x in l: body(x)] *)
Fixpoint for_each {S A : Type} (l : list A) (body : A -> Py S unit) : Py S unit :=
  match l with
  | [] => ret tt
  | x :: rest => bind (body x) (fun _ => for_each rest body)
  end.

Definition tries_max : nat := 6.
Definition sleep_time_secs : nat := 3.

Definition no_device_message : string :=
  "No device found! Please connect a device and run the example again.".

(** The discovery loop, [while tries < tries_max: ... else: raise ...];
    [remaining] is [tries_max - tries]. *)
Fixpoint wait_for_device (remaining tries : nat) : Py World (list arena.Device) :=
  match remaining with
  | O => raise (Exception no_device_message)
  | S remaining' =>
      (devices <- create_device ;;
       match devices with
       | [] =>
           print ("Try " ++ str_nat (tries + 1) ++ " of " ++ str_nat tries_max
                         ++ ": waiting for " ++ str_nat sleep_time_secs
                         ++ " secs for a device to be connected!") ;;;
           for_each (seq 0 sleep_time_secs)
                    (fun sec_count =>
                       sleep 1 ;;;
                       print_end (str_nat (sec_count + 1) ++ " seconds passed " ++ " "
                                          ++ str_repeat "." sec_count) CR) ;;;
           wait_for_device remaining' (tries + 1)
       | _ :: _ =>
           print ("Created " ++ str_nat (List.length devices) ++ " device(s)") ;;;
           ret devices
       end)%py
  end.

(** The device after the node assignments of the constructor, up to the
    coordinate selector. *)
Definition configure_nodes (d : arena.Device) : arena.Device :=
  let nodemap := arena.nodemap d in
  (* if true makes black where the confidence is not high *)
  let nodemap := arena.set_Scan3dConfidenceThresholdEnable false nodemap in
  let nodemap := arena.set_Scan3dAmplitudeGain (np.of_int 5) nodemap in
  let nodemap := arena.set_PixelFormat "Coord3D_ABCY16" nodemap in
  (* Stream nodemap *)
  let tl_stream_nodemap := arena.mk_StreamNodemap "NewestOnly" true true in
  arena.set_tl_stream_nodemap tl_stream_nodemap (arena.set_nodemap nodemap d).

Definition select_coordinate (c : string) (d : arena.Device) : arena.Device :=
  arena.set_nodemap (arena.set_Scan3dCoordinateSelector c (arena.nodemap d)) d.

(** [Helios(rgb_resolution, depth_resolution, fps, serial_number,
    depth_in_meters)] *)
Definition __init__ (rgb_resolution depth_resolution : Resolution) (fps : Z)
           (serial_number : string) (depth_in_meters : bool)
  : Py World instance :=
  let camera_name := "LucidVision Helios" in
  let base := Camera.__init__ rgb_resolution depth_resolution fps serial_number in
  let tries := 0%nat in
  (devices <- wait_for_device (tries_max - tries) tries ;;
   match devices with
   | [] => raise (IndexError "list index out of range")
   | pipeline :: _ =>
       let nodemap := arena.nodemap pipeline in
       (* CAMERA INTRINSICS *)
       let intr := mk_Intrinsics (arena.CalibFocalLengthX nodemap)
                                 (arena.CalibFocalLengthY nodemap)
                                 (arena.CalibOpticalCenterX nodemap)
                                 (arena.CalibOpticalCenterY nodemap)
                                 (arena.Width nodemap) (arena.Height nodemap) in
       let serial_number := arena.DeviceSerialNumber nodemap in
       let pipeline := configure_nodes pipeline in
       let pipeline := select_coordinate "CoordinateA" pipeline in
       let scale_A := arena.Scan3dCoordinateScale (arena.nodemap pipeline) in
       let offset_A := arena.Scan3dCoordinateOffset (arena.nodemap pipeline) in
       let pipeline := select_coordinate "CoordinateB" pipeline in
       let scale_B := arena.Scan3dCoordinateScale (arena.nodemap pipeline) in
       let offset_B := arena.Scan3dCoordinateOffset (arena.nodemap pipeline) in
       let pipeline := select_coordinate "CoordinateC" pipeline in
       let scale_C := arena.Scan3dCoordinateScale (arena.nodemap pipeline) in
       let offset_C := arena.Scan3dCoordinateOffset (arena.nodemap pipeline) in
       let pipeline := arena.start_stream pipeline in
       print (camera_name ++ " " ++ serial_number ++ " camera configured." ++ LF) ;;;
       ret (mk_instance camera_name (Camera.rgb_resolution base)
                        (Camera.depth_resolution base) (Camera.fps base)
                        serial_number pipeline intr
                        scale_A offset_A scale_B offset_B scale_C offset_C)
   end)%py.

(** The state of the methods: the object and the process around it. *)
Record State : Type := mk_State {
  self : instance;
  world : World
}.

#[global] Instance Console_State : Console State := {
  get_stdout := fun s => stdout (world s);
  set_stdout := fun out s => mk_State (self s) (set_stdout out (world s))
}.

Definition set_pipeline (d : arena.Device) (s : State) : State :=
  let o := self s in
  mk_State (mk_instance (camera_name o) (rgb_resolution o) (depth_resolution o) (fps o)
                        (serial_number o) d (intr o) (scale_A o) (offset_A o)
                        (scale_B o) (offset_B o) (scale_C o) (offset_C o))
           (world s).

(** A call on [self.pipeline]. *)
Definition on_pipeline {A : Type} (op : arena.Device -> outcome A * arena.Device)
  : Py State A :=
  fun s => let (r, d) := op (pipeline (self s)) in (r, set_pipeline d s).

Definition requeue_buffer (buffer : arena.Buffer) : Py State unit :=
  on_pipeline (fun d => (Return tt, arena.requeue_buffer d buffer)).

(** [np.ctypeslib.as_array(item.pdata, shape=(item.height, item.width,
    int(item.bits_per_pixel / 8))).view(np.uint16)] *)
Definition uint16_view (item : arena.Buffer) : np.ndarray :=
  npview.view_uint16
    (npview.as_array (arena.pdata item) (arena.height item) (arena.width item)
                     (arena.bits_per_pixel item / 8)%nat).

(** The intensity image of a decoded buffer. *)
Definition intensity_of (npndarray : np.ndarray) : np.ndarray :=
  let intensity := np.astype np.uint16 (np.channel npndarray 3) in
  let intensity := cv2.normalize_minmax intensity 0 255 in
  np.astype np.uint8 intensity.

(** [npndarray[:,:,2] = npndarray[:,:,2] * scale_C + offset_C] *)
Definition rescale_z (o : instance) (npndarray : np.ndarray) : np.ndarray :=
  npview.set_channel npndarray 2
                     (np.scale_offset (np.channel npndarray 2) (scale_C o) (offset_C o)).

Definition get_rgb : Py State np.ndarray :=
  (buffer <- on_pipeline arena.get_buffer ;;
   let item := arena.copy buffer in
   requeue_buffer buffer ;;;
   let npndarray := uint16_view item in
   ret (intensity_of npndarray))%py.

Definition get_depth : Py State np.ndarray :=
  (buffer <- on_pipeline arena.get_buffer ;;
   let item := arena.copy buffer in
   requeue_buffer buffer ;;;
   s <- get ;;
   let npndarray := uint16_view item in
   let npndarray := rescale_z (self s) npndarray in
   let depth := np.astype np.uint16 (np.channel npndarray 2) in
   ret depth)%py.

Definition get_frames : Py State (np.ndarray * np.ndarray) :=
  (buffer <- on_pipeline arena.get_buffer ;;
   let item := arena.copy buffer in
   requeue_buffer buffer ;;;
   s <- get ;;
   let npndarray := uint16_view item in
   let npndarray := rescale_z (self s) npndarray in
   let depth := np.astype np.uint16 (np.channel npndarray 2) in
   let intensity := intensity_of npndarray in
   ret (intensity, depth))%py.

Definition get_aligned_frames : Py State (np.ndarray * np.ndarray) :=
  get_frames.

Definition closed_message (o : instance) : string :=
  camera_name o ++ " " ++ serial_number o ++ " camera closed".

Definition exception_message (ex : exn) : string :=
  ESC ++ "[0;33;40mException (" ++ exn_name ex ++ "): " ++ exn_str ex ++ ESC ++ "[0m".

Section Teardown.

(** [system.destroy_device()]: the SDK's release of the created devices. *)
Variable destroy_device : arena.System -> outcome unit * arena.System.

Definition on_system {A : Type} (op : arena.System -> outcome A * arena.System)
  : Py State A :=
  fun s =>
    let w := world s in
    let (r, sys) := op (system w) in
    (r, mk_State (self s) (mk_World sys (stdout w) (slept w))).

Definition __del__ : Py State unit :=
  try_except
    (on_system destroy_device ;;;
     s <- get ;;
     print (closed_message (self s)))%py
    is_RuntimeError
    (fun ex => print (exception_message ex)).

End Teardown.

End Helios.

(** ** Sequences of calls on an adapter *)

Module IntelRealsenseCalls.

Import IntelRealsense.

Section Calls.

Variable align_process : rs.stream -> rs.composite_frame -> rs.composite_frame.

(** The frame-retrieval and option operations of the adapter. *)
Inductive call : Type :=
| call_get_rgb (fuel : nat)
| call_get_depth (fuel : nat)
| call_get_frames (fuel : nat)
| call_get_aligned_frames (fuel : nat)
| call_set_option (option : rs.option_arg) (value : rs.value_arg)
| call_get_option (option : rs.option_arg).

(** The state a call leaves, whatever its outcome. *)
Definition run (c : call) (s : State) : State :=
  match c with
  | call_get_rgb fuel => snd (get_rgb fuel s)
  | call_get_depth fuel => snd (get_depth fuel s)
  | call_get_frames fuel => snd (get_frames fuel s)
  | call_get_aligned_frames fuel => snd (get_aligned_frames align_process fuel s)
  | call_set_option option value => snd (set_option option value s)
  | call_get_option option => snd (get_option option s)
  end.

Definition run_all (cs : list call) (s : State) : State :=
  fold_left (fun s c => run c s) cs s.

End Calls.

End IntelRealsenseCalls.

Module HeliosCalls.

Import Helios.

Inductive call : Type :=
| call_get_rgb
| call_get_depth
| call_get_frames
| call_get_aligned_frames.

Definition run (c : call) (s : State) : State :=
  match c with
  | call_get_rgb => snd (get_rgb s)
  | call_get_depth => snd (get_depth s)
  | call_get_frames => snd (get_frames s)
  | call_get_aligned_frames => snd (get_aligned_frames s)
  end.

Definition run_all (cs : list call) (s : State) : State :=
  fold_left (fun s c => run c s) cs s.

End HeliosCalls.

(** ** Sample devices and buffers, for the concrete runs below *)

Module Samples.

Definition quarter : np.float64 := np.div (np.of_int 1) (np.of_int 4).

(** A RealSense camera that streams 1280x720 only (no FullHD colour). *)
Definition d455_supports (sp : rs.stream_profile) : bool :=
  ((rs.sp_width sp =? 1280) && (rs.sp_height sp =? 720))%nat.

Definition d455_intrinsics (sp : rs.stream_profile) : rs.intrinsics :=
  rs.mk_intrinsics (np.of_int 640) (np.of_int 640) (np.of_int 640) (np.of_int 360)
                   (rs.sp_width sp) (rs.sp_height sp).

(** The stereo module and the colour camera, one option each. *)
Definition d455_sensors : list rs.sensor :=
  [ [("laser_power",
      rs.mk_option_state (np.of_int 150) (np.of_int 0) (np.of_int 360) false)];
    [("exposure",
      rs.mk_option_state (np.of_int 156) (np.of_int 1) (np.of_int 10000) false)] ].

(** Captures with a few samples only: a capture without colour, then a
    complete one. *)
Definition short_feed : list rs.capture :=
  [ rs.mk_capture (Some [1; 2; 3; 4]) None;
    rs.mk_capture (Some [2000; 1500; 999; 65535])
                  (Some [10; 20; 30; 40; 50; 60; 70; 80; 90; 100; 110; 120]) ].

Definition d455 : rs.device :=
  rs.mk_device "0001" d455_supports d455_intrinsics d455_sensors short_feed.

(** A camera delivering one full 1280x720 capture. *)
Definition full_depth : list Z := repeat 2000 (720 * 1280).
Definition full_color : list Z := repeat 128 (720 * 1280 * 3).

Definition full_capture : rs.capture := rs.mk_capture (Some full_depth) (Some full_color).

Definition d455_full : rs.device :=
  rs.mk_device "0002" d455_supports d455_intrinsics d455_sensors [full_capture].

(** The alignment that leaves co-registered frames as they are. *)
Definition no_reprojection (target : rs.stream) (fs : rs.composite_frame)
  : rs.composite_frame := fs.

(** A Helios buffer of 1 x 2 pixels in [Coord3D_ABCY16]: 8 bytes a pixel,
    channels A, B, C, Y, little-endian. *)
Definition pixel (a b c y : Z) : list byte :=
  map (fun v => match Byte.of_N (Z.to_N v) with Some x => x | None => x00 end)
      [a mod 256; a / 256; b mod 256; b / 256; c mod 256; c / 256; y mod 256; y / 256].

Definition buffer_1x2 : arena.Buffer :=
  arena.mk_Buffer (pixel 1 2 1000 300 ++ pixel 3 4 2001 500) 2 1 64.

(** A buffer whose two pixels have the same intensity. *)
Definition buffer_flat : arena.Buffer :=
  arena.mk_Buffer (pixel 1 2 1000 7 ++ pixel 3 4 2001 7) 2 1 64.

Definition helios_nodemap (serial : string) : arena.Nodemap :=
  arena.mk_Nodemap serial (np.of_int 500) (np.of_int 500) (np.of_int 320) (np.of_int 240)
                   640 480 "Coord3D_ABC16" true (np.of_int 1) "CoordinateA"
                   (fun _ => quarter) (fun _ => np.of_int 0).

Definition helios_device (serial : string) (queue : list arena.Buffer) : arena.Device :=
  arena.mk_Device (helios_nodemap serial) (arena.mk_StreamNodemap "OldestFirst" false false)
                  false queue.

(** A [Helios] adapter with the given buffers waiting, calibrated to a
    quarter of a unit a step. *)
Definition helios_state (queue : list arena.Buffer) (w : Helios.World) : Helios.State :=
  Helios.mk_State
    (Helios.mk_instance "LucidVision Helios" Camera.HD Camera.HD 30 "H-42"
                        (arena.start_stream (helios_device "H-42" queue))
                        (Camera.mk_Intrinsics (np.of_int 500) (np.of_int 500)
                                              (np.of_int 320) (np.of_int 240) 640 480)
                        quarter (np.of_int 0) quarter (np.of_int 0)
                        quarter (np.of_int 0))
    w.

(** A host where no Helios is ever discovered. *)
Definition no_device : arena.System := arena.mk_System (fun _ => []) 0 [].

(** A host where two devices appear at the third discovery. *)
Definition late_devices : arena.System :=
  arena.mk_System (fun k => if (k <? 2)%nat then []
                            else [helios_device "H-42" [buffer_1x2; buffer_flat];
                                  helios_device "H-77" []])
                  0 [].

Definition empty_world (sys : arena.System) : Helios.World := Helios.mk_World sys [] 0.

(** An SDK whose [destroy_device] fails once nothing is left to release. *)
Definition strict_destroy (sys : arena.System) : outcome unit * arena.System :=
  match arena.created sys with
  | [] => (Raise (RuntimeError "no device to destroy"), sys)
  | _ :: _ => (Return tt, arena.mk_System (arena.discover sys) (arena.calls sys) [])
  end.

(** An SDK whose [destroy_device] has nothing to do, and returns, when no
    device is left to release. *)
Definition lenient_destroy (sys : arena.System) : outcome unit * arena.System :=
  (Return tt, arena.mk_System (arena.discover sys) (arena.calls sys) []).

(** A started [IntelRealsense] on the 1280x720 camera, and a [Helios]
    process in which one device has been created. *)
Definition d455_state : IntelRealsense.State :=
  IntelRealsense.mk_State
    (IntelRealsense.mk_instance
       "Intel Realsense" Camera.HD Camera.HD 30 ""
       (rs.mk_pipeline
          (Some (rs.mk_pipeline_profile
                   d455
                   (rs.cfg_streams
                      (IntelRealsense.stream_config
                         (Camera.__init__ Camera.HD Camera.HD 30 ""))))))
       (Camera.mk_Intrinsics (np.of_int 640) (np.of_int 640) (np.of_int 640)
                             (np.of_int 360) 1280 720)
       1)
    [].

Definition one_created : Helios.World :=
  Helios.mk_World (arena.mk_System (fun _ => []) 1 [helios_device "H-42" []]) [] 0.

End Samples.

(** ** Predicates used in the statements *)

(** A computation keeps a projection of the state when the projection is
    the same after it, whatever the outcome. *)
Definition keeps {S X A : Type} (proj : S -> X) (m : Py S A) : Prop :=
  forall s, proj (snd (m s)) = proj s.

(** What the constructor of an [IntelRealsense] fixes: the intrinsics, the
    serial number, the depth divisor and the profiles of the streams of
    the running pipeline. *)
Definition IntelRealsense_streams (p : rs.pipeline) : option (list rs.stream_profile) :=
  option_map rs.pp_streams (rs.active_profile p).

Definition IntelRealsense_static (s : IntelRealsense.State)
  : Camera.Intrinsics * string * Z * option (list rs.stream_profile) :=
  (IntelRealsense.intr (IntelRealsense.self s),
   IntelRealsense.serial_number (IntelRealsense.self s),
   IntelRealsense.mm2m_conversion (IntelRealsense.self s),
   IntelRealsense_streams (IntelRealsense.pipeline (IntelRealsense.self s))).

(** The intrinsics and the serial number of a [Helios], with its depth
    calibration. *)
Definition Helios_static (s : Helios.State)
  : Camera.Intrinsics * string * np.float64 * np.float64 :=
  (Helios.intr (Helios.self s), Helios.serial_number (Helios.self s),
   Helios.scale_C (Helios.self s), Helios.offset_C (Helios.self s)).

(** A buffer in [Coord3D_ABCY16]: 64 bits a pixel, and as many bytes as
    its height and width ask for. *)
Definition Coord3D_ABCY16_buffer (b : arena.Buffer) : Prop :=
  arena.bits_per_pixel b = 64%nat
  /\ List.length (arena.pdata b) = (arena.height b * arena.width b * 8)%nat.

(** The captures the device behind the pipeline has still to deliver. *)
Definition IntelRealsense_feed (s : IntelRealsense.State) : list rs.capture :=
  match rs.active_profile (IntelRealsense.pipeline (IntelRealsense.self s)) with
  | Some pp => rs.feed (rs.pp_device pp)
  | None => []
  end.

(** [s1] comes after [s]: nothing fixed has changed, and the device has
    delivered some of its captures. *)
Definition IntelRealsense_later (s s1 : IntelRealsense.State) : Prop :=
  IntelRealsense_static s1 = IntelRealsense_static s
  /\ exists k, IntelRealsense_feed s1 = skipn k (IntelRealsense_feed s).

(** [frames] is a frame set the pipeline hands out from state [s] on: a
    capture of the device, under the profiles of the running streams. *)
Definition IntelRealsense_delivers (s : IntelRealsense.State) (frames : rs.composite_frame)
  : Prop :=
  exists streams cap,
    IntelRealsense_streams (IntelRealsense.pipeline (IntelRealsense.self s)) = Some streams
    /\ In cap (IntelRealsense_feed s)
    /\ frames = rs.frameset_of streams cap.

(** [P] at the [n] integers from [x] on. *)
Fixpoint all_from (n : nat) (x : Z) (P : Z -> bool) : bool :=
  match n with
  | O => true
  | S n' => P x && all_from n' (x + 1) P
  end.

(** What the depth conversions of [IntelRealsense] give for one raw sample:
    dividing by 1, once or twice, gives the sample back, and dividing by
    1000 gives the whole thousands. *)
Definition depth_conversions_agree (x : Z) : bool :=
  let one := np.div (np.of_int x) (np.of_int 1) in
  (np.cast_float np.uint16 one =? x)
  && (np.cast_float np.uint16 (np.div one (np.of_int 1)) =? x)
  && (np.cast_float np.uint16 (np.div (np.of_int x) (np.of_int 1000)) =? x / 1000).

(** The two streams the [IntelRealsense] constructor asks for, and the
    devices that can serve a request: the serial number when one is given,
    and both streams. *)
Definition IntelRealsense_requests (rgb : Camera.Resolution) (fps : Z)
  : list rs.stream_profile :=
  [rs.mk_stream_profile rs.depth 1280 720 rs.z16 fps;
   if Camera.Resolution_eqb rgb Camera.HD
   then rs.mk_stream_profile rs.color 1280 720 rs.bgr8 fps
   else rs.mk_stream_profile rs.color 1920 1080 rs.bgr8 fps].

Definition IntelRealsense_serves (rgb : Camera.Resolution) (fps : Z) (sn : string)
           (d : rs.device) : bool :=
  (String.eqb sn "" || String.eqb sn (rs.serial d))
  && forallb (rs.supports d) (IntelRealsense_requests rgb fps).

(** An [IntelRealsense] state seen through [g]: every attribute of the
    object but the pipeline, and what [g] shows of the pipeline. *)
Definition IntelRealsense_view {Y : Type} (g : rs.pipeline -> Y) (s : IntelRealsense.State) :=
  let o := IntelRealsense.self s in
  (IntelRealsense.camera_name o, IntelRealsense.rgb_resolution o,
   IntelRealsense.depth_resolution o, IntelRealsense.fps o,
   IntelRealsense.serial_number o, IntelRealsense.intr o,
   IntelRealsense.mm2m_conversion o, g (IntelRealsense.pipeline o)).

(** Of a pipeline: whether it is started, the streams, and the device
    without its captures and the options of its sensors. *)
Definition pipeline_binding (p : rs.pipeline) :=
  option_map (fun pp => let d := rs.pp_device pp in
                        (rs.serial d, rs.supports d, rs.intrinsics_of d,
                         List.length (rs.sensors d), rs.pp_streams pp))
             (rs.active_profile p).

Definition pipeline_sensors (p : rs.pipeline) : option (list rs.sensor) :=
  option_map (fun pp => rs.sensors (rs.pp_device pp)) (rs.active_profile p).

Definition pipeline_feed (p : rs.pipeline) : option (list rs.capture) :=
  option_map (fun pp => rs.feed (rs.pp_device pp)) (rs.active_profile p).

(** What a [Helios] call cannot reach: the name and the serial number of
    the object, and the process around it. *)
Definition Helios_surroundings (s : Helios.State) : string * string * Helios.World :=
  (Helios.camera_name (Helios.self s), Helios.serial_number (Helios.self s),
   Helios.world s).

(** * Properties *)

(** ** The monad *)

Lemma bind_Return_inv {S A B : Type} (m : Py S A) (k : A -> Py S B) s b s' :
  bind m k s = (Return b, s') ->
  exists a s1, m s = (Return a, s1) /\ k a s1 = (Return b, s').
Proof.
  unfold bind. destruct (m s) as [[a | e | c] s1]; intros H; try discriminate.
  now exists a, s1.
Qed.

Lemma bind_Raise {S A B : Type} (m : Py S A) (k : A -> Py S B) s e s1 :
  m s = (Raise e, s1) -> bind m k s = (Raise e, s1).
Proof. intros H. unfold bind. now rewrite H. Qed.

Lemma bind_Return {S A B : Type} (m : Py S A) (k : A -> Py S B) s a s1 :
  m s = (Return a, s1) -> bind m k s = k a s1.
Proof. intros H. unfold bind. now rewrite H. Qed.

Lemma keeps_ret {S X A : Type} (proj : S -> X) (a : A) : keeps proj (ret a).
Proof. intros s. reflexivity. Qed.

Lemma keeps_raise {S X A : Type} (proj : S -> X) e : keeps proj (@raise S A e).
Proof. intros s. reflexivity. Qed.

Lemma keeps_get {S X : Type} (proj : S -> X) : keeps proj get.
Proof. intros s. reflexivity. Qed.

Lemma keeps_bind {S X A B : Type} (proj : S -> X) (m : Py S A) (k : A -> Py S B) :
  keeps proj m -> (forall a, keeps proj (k a)) -> keeps proj (bind m k).
Proof.
  intros Hm Hk s. unfold bind. specialize (Hm s).
  destruct (m s) as [[a | e | c] s1]; simpl in *; try assumption.
  rewrite (Hk a s1). assumption.
Qed.

Lemma keeps_try_except {S X A : Type} (proj : S -> X) (body : Py S A) catches handler :
  keeps proj body -> (forall e, keeps proj (handler e)) ->
  keeps proj (try_except body catches handler).
Proof.
  intros Hb Hh s. unfold try_except. specialize (Hb s).
  destruct (body s) as [[a | e | c] s1]; simpl in *; try assumption.
  destruct (catches e); simpl; try assumption.
  rewrite (Hh e s1). assumption.
Qed.

Lemma keeps_while_not {S X A : Type} (proj : S -> X) (body : Py S (option A)) fuel :
  keeps proj body -> keeps proj (while_not fuel body).
Proof.
  intros Hb. induction fuel as [| n IH]; simpl.
  - apply keeps_ret.
  - apply keeps_bind; [assumption |].
    intros [a |]; [apply keeps_ret | exact IH].
Qed.

Lemma keeps_print {S X : Type} `{Console S} (proj : S -> X) text :
  (forall out s, proj (set_stdout out s) = proj s) -> keeps proj (print text).
Proof. intros Hp s. unfold print, modify. simpl. apply Hp. Qed.

(** When a polling loop yields a value, its last iteration yielded it, in a
    state reached from the first by iterations of the body. *)
Lemma while_not_last {S A : Type} (R : S -> S -> Prop) (body : Py S (option A)) :
  (forall s, R s s) ->
  (forall s1 s2 s3, R s1 s2 -> R s2 s3 -> R s1 s3) ->
  (forall s r s', body s = (r, s') -> R s s') ->
  forall fuel s a s',
    while_not fuel body s = (Return (Some a), s') ->
    exists s1, R s s1 /\ body s1 = (Return (Some a), s').
Proof.
  intros Hrefl Htrans Hstep. induction fuel as [| n IH]; intros s a s' H; simpl in H.
  - discriminate.
  - apply bind_Return_inv in H. destruct H as (r & s1 & Hb & Hk).
    destruct r as [a' |].
    + inversion Hk; subst. exists s. split; [apply Hrefl | assumption].
    + destruct (IH _ _ _ Hk) as (s2 & HR & Hb2).
      exists s2. split; [| assumption].
      eapply Htrans; [eapply Hstep; eassumption | assumption].
Qed.

(** ** The constructors *)

Lemma unsupported_request_start_fails connected c :
  (forall d, In d connected -> forallb (rs.supports d) (rs.cfg_streams c) = false) ->
  rs.start connected rs.pipeline_new c
  = (Raise (RuntimeError "Couldn't resolve requests"), rs.pipeline_new).
Proof.
  intros H. unfold rs.start. simpl.
  assert (Hr : rs.resolve connected c = None).
  { unfold rs.resolve. induction connected as [| d ds IH]; simpl; [reflexivity |].
    rewrite (H d (or_introl eq_refl)), andb_false_r.
    apply IH. intros d' Hd'. apply H. now right. }
  now rewrite Hr.
Qed.

(** C7. When [pipeline.start(config)] raises a [RuntimeError] (no connected
    device supports the requested streams), the [IntelRealsense]
    constructor prints the diagnostic message and leaves through [exit(1)]:
    it neither returns an adapter nor raises, and nothing else is printed. *)
Theorem IntelRealsense_init_start_failure_exits :
  forall connected rgb_resolution depth_resolution fps serial_number depth_in_meters
         out msg p,
    rs.start connected rs.pipeline_new
             (IntelRealsense.stream_config
                (Camera.__init__ rgb_resolution depth_resolution fps serial_number))
    = (Raise (RuntimeError msg), p) ->
    IntelRealsense.__init__ connected rgb_resolution depth_resolution fps serial_number
                            depth_in_meters out
    = (SystemExit 1, out ++ [IntelRealsense.start_failed_message]).
Proof.
  intros connected rgb depth fps sn dm out msg p H.
  unfold IntelRealsense.__init__. rewrite H. reflexivity.
Qed.

Lemma IntelRealsense_init_start_failure_exits_witness :
  IntelRealsense.__init__ [Samples.d455] Camera.FullHD Camera.HD 30 "" false []
  = (SystemExit 1, [] ++ [IntelRealsense.start_failed_message]).
Proof.
  apply (IntelRealsense_init_start_failure_exits
           [Samples.d455] Camera.FullHD Camera.HD 30 "" false []
           "Couldn't resolve requests" rs.pipeline_new).
  reflexivity.
Defined.

Lemma wait_for_device_failed_attempt n tries w :
  arena.discover (Helios.system w) (arena.calls (Helios.system w)) = [] ->
  exists w',
    Helios.wait_for_device (S n) tries w = Helios.wait_for_device n (tries + 1) w'
    /\ Helios.system w'
       = arena.mk_System (arena.discover (Helios.system w))
                         (S (arena.calls (Helios.system w))) []
    /\ Helios.slept w' = (Helios.slept w + Helios.sleep_time_secs)%nat.
Proof.
  intros H. destruct w as [[disc calls created] out sl]. simpl in H.
  eexists. split.
  - cbn [Helios.wait_for_device].
    unfold bind at 1. unfold Helios.create_device, arena.create_device.
    cbn [Helios.system arena.discover arena.calls Helios.stdout Helios.slept].
    rewrite H.
    cbv [bind print modify Helios.sleep Helios.print_end Helios.for_each seq
              Helios.sleep_time_secs get_stdout set_stdout Helios.Console_World
              Helios.system Helios.stdout Helios.slept ret].
    reflexivity.
  - simpl. split; [reflexivity |]. unfold Helios.sleep_time_secs. lia.
Qed.

Lemma wait_for_device_found n tries w d ds :
  arena.discover (Helios.system w) (arena.calls (Helios.system w)) = d :: ds ->
  exists w',
    Helios.wait_for_device (S n) tries w = (Return (d :: ds), w')
    /\ Helios.system w'
       = arena.mk_System (arena.discover (Helios.system w))
                         (S (arena.calls (Helios.system w))) (d :: ds)
    /\ Helios.slept w' = Helios.slept w.
Proof.
  intros H. destruct w as [[disc calls created] out sl]. simpl in H.
  eexists. split.
  - cbn [Helios.wait_for_device].
    unfold bind at 1. unfold Helios.create_device, arena.create_device.
    cbn [Helios.system arena.discover arena.calls Helios.stdout Helios.slept].
    rewrite H.
    cbv [bind print modify get_stdout set_stdout Helios.Console_World
              Helios.system Helios.stdout Helios.slept ret].
    reflexivity.
  - simpl. split; reflexivity.
Qed.

Lemma wait_for_device_none remaining :
  forall tries w,
    (forall k, (k < remaining)%nat ->
               arena.discover (Helios.system w) (arena.calls (Helios.system w) + k) = []) ->
    let r := Helios.wait_for_device remaining tries w in
    fst r = Raise (Exception Helios.no_device_message)
    /\ arena.calls (Helios.system (snd r))
       = (arena.calls (Helios.system w) + remaining)%nat
    /\ arena.discover (Helios.system (snd r)) = arena.discover (Helios.system w)
    /\ Helios.slept (snd r) = (Helios.slept w + remaining * Helios.sleep_time_secs)%nat.
Proof.
  induction remaining as [| n IH]; intros tries w H.
  - simpl. repeat split; lia.
  - cbn zeta.
    pose proof (H 0%nat ltac:(lia)) as H0. rewrite Nat.add_0_r in H0.
    destruct (wait_for_device_failed_attempt n tries w H0) as (w' & E & Hsys & Hsl).
    rewrite E.
    specialize (IH (tries + 1)%nat w'). cbn zeta in IH. rewrite Hsys in IH. simpl in IH.
    destruct IH as (I1 & I2 & I3 & I4).
    { intros k Hk. replace (S (arena.calls (Helios.system w) + k))
        with (arena.calls (Helios.system w) + S k)%nat by lia.
      apply H. lia. }
    repeat split; [assumption | rewrite I2; lia | assumption |].
    rewrite I4, Hsl. lia.
Qed.

Lemma wait_for_device_returns remaining :
  forall tries w devices w',
    Helios.wait_for_device remaining tries w = (Return devices, w') ->
    exists k d rest,
      (k < remaining)%nat
      /\ devices = d :: rest
      /\ arena.discover (Helios.system w) (arena.calls (Helios.system w) + k) = d :: rest
      /\ (forall j, (j < k)%nat ->
                    arena.discover (Helios.system w) (arena.calls (Helios.system w) + j) = []).
Proof.
  induction remaining as [| n IH]; intros tries w devices w' H.
  - discriminate.
  - destruct (arena.discover (Helios.system w) (arena.calls (Helios.system w)))
      as [| d ds] eqn:E0.
    + destruct (wait_for_device_failed_attempt n tries w E0) as (w1 & E & Hsys & _).
      rewrite E in H. apply IH in H. rewrite Hsys in H. simpl in H.
      destruct H as (k & d & rest & Hk & Hd & Hfound & Hnone).
      exists (S k), d, rest. repeat split; [lia | assumption | |].
      * now rewrite Nat.add_succ_r.
      * intros [| j] Hj; [now rewrite Nat.add_0_r |].
        rewrite Nat.add_succ_r. apply Hnone. lia.
    + destruct (wait_for_device_found n tries w d ds E0) as (w1 & E & _).
      rewrite E in H. inversion H; subst.
      exists 0%nat, d, ds. repeat split; [lia | now rewrite Nat.add_0_r |].
      intros j Hj. lia.
Qed.

(** A device found at one of the six attempts ends the retries there: the
    constructor returns an adapter, having slept three seconds for each
    attempt that failed before. *)
Lemma Helios_init_device_found rgb depth fps sn dm w k d rest :
  (k < Helios.tries_max)%nat ->
  arena.discover (Helios.system w) (arena.calls (Helios.system w) + k) = d :: rest ->
  (forall j, (j < k)%nat ->
             arena.discover (Helios.system w) (arena.calls (Helios.system w) + j) = []) ->
  exists obj w',
    Helios.__init__ rgb depth fps sn dm w = (Return obj, w')
    /\ arena.calls (Helios.system w') = (arena.calls (Helios.system w) + k + 1)%nat
    /\ Helios.slept w' = (Helios.slept w + k * Helios.sleep_time_secs)%nat.
Proof.
  intros Hk Hfound Hnone.
  assert (Hloop : forall k remaining tries w0,
             (k < remaining)%nat ->
             arena.discover (Helios.system w0) (arena.calls (Helios.system w0) + k)
             = d :: rest ->
             (forall j, (j < k)%nat ->
                        arena.discover (Helios.system w0)
                                       (arena.calls (Helios.system w0) + j) = []) ->
             exists w1,
               Helios.wait_for_device remaining tries w0 = (Return (d :: rest), w1)
               /\ arena.calls (Helios.system w1)
                  = (arena.calls (Helios.system w0) + k + 1)%nat
               /\ Helios.slept w1 = (Helios.slept w0 + k * Helios.sleep_time_secs)%nat).
  { clear. induction k as [| k IH]; intros remaining tries w0 Hlt Hf Hn;
      (destruct remaining as [| n]; [lia |]).
    - rewrite Nat.add_0_r in Hf.
      destruct (wait_for_device_found n tries w0 d rest Hf) as (w1 & E & Hsys & Hsl).
      exists w1. rewrite E, Hsys, Hsl. simpl. split; [reflexivity | split; lia].
    - pose proof (Hn 0%nat ltac:(lia)) as H0. rewrite Nat.add_0_r in H0.
      destruct (wait_for_device_failed_attempt n tries w0 H0) as (w1 & E & Hsys & Hsl).
      destruct (IH n (tries + 1)%nat w1) as (w2 & E2 & Hc2 & Hs2).
      + lia.
      + rewrite Hsys. simpl. rewrite <- Nat.add_succ_r. exact Hf.
      + intros j Hj. rewrite Hsys. simpl. rewrite <- Nat.add_succ_r. apply Hn. lia.
      + exists w2. rewrite E, E2. rewrite Hsys in Hc2. simpl in Hc2.
        split; [reflexivity |].
        split; [lia | rewrite Hs2, Hsl; unfold Helios.sleep_time_secs; lia]. }
  destruct (Hloop k Helios.tries_max 0%nat w Hk Hfound Hnone) as (w1 & E & Hc & Hs).
  unfold Helios.__init__. cbn zeta. rewrite Nat.sub_0_r.
  rewrite (bind_Return _ _ _ _ _ E).
  eexists. eexists. split; [reflexivity |]. simpl. split; assumption.
Qed.

(** C4. When none of the six discovery attempts finds a device, the
    [Helios] constructor raises the no-device exception, and it does so
    after exactly [tries_max = 6] calls of [system.create_device()] and
    [6 * 3] seconds spent in [time.sleep] (three seconds after each failed
    attempt), which lies between [5 * 3] and [6 * 3] seconds. *)
Theorem Helios_init_no_device_retries :
  forall rgb_resolution depth_resolution fps serial_number depth_in_meters w,
    (forall k, (k < 6)%nat ->
               arena.discover (Helios.system w) (arena.calls (Helios.system w) + k) = []) ->
    let r := Helios.__init__ rgb_resolution depth_resolution fps serial_number
                             depth_in_meters w in
    fst r = Raise (Exception Helios.no_device_message)
    /\ arena.calls (Helios.system (snd r)) = (arena.calls (Helios.system w) + 6)%nat
    /\ Helios.slept (snd r) = (Helios.slept w + 6 * 3)%nat
    /\ (Helios.slept w + 5 * 3 <= Helios.slept (snd r) <= Helios.slept w + 6 * 3)%nat.
Proof.
  intros rgb depth fps sn dm w H. cbn zeta.
  destruct (wait_for_device_none 6 0 w H) as (H1 & H2 & _ & H4).
  destruct (Helios.wait_for_device 6 0 w) as [r0 w1] eqn:E.
  simpl in H1, H2, H4. subst r0.
  unfold Helios.__init__. cbn zeta.
  change (Helios.tries_max - 0)%nat with 6%nat.
  rewrite (bind_Raise _ _ _ _ _ E). simpl fst. simpl snd.
  unfold Helios.sleep_time_secs in H4.
  repeat split; [assumption | lia | lia | lia].
Qed.

Lemma Helios_init_no_device_retries_witness :
  let r := Helios.__init__ Camera.HD Camera.HD 30 "" false
                           (Samples.empty_world Samples.no_device) in
  fst r = Raise (Exception Helios.no_device_message)
  /\ arena.calls (Helios.system (snd r)) = (0 + 6)%nat
  /\ Helios.slept (snd r) = (0 + 6 * 3)%nat
  /\ (0 + 5 * 3 <= Helios.slept (snd r) <= 0 + 6 * 3)%nat.
Proof.
  apply (Helios_init_no_device_retries
           Camera.HD Camera.HD 30 "" false (Samples.empty_world Samples.no_device)).
  intros k Hk. reflexivity.
Defined.

(** C10. Whatever [serial_number] the caller passes, a [Helios] constructor
    that succeeds is bound to the first device (index 0) of the first
    non-empty discovery result, its stored [serial_number] is the serial
    that device reports, and the adapter and the process state are the same
    as for any other requested serial. *)
Theorem Helios_init_binds_first_device :
  forall rgb_resolution depth_resolution fps serial_number depth_in_meters w obj w',
    Helios.__init__ rgb_resolution depth_resolution fps serial_number depth_in_meters w
    = (Return obj, w') ->
    (exists k d rest,
        (k < Helios.tries_max)%nat
        /\ arena.discover (Helios.system w) (arena.calls (Helios.system w) + k) = d :: rest
        /\ (forall j, (j < k)%nat ->
                      arena.discover (Helios.system w) (arena.calls (Helios.system w) + j)
                      = [])
        /\ Helios.pipeline obj
           = arena.start_stream
               (Helios.select_coordinate
                  "CoordinateC"
                  (Helios.select_coordinate
                     "CoordinateB"
                     (Helios.select_coordinate "CoordinateA" (Helios.configure_nodes d))))
        /\ Helios.serial_number obj = arena.DeviceSerialNumber (arena.nodemap d))
    /\ (forall requested,
           Helios.__init__ rgb_resolution depth_resolution fps requested depth_in_meters w
           = (Return obj, w')).
Proof.
  intros rgb depth fps sn dm w obj w' H. split.
  - unfold Helios.__init__ in H. cbn zeta in H.
    apply bind_Return_inv in H. destruct H as (devices & w1 & Hw & Hk).
    rewrite Nat.sub_0_r in Hw.
    apply wait_for_device_returns in Hw.
    destruct Hw as (k & d & rest & Hlt & Hd & Hfound & Hnone). subst devices.
    apply bind_Return_inv in Hk. destruct Hk as ([] & w2 & _ & Hret).
    inversion Hret; subst. simpl.
    exists k, d, rest. repeat split; assumption.
  - intros requested. rewrite <- H. reflexivity.
Qed.

Lemma Helios_init_binds_first_device_witness :
  exists obj w',
    Helios.__init__ Camera.HD Camera.HD 30 "REQUESTED" false
                    (Samples.empty_world Samples.late_devices)
    = (Return obj, w')
    /\ Helios.serial_number obj = "H-42"
    /\ (forall requested,
           Helios.__init__ Camera.HD Camera.HD 30 requested false
                           (Samples.empty_world Samples.late_devices)
           = (Return obj, w')).
Proof.
  destruct (Helios.__init__ Camera.HD Camera.HD 30 "REQUESTED" false
                            (Samples.empty_world Samples.late_devices))
    as [[obj | e | c] w'] eqn:E.
  - exists obj, w'. split; [reflexivity |].
    split.
    + vm_compute in E. inversion E. reflexivity.
    + apply (Helios_init_binds_first_device
               Camera.HD Camera.HD 30 "REQUESTED" false
               (Samples.empty_world Samples.late_devices) obj w' E).
  - vm_compute in E. discriminate E.
  - vm_compute in E. discriminate E.
Defined.

(** ** What the operations leave unchanged *)

Lemma IntelRealsense_keeps_on_pipeline {A : Type}
      (op : rs.pipeline -> outcome A * rs.pipeline) :
  (forall p, IntelRealsense_streams (snd (op p)) = IntelRealsense_streams p) ->
  keeps IntelRealsense_static (IntelRealsense.on_pipeline op).
Proof.
  intros H s. unfold IntelRealsense.on_pipeline.
  specialize (H (IntelRealsense.pipeline (IntelRealsense.self s))).
  destruct (op (IntelRealsense.pipeline (IntelRealsense.self s))) as [r p].
  unfold IntelRealsense_static. simpl in *. now rewrite H.
Qed.

Lemma IntelRealsense_keeps_lift {A : Type} (r : outcome A) :
  keeps IntelRealsense_static (IntelRealsense.lift r).
Proof. intros s. reflexivity. Qed.

Lemma IntelRealsense_keeps_print text :
  keeps IntelRealsense_static (print text).
Proof. apply keeps_print. intros out s. reflexivity. Qed.

Lemma wait_for_frames_streams p :
  IntelRealsense_streams (snd (rs.wait_for_frames p)) = IntelRealsense_streams p.
Proof.
  unfold rs.wait_for_frames, IntelRealsense_streams.
  destruct (rs.active_profile p) as [pp |] eqn:E; simpl.
  - destruct (rs.feed (rs.pp_device pp)); simpl; now rewrite ?E.
  - now rewrite E.
Qed.

Lemma second_sensor_streams p :
  IntelRealsense_streams (snd (IntelRealsense.second_sensor p)) = IntelRealsense_streams p.
Proof.
  unfold IntelRealsense.second_sensor.
  destruct (rs.active_profile p) as [pp |]; [| reflexivity].
  destruct (nth_error (rs.sensors (rs.pp_device pp)) 1); reflexivity.
Qed.

Lemma store_second_sensor_streams sensor p :
  IntelRealsense_streams (snd (IntelRealsense.store_second_sensor sensor p))
  = IntelRealsense_streams p.
Proof.
  unfold IntelRealsense.store_second_sensor, IntelRealsense_streams.
  destruct (rs.active_profile p) as [pp |] eqn:E; simpl; now rewrite ?E.
Qed.

Create HintDb keeps.

#[local] Hint Resolve keeps_ret keeps_raise keeps_get IntelRealsense_keeps_lift
  IntelRealsense_keeps_print wait_for_frames_streams second_sensor_streams
  store_second_sensor_streams : keeps.

Ltac keeps_steps :=
  repeat first
         [ apply keeps_bind; [| intros ?]
         | apply keeps_while_not
         | apply keeps_try_except; [| intros ?]
         | apply IntelRealsense_keeps_on_pipeline; intros ?
         | solve [auto with keeps] ].

Lemma IntelRealsense_run_keeps_static align c s :
  IntelRealsense_static (IntelRealsenseCalls.run align c s) = IntelRealsense_static s.
Proof.
  destruct c; simpl; revert s;
    match goal with
    | |- forall s, IntelRealsense_static (snd (?m s)) = _ =>
        change (keeps IntelRealsense_static m)
    end;
    unfold IntelRealsense.get_rgb, IntelRealsense.get_depth, IntelRealsense.get_frames,
      IntelRealsense.get_aligned_frames, IntelRealsense.set_option,
      IntelRealsense.get_option;
    keeps_steps.
Qed.

Lemma Helios_keeps_on_pipeline {A : Type}
      (op : arena.Device -> outcome A * arena.Device) :
  keeps Helios_static (Helios.on_pipeline op).
Proof.
  intros s. unfold Helios.on_pipeline.
  destruct (op (Helios.pipeline (Helios.self s))) as [r d]. reflexivity.
Qed.

Lemma Helios_run_keeps_static c s :
  Helios_static (HeliosCalls.run c s) = Helios_static s.
Proof.
  destruct c; simpl; revert s;
    match goal with
    | |- forall s, Helios_static (snd (?m s)) = _ => change (keeps Helios_static m)
    end;
    unfold Helios.get_aligned_frames, Helios.get_rgb, Helios.get_depth, Helios.get_frames,
      Helios.requeue_buffer;
    repeat first
           [ apply keeps_bind; [| intros ?]
           | apply Helios_keeps_on_pipeline
           | apply keeps_get
           | apply keeps_ret ].
Qed.

Lemma IntelRealsense_run_all_keeps_static align cs :
  forall s, IntelRealsense_static (IntelRealsenseCalls.run_all align cs s)
            = IntelRealsense_static s.
Proof.
  induction cs as [| c cs IH]; intros s; [reflexivity |].
  change (IntelRealsenseCalls.run_all align (c :: cs) s)
    with (IntelRealsenseCalls.run_all align cs (IntelRealsenseCalls.run align c s)).
  rewrite IH. apply IntelRealsense_run_keeps_static.
Qed.

Lemma Helios_run_all_keeps_static cs :
  forall s, Helios_static (HeliosCalls.run_all cs s) = Helios_static s.
Proof.
  induction cs as [| c cs IH]; intros s; [reflexivity |].
  change (HeliosCalls.run_all (c :: cs) s)
    with (HeliosCalls.run_all cs (HeliosCalls.run c s)).
  rewrite IH. apply Helios_run_keeps_static.
Qed.

(** C9. No sequence of frame-retrieval and option calls changes the stored
    intrinsics or the stored serial number of an adapter: after [get_rgb],
    [get_depth], [get_frames], [get_aligned_frames], [set_option] and
    [get_option] in any number and order, and whatever their outcomes,
    both are what they were (for [Helios], which defines no option
    operations of its own, after the four frame-retrieval calls). *)
Theorem adapter_intrinsics_and_serial_are_stable :
  (forall align_process cs s,
      let s' := IntelRealsenseCalls.run_all align_process cs s in
      IntelRealsense.intr (IntelRealsense.self s')
      = IntelRealsense.intr (IntelRealsense.self s)
      /\ IntelRealsense.serial_number (IntelRealsense.self s')
         = IntelRealsense.serial_number (IntelRealsense.self s))
  /\ (forall cs s,
         let s' := HeliosCalls.run_all cs s in
         Helios.intr (Helios.self s') = Helios.intr (Helios.self s)
         /\ Helios.serial_number (Helios.self s') = Helios.serial_number (Helios.self s)).
Proof.
  split.
  - intros align cs s s'.
    pose proof (IntelRealsense_run_all_keeps_static align cs s) as H.
    unfold IntelRealsense_static in H. fold s' in H.
    inversion H. split; reflexivity || assumption.
  - intros cs s s'.
    pose proof (Helios_run_all_keeps_static cs s) as H.
    unfold Helios_static in H. fold s' in H.
    inversion H. split; reflexivity || assumption.
Qed.

(** ** Helios: frames *)

(** C5. For every state of the adapter and of the device,
    [Helios.get_aligned_frames] has the outcome, the (intensity, depth)
    pair and the effect on the state of [Helios.get_frames]. *)
Theorem Helios_get_aligned_frames_is_get_frames :
  forall s : Helios.State, Helios.get_aligned_frames s = Helios.get_frames s.
Proof. intros s. unfold Helios.get_aligned_frames. reflexivity. Qed.

(** ** Arrays *)

Lemma nth_map_seq {A : Type} (f : nat -> A) (n i : nat) (d : A) :
  (i < n)%nat -> nth i (map f (seq 0 n)) d = f i.
Proof.
  intros H. rewrite (nth_indep _ d (f 0%nat)) by now rewrite length_map, length_seq.
  rewrite (map_nth f (seq 0 n) 0%nat i), seq_nth by assumption. reflexivity.
Qed.

Lemma nth_map_in {A B : Type} (f : A -> B) (l : list A) (i : nat) (da : A) (db : B) :
  (i < List.length l)%nat -> nth i (map f l) db = f (nth i l da).
Proof.
  intros H. rewrite (nth_indep _ db (f da)) by now rewrite length_map.
  apply map_nth.
Qed.

Lemma le_pairs_length n :
  forall l, List.length l = (2 * n)%nat -> List.length (npview.le_pairs l) = n.
Proof.
  induction n as [| n IH]; intros l H.
  - destruct l; [reflexivity | discriminate].
  - destruct l as [| lo [| hi rest]]; simpl in H; try lia.
    simpl. f_equal. apply IH. lia.
Qed.

Lemma channel_index (p ch k : nat) :
  (k < ch)%nat -> ((p * ch + k) mod ch = k /\ (p * ch + k) / ch = p)%nat.
Proof.
  intros H. split.
  - rewrite Nat.add_comm, Nat.Div0.mod_add. now apply Nat.mod_small.
  - rewrite Nat.add_comm, Nat.div_add by lia. rewrite Nat.div_small by assumption.
    reflexivity.
Qed.

Lemma channel_flat_nth a k p :
  (p < nth 0 (np.shape a) 0 * nth 1 (np.shape a) 0)%nat ->
  nth p (np.flat (np.channel a k)) 0
  = nth (p * nth 2 (np.shape a) 0 + k)%nat (np.flat a) 0.
Proof. intros H. unfold np.channel. simpl. now rewrite nth_map_seq. Qed.

(** Reading back the channel that was assigned. *)
Lemma channel_set_channel_same a k v h w ch p :
  np.shape a = [h; w; ch] ->
  List.length (np.flat a) = (h * w * ch)%nat ->
  (k < ch)%nat -> (p < h * w)%nat ->
  nth p (np.flat (np.channel (npview.set_channel a k v) k)) 0
  = np.cast_float (np.dtype_of a) (nth p (np.fflat v) (S754_zero false)).
Proof.
  intros Hs Hl Hk Hp.
  rewrite channel_flat_nth by (simpl; rewrite Hs; exact Hp).
  unfold npview.set_channel. simpl. rewrite Hs. simpl.
  destruct (channel_index p ch k Hk) as [Hm Hd].
  rewrite nth_map_seq by (rewrite Hl; nia).
  rewrite Hm, Hd, Nat.eqb_refl. reflexivity.
Qed.

(** The other channels are not touched by the assignment. *)
Lemma channel_set_channel_other a k k' v h w ch :
  np.shape a = [h; w; ch] ->
  List.length (np.flat a) = (h * w * ch)%nat ->
  (k' < ch)%nat -> k' <> k ->
  np.channel (npview.set_channel a k v) k' = np.channel a k'.
Proof.
  intros Hs Hl Hk Hne.
  unfold np.channel. simpl. rewrite Hs. simpl. f_equal.
  apply map_ext_in. intros p Hp. apply in_seq in Hp.
  destruct (channel_index p ch k' Hk) as [Hm _].
  rewrite nth_map_seq by (rewrite Hl; nia).
  rewrite Hm. destruct (Nat.eqb_spec k' k); [contradiction | reflexivity].
Qed.

Lemma cast_int_cast_float d x :
  np.cast_int d (np.cast_float d x) = np.cast_float d x.
Proof.
  unfold np.cast_int, np.cast_float. apply Z.mod_mod. destruct d; discriminate.
Qed.

(** ** Helios: decoding a buffer *)

Lemma uint16_view_shape b :
  Coord3D_ABCY16_buffer b ->
  np.shape (Helios.uint16_view b) = [arena.height b; arena.width b; 4%nat]
  /\ List.length (np.flat (Helios.uint16_view b))
     = (arena.height b * arena.width b * 4)%nat
  /\ np.dtype_of (Helios.uint16_view b) = np.uint16.
Proof.
  intros [Hb Hl]. unfold Helios.uint16_view, npview.view_uint16, npview.as_array.
  simpl. rewrite Hb. repeat split.
  apply le_pairs_length. rewrite length_map, Hl. lia.
Qed.

Lemma le_pairs_nth i :
  forall l, (2 * i + 1 < List.length l)%nat ->
            nth i (npview.le_pairs l) 0
            = nth (2 * i) l 0 + 256 * nth (2 * i + 1) l 0.
Proof.
  induction i as [| i IH]; intros l H;
    (destruct l as [| lo [| hi rest]]; cbn [List.length] in H; try lia).
  - reflexivity.
  - cbn [npview.le_pairs nth].
    replace (2 * S i)%nat with (S (S (2 * i))) by lia.
    replace (S (S (2 * i)) + 1)%nat with (S (S (2 * i + 1))) by lia.
    cbn [nth]. apply IH. lia.
Qed.

(** The raw sample of channel [k] at pixel [(r, c)]: two bytes of the
    buffer, low byte first. *)
Lemma Helios_raw_sample b r c k :
  Coord3D_ABCY16_buffer b ->
  (r < arena.height b)%nat -> (c < arena.width b)%nat -> (k < 4)%nat ->
  let at_ i := Z.of_N (Byte.to_N (nth i (arena.pdata b) x00)) in
  let i := (2 * ((r * arena.width b + c) * 4 + k))%nat in
  np.item3 (Helios.uint16_view b) r c k = at_ i + 256 * at_ (i + 1)%nat.
Proof.
  intros [Hb Hl] Hr Hc Hk at_ i.
  unfold np.item3, Helios.uint16_view, npview.view_uint16, npview.as_array.
  cbn [np.shape np.flat nth]. rewrite Hb.
  change (64 / 8 / 2)%nat with 4%nat.
  assert (Hi : (i + 1 < List.length (arena.pdata b))%nat) by (subst i; rewrite Hl; nia).
  rewrite le_pairs_nth by (rewrite length_map; exact Hi).
  fold i. subst at_. cbv beta.
  rewrite !(nth_map_in _ _ _ x00) by lia. reflexivity.
Qed.

Lemma Helios_acquire_inv {A : Type} (k : arena.Buffer -> Py Helios.State A) s a s' :
  bind (Helios.on_pipeline arena.get_buffer) k s = (Return a, s') ->
  exists buffer rest,
    arena.queue (Helios.pipeline (Helios.self s)) = buffer :: rest
    /\ exists s1, Helios_static s1 = Helios_static s /\ k buffer s1 = (Return a, s').
Proof.
  intros H. apply bind_Return_inv in H. destruct H as (buffer & s1 & Hb & Hk).
  unfold Helios.on_pipeline, arena.get_buffer in Hb.
  destruct (arena.queue (Helios.pipeline (Helios.self s))) as [| b rest] eqn:Eq;
    [discriminate |].
  inversion Hb; subst. exists buffer, rest. split; [reflexivity |].
  eexists. split; [| exact Hk]. reflexivity.
Qed.

Lemma Helios_get_depth_inv s depth s' :
  Helios.get_depth s = (Return depth, s') ->
  exists buffer rest,
    arena.queue (Helios.pipeline (Helios.self s)) = buffer :: rest
    /\ depth = np.astype np.uint16
                         (np.channel (Helios.rescale_z (Helios.self s)
                                                       (Helios.uint16_view buffer)) 2).
Proof.
  intros H. unfold Helios.get_depth in H.
  apply Helios_acquire_inv in H. destruct H as (buffer & rest & Hq & s1 & Hst & Hk).
  exists buffer, rest. split; [assumption |].
  unfold bind, Helios.requeue_buffer, Helios.on_pipeline, get, ret in Hk. simpl in Hk.
  inversion Hk; subst. unfold Helios_static in Hst. simpl in Hst.
  unfold Helios.rescale_z. simpl. inversion Hst. reflexivity.
Qed.

Lemma Helios_get_frames_inv s intensity depth s' :
  Helios.get_frames s = (Return (intensity, depth), s') ->
  exists buffer rest,
    arena.queue (Helios.pipeline (Helios.self s)) = buffer :: rest
    /\ depth = np.astype np.uint16
                         (np.channel (Helios.rescale_z (Helios.self s)
                                                       (Helios.uint16_view buffer)) 2)
    /\ intensity = Helios.intensity_of (Helios.rescale_z (Helios.self s)
                                                         (Helios.uint16_view buffer)).
Proof.
  intros H. unfold Helios.get_frames in H.
  apply Helios_acquire_inv in H. destruct H as (buffer & rest & Hq & s1 & Hst & Hk).
  exists buffer, rest. split; [assumption |].
  unfold bind, Helios.requeue_buffer, Helios.on_pipeline, get, ret in Hk. simpl in Hk.
  inversion Hk; subst. unfold Helios_static in Hst. simpl in Hst.
  unfold Helios.rescale_z. simpl. inversion Hst. split; reflexivity.
Qed.

Lemma Helios_get_rgb_inv s intensity s' :
  Helios.get_rgb s = (Return intensity, s') ->
  exists buffer rest,
    arena.queue (Helios.pipeline (Helios.self s)) = buffer :: rest
    /\ intensity = Helios.intensity_of (Helios.uint16_view buffer).
Proof.
  intros H. unfold Helios.get_rgb in H.
  apply Helios_acquire_inv in H. destruct H as (buffer & rest & Hq & s1 & Hst & Hk).
  exists buffer, rest. split; [assumption |].
  unfold bind, Helios.requeue_buffer, Helios.on_pipeline, ret in Hk. simpl in Hk.
  inversion Hk; subst. reflexivity.
Qed.

Lemma rescaled_channel_pixel a h w scale offset r c :
  np.shape a = [h; w; 4%nat] ->
  List.length (np.flat a) = (h * w * 4)%nat ->
  np.dtype_of a = np.uint16 ->
  (r < h)%nat -> (c < w)%nat ->
  np.item (np.astype np.uint16
                     (np.channel (npview.set_channel
                                    a 2 (np.scale_offset (np.channel a 2) scale offset)) 2))
          r c
  = np.cast_float np.uint16
                  (np.add (np.mul (np.of_int (np.item3 a r c 2)) scale) offset).
Proof.
  intros Hs Hl Hd Hr Hc.
  assert (Hp : (r * w + c < h * w)%nat) by nia.
  unfold np.item, np.astype. cbn [np.shape np.flat np.channel npview.set_channel].
  rewrite Hs. cbn [nth].
  rewrite (nth_map_in _ _ _ 0) by (rewrite length_map, length_seq; exact Hp).
  pose proof (channel_set_channel_same
                a 2 (np.scale_offset (np.channel a 2) scale offset) h w 4
                (r * w + c) Hs Hl ltac:(lia) Hp) as E.
  unfold np.channel at 1 in E. cbn [np.shape np.flat npview.set_channel] in E.
  rewrite Hs in E. cbn [nth] in E. rewrite E.
  rewrite Hd, cast_int_cast_float. f_equal.
  unfold np.scale_offset. cbn [np.fflat].
  rewrite (nth_map_in _ _ _ 0)
    by (unfold np.channel; cbn [np.flat]; rewrite Hs; cbn [nth];
        rewrite length_map, length_seq; exact Hp).
  rewrite channel_flat_nth by (rewrite Hs; exact Hp).
  unfold np.item3. rewrite Hs. reflexivity.
Qed.

(** Every pixel of the depth image is [raw * scale_C + offset_C], converted
    to [uint16], for the channel-2 sample [raw] of that pixel. *)
Lemma Helios_depth_pixel o b r c :
  Coord3D_ABCY16_buffer b ->
  (r < arena.height b)%nat -> (c < arena.width b)%nat ->
  np.item (np.astype np.uint16
                     (np.channel (Helios.rescale_z o (Helios.uint16_view b)) 2)) r c
  = np.cast_float np.uint16
                  (np.add (np.mul (np.of_int (np.item3 (Helios.uint16_view b) r c 2))
                                  (Helios.scale_C o))
                          (Helios.offset_C o)).
Proof.
  intros Hwf Hr Hc.
  destruct (uint16_view_shape b Hwf) as (Hs & Hl & Hd).
  unfold Helios.rescale_z.
  now apply (rescaled_channel_pixel _ (arena.height b) (arena.width b)).
Qed.

(** ** IntelRealsense: polling *)

Lemma in_skipn {A : Type} (x : A) k :
  forall l, In x (skipn k l) -> In x l.
Proof.
  induction k as [| k IH]; intros l H; [exact H |].
  destruct l as [| y l]; [exact H |]. right. now apply IH.
Qed.

Lemma IntelRealsense_later_refl s : IntelRealsense_later s s.
Proof. split; [reflexivity | now exists 0%nat]. Qed.

Lemma IntelRealsense_later_trans s1 s2 s3 :
  IntelRealsense_later s1 s2 -> IntelRealsense_later s2 s3 -> IntelRealsense_later s1 s3.
Proof.
  intros [H1 [k1 F1]] [H2 [k2 F2]]. split; [congruence |].
  exists (k2 + k1)%nat. rewrite F2, F1. apply skipn_skipn.
Qed.

Lemma wait_for_frames_later s r s' :
  IntelRealsense.on_pipeline rs.wait_for_frames s = (r, s') ->
  IntelRealsense_later s s'
  /\ (forall frames, r = Return frames -> IntelRealsense_delivers s frames).
Proof.
  intros H.
  assert (Hst : IntelRealsense_static s' = IntelRealsense_static s).
  { pose proof (IntelRealsense_keeps_on_pipeline _ wait_for_frames_streams s) as K.
    now rewrite H in K. }
  unfold IntelRealsense.on_pipeline, rs.wait_for_frames in H.
  unfold IntelRealsense_later, IntelRealsense_delivers, IntelRealsense_feed,
    IntelRealsense_streams.
  destruct (rs.active_profile (IntelRealsense.pipeline (IntelRealsense.self s)))
    as [pp |] eqn:E.
  - destruct (rs.feed (rs.pp_device pp)) as [| cap rest] eqn:F;
      inversion H; subst; simpl; rewrite ?E, ?F.
    + split; [split; [assumption | now exists 0%nat] | discriminate].
    + split; [split; [assumption | now exists 1%nat] |].
      intros frames Hf. inversion Hf; subst.
      exists (rs.pp_streams pp), cap. simpl. auto.
  - inversion H; subst. simpl. rewrite E.
    split; [split; [assumption | now exists 0%nat] | discriminate].
Qed.

Lemma IntelRealsense_delivers_later s s1 frames :
  IntelRealsense_later s s1 -> IntelRealsense_delivers s1 frames ->
  IntelRealsense_delivers s frames.
Proof.
  intros [Hst [k Hk]] (streams & cap & Hs & Hin & Hf).
  exists streams, cap. repeat split; [| | assumption].
  - unfold IntelRealsense_static in Hst. inversion Hst. congruence.
  - rewrite Hk in Hin. eapply in_skipn; eassumption.
Qed.

(** A polling loop that yields [a] got it from a frame set the pipeline
    delivered; nothing fixed has changed meanwhile. *)
Lemma IntelRealsense_poll_inv {A : Type}
      (k : rs.composite_frame -> Py IntelRealsense.State (option A))
      (r : rs.composite_frame -> outcome (option A)) fuel s a s' :
  (forall frames s0, k frames s0 = (r frames, s0)) ->
  while_not fuel (bind (IntelRealsense.on_pipeline rs.wait_for_frames) k) s
  = (Return (Some a), s') ->
  exists frames,
    IntelRealsense_delivers s frames
    /\ r frames = Return (Some a)
    /\ IntelRealsense_static s' = IntelRealsense_static s.
Proof.
  intros Hkr H.
  apply (while_not_last IntelRealsense_later) in H;
    [| apply IntelRealsense_later_refl | apply IntelRealsense_later_trans |].
  - destruct H as (s1 & Hl & Hb).
    apply bind_Return_inv in Hb. destruct Hb as (frames & s2 & Hw & Hk).
    rewrite Hkr in Hk.
    assert (Hr : r frames = Return (Some a)) by congruence.
    assert (s2 = s') by congruence. subst s2. clear Hk.
    destruct (wait_for_frames_later _ _ _ Hw) as [Hl2 Hd].
    exists frames. repeat split; [| assumption |].
    + eapply IntelRealsense_delivers_later; [exact Hl | now apply Hd].
    + destruct Hl as [E1 _], Hl2 as [E2 _]. congruence.
  - intros s0 r0 s0' Hb. unfold bind in Hb.
    destruct (IntelRealsense.on_pipeline rs.wait_for_frames s0) as [[frames | e | c] s1]
      eqn:Hw; rewrite ?Hkr in Hb; inversion Hb; subst;
      now destruct (wait_for_frames_later _ _ _ Hw).
Qed.

Lemma IntelRealsense_get_rgb_inv fuel s img s' :
  IntelRealsense.get_rgb fuel s = (Return (Some img), s') ->
  exists frames f,
    IntelRealsense_delivers s frames
    /\ rs.get_color_frame frames = Some f
    /\ img = rs.get_data f.
Proof.
  intros H. unfold IntelRealsense.get_rgb in H.
  apply bind_Return_inv in H. destruct H as (cf & s1 & Hloop & Hret).
  destruct cf as [f |]; [| discriminate]. inversion Hret; subst.
  apply (IntelRealsense_poll_inv _ (fun frames => Return (rs.get_color_frame frames)))
    in Hloop; [| reflexivity].
  destruct Hloop as (frames & Hd & Hr & _).
  exists frames, f. repeat split; [assumption | congruence].
Qed.

Lemma IntelRealsense_get_depth_inv fuel s arr s' :
  IntelRealsense.get_depth fuel s = (Return (Some arr), s') ->
  exists frames f,
    IntelRealsense_delivers s frames
    /\ rs.get_depth_frame frames = Some f
    /\ arr = IntelRealsense.depth_once
               (IntelRealsense.mm2m_conversion (IntelRealsense.self s)) (rs.get_data f).
Proof.
  intros H. unfold IntelRealsense.get_depth in H.
  apply bind_Return_inv in H. destruct H as (df & s1 & Hloop & Hret).
  unfold bind, get, ret in Hret. simpl in Hret.
  destruct df as [f |]; [| discriminate]. inversion Hret; subst.
  apply (IntelRealsense_poll_inv _ (fun frames => Return (rs.get_depth_frame frames)))
    in Hloop; [| reflexivity].
  destruct Hloop as (frames & Hd & Hr & Hst).
  exists frames, f. repeat split; [assumption | congruence |].
  unfold IntelRealsense_static in Hst. inversion Hst. congruence.
Qed.

Lemma both_inv d c fr :
  IntelRealsense.both d c = Some fr -> d = Some (fst fr) /\ c = Some (snd fr).
Proof.
  unfold IntelRealsense.both. destruct c, d; intros H; inversion H. now split.
Qed.

Lemma IntelRealsense_get_frames_inv fuel s color depth s' :
  IntelRealsense.get_frames fuel s = (Return (Some (color, depth)), s') ->
  exists frames d c,
    IntelRealsense_delivers s frames
    /\ rs.get_depth_frame frames = Some d
    /\ rs.get_color_frame frames = Some c
    /\ color = rs.get_data c
    /\ depth = IntelRealsense.depth_of_frames
                 (IntelRealsense.mm2m_conversion (IntelRealsense.self s)) (rs.get_data d).
Proof.
  intros H. unfold IntelRealsense.get_frames in H.
  apply bind_Return_inv in H. destruct H as (fr & s1 & Hloop & Hret).
  unfold bind, get, ret in Hret. simpl in Hret.
  destruct fr as [[d c] |]; [| discriminate]. inversion Hret; subst.
  apply (IntelRealsense_poll_inv
           _ (fun frames => Return (IntelRealsense.both (rs.get_depth_frame frames)
                                                        (rs.get_color_frame frames))))
    in Hloop; [| reflexivity].
  destruct Hloop as (frames & Hd & Hr & Hst).
  inversion Hr as [Hb]. apply both_inv in Hb. destruct Hb as [Hbd Hbc].
  exists frames, d, c. repeat split; try assumption.
  unfold IntelRealsense_static in Hst. inversion Hst. congruence.
Qed.

Lemma IntelRealsense_get_aligned_frames_inv align_process fuel s color depth s' :
  IntelRealsense.get_aligned_frames align_process fuel s
  = (Return (Some (color, depth)), s') ->
  exists frames d c,
    IntelRealsense_delivers s frames
    /\ rs.get_depth_frame (align_process rs.color frames) = Some d
    /\ rs.get_color_frame (align_process rs.color frames) = Some c
    /\ color = rs.get_data c
    /\ depth = IntelRealsense.depth_of_frames
                 (IntelRealsense.mm2m_conversion (IntelRealsense.self s)) (rs.get_data d).
Proof.
  intros H. unfold IntelRealsense.get_aligned_frames in H.
  apply bind_Return_inv in H. destruct H as (fr & s1 & Hloop & Hret).
  unfold bind, get, ret in Hret. simpl in Hret.
  destruct fr as [[d c] |]; [| discriminate]. inversion Hret; subst.
  apply (IntelRealsense_poll_inv
           _ (fun frames =>
                match rs.first (align_process rs.color frames) rs.color with
                | Return c =>
                    Return (IntelRealsense.both
                              (rs.get_depth_frame (align_process rs.color frames))
                              (Some c))
                | Raise e => Raise e
                | SystemExit code => SystemExit code
                end))
    in Hloop.
  - destruct Hloop as (frames & Hd & Hr & Hst).
    unfold rs.first in Hr.
    destruct (rs.get_color_frame (align_process rs.color frames)) as [c' |] eqn:Ec;
      [| discriminate].
    inversion Hr as [Hb].
    destruct (rs.get_depth_frame (align_process rs.color frames)) as [d' |] eqn:Ed;
      [| discriminate].
    inversion Hb; subst d' c'.
    exists frames, d, c. repeat split; try assumption.
    unfold IntelRealsense_static in Hst. inversion Hst. congruence.
  - intros frames s0. unfold bind, IntelRealsense.lift.
    destruct (rs.first (align_process rs.color frames) rs.color); reflexivity.
Qed.

(** With more fuel than the device has captures left, a polling loop is
    over: it has yielded a value or has left with an exception. *)
Lemma IntelRealsense_poll_total {A : Type}
      (k : rs.composite_frame -> Py IntelRealsense.State (option A))
      (r : rs.composite_frame -> outcome (option A)) :
  (forall frames s0, k frames s0 = (r frames, s0)) ->
  forall fuel s,
    (List.length (IntelRealsense_feed s) < fuel)%nat ->
    fst (while_not fuel (bind (IntelRealsense.on_pipeline rs.wait_for_frames) k) s)
    <> Return None.
Proof.
  intros Hkr. induction fuel as [| n IH]; intros s Hlen; [lia |].
  simpl. unfold bind at 1. unfold bind at 1.
  unfold IntelRealsense.on_pipeline, rs.wait_for_frames.
  unfold IntelRealsense_feed in Hlen.
  destruct (rs.active_profile (IntelRealsense.pipeline (IntelRealsense.self s)))
    as [pp |] eqn:E; [| discriminate].
  destruct (rs.feed (rs.pp_device pp)) as [| cap rest] eqn:F; [discriminate |].
  rewrite Hkr.
  destruct (r (rs.frameset_of (rs.pp_streams pp) cap)) as [[a |] | e | c];
    try discriminate.
  apply IH. unfold IntelRealsense_feed. simpl. simpl in Hlen. lia.
Qed.

Lemma fst_bind_not_None {S A B : Type} (m : Py S (option A))
      (k : option A -> Py S (option B)) s :
  fst (m s) <> Return None ->
  (forall a s1, fst (k (Some a) s1) <> Return None) ->
  fst (bind m k s) <> Return None.
Proof.
  intros Hm Hk. unfold bind.
  destruct (m s) as [[[a |] | e | c] s1]; simpl in *; try discriminate.
  - apply Hk.
  - congruence.
Qed.

Lemma IntelRealsense_enough_fuel align_process fuel s :
  (List.length (IntelRealsense_feed s) < fuel)%nat ->
  fst (IntelRealsense.get_rgb fuel s) <> Return None
  /\ fst (IntelRealsense.get_depth fuel s) <> Return None
  /\ fst (IntelRealsense.get_frames fuel s) <> Return None
  /\ fst (IntelRealsense.get_aligned_frames align_process fuel s) <> Return None.
Proof.
  intros Hlen.
  unfold IntelRealsense.get_rgb, IntelRealsense.get_depth, IntelRealsense.get_frames,
    IntelRealsense.get_aligned_frames.
  repeat split; apply fst_bind_not_None; try (intros a s1; discriminate).
  - now apply (IntelRealsense_poll_total
                 _ (fun frames => Return (rs.get_color_frame frames))).
  - now apply (IntelRealsense_poll_total
                 _ (fun frames => Return (rs.get_depth_frame frames))).
  - now apply (IntelRealsense_poll_total
                 _ (fun frames => Return (IntelRealsense.both
                                            (rs.get_depth_frame frames)
                                            (rs.get_color_frame frames)))).
  - apply (IntelRealsense_poll_total
             _ (fun frames =>
                  match rs.first (align_process rs.color frames) rs.color with
                  | Return c =>
                      Return (IntelRealsense.both
                                (rs.get_depth_frame (align_process rs.color frames))
                                (Some c))
                  | Raise e => Raise e
                  | SystemExit code => SystemExit code
                  end)); [| assumption].
    intros frames s0. unfold bind, IntelRealsense.lift.
    destruct (rs.first (align_process rs.color frames) rs.color); reflexivity.
Qed.

(** With a buffer waiting, the [Helios] frame methods return. *)
Lemma Helios_methods_return s buffer rest :
  arena.queue (Helios.pipeline (Helios.self s)) = buffer :: rest ->
  (exists img s', Helios.get_rgb s = (Return img, s'))
  /\ (exists depth s', Helios.get_depth s = (Return depth, s'))
  /\ (exists frames s', Helios.get_frames s = (Return frames, s')).
Proof.
  intros H.
  unfold Helios.get_rgb, Helios.get_depth, Helios.get_frames, bind,
    Helios.on_pipeline, arena.get_buffer, Helios.requeue_buffer.
  rewrite H. simpl. repeat split; eexists; eexists; reflexivity.
Qed.

(** ** IntelRealsense: what the constructor fixes *)

Lemma IntelRealsense_init_static connected rgb depth fps sn dm out obj out' :
  IntelRealsense.__init__ connected rgb depth fps sn dm out = (Return obj, out') ->
  IntelRealsense.mm2m_conversion obj = (if dm then 1000 else 1)
  /\ IntelRealsense_streams (IntelRealsense.pipeline obj)
     = Some (rs.cfg_streams
               (IntelRealsense.stream_config (Camera.__init__ rgb depth fps sn))).
Proof.
  unfold IntelRealsense.__init__. cbn zeta.
  unfold rs.start. cbn [rs.active_profile rs.pipeline_new].
  destruct (rs.resolve connected _) as [d |]; [| discriminate].
  destruct (rs.get_stream _ rs.color) as [profile |]; [| discriminate].
  intros H. unfold bind, print, modify, ret in H. simpl in H.
  inversion H; subst. split; reflexivity.
Qed.

Lemma IntelRealsense_constructed connected rgb depth fps sn dm out obj out' align cs :
  IntelRealsense.__init__ connected rgb depth fps sn dm out = (Return obj, out') ->
  let s := IntelRealsenseCalls.run_all align cs (IntelRealsense.mk_State obj out') in
  IntelRealsense.mm2m_conversion (IntelRealsense.self s) = (if dm then 1000 else 1)
  /\ IntelRealsense_streams (IntelRealsense.pipeline (IntelRealsense.self s))
     = Some (rs.cfg_streams
               (IntelRealsense.stream_config (Camera.__init__ rgb depth fps sn))).
Proof.
  intros H s.
  pose proof (IntelRealsense_run_all_keeps_static
                align cs (IntelRealsense.mk_State obj out')) as K.
  fold s in K. unfold IntelRealsense_static in K. simpl in K.
  destruct (IntelRealsense_init_static _ _ _ _ _ _ _ _ _ H) as [Hm Hs].
  injection K as Ki Ksn Km Ks. rewrite Km, Ks. now split.
Qed.

Lemma stream_config_color base sp :
  rs.find_stream (rs.cfg_streams (IntelRealsense.stream_config base)) rs.color = Some sp ->
  rs.sp_format sp = rs.bgr8.
Proof.
  unfold IntelRealsense.stream_config.
  destruct (negb _), (Camera.Resolution_eqb _ _); simpl;
    intros H; inversion H; reflexivity.
Qed.

Lemma frame_of_inv streams st payload f :
  rs.frame_of streams st payload = Some f ->
  rs.find_stream streams st = Some (rs.profile f) /\ payload = Some (rs.samples f).
Proof.
  unfold rs.frame_of.
  destruct (rs.find_stream streams st) as [sp |]; [| discriminate].
  destruct payload as [data |]; [| discriminate].
  intros H. inversion H. now split.
Qed.

Lemma get_data_flat f : np.flat (rs.get_data f) = rs.samples f.
Proof. unfold rs.get_data. now destruct (rs.sp_format (rs.profile f)). Qed.

Lemma depth_once_flat k data :
  np.flat (IntelRealsense.depth_once k data)
  = map (fun x => np.cast_float np.uint16
                                (np.div (np.of_int (np.cast_int np.uint16 x)) (np.of_int k)))
        (np.flat data).
Proof.
  unfold IntelRealsense.depth_once, np.astype_f, np.true_divide, np.astype. simpl.
  now rewrite !map_map.
Qed.

Lemma depth_of_frames_flat k data :
  np.flat (IntelRealsense.depth_of_frames k data)
  = map (fun x => np.cast_float np.uint16
                                (np.div (np.div (np.of_int x) (np.of_int k)) (np.of_int k)))
        (np.flat data).
Proof.
  unfold IntelRealsense.depth_of_frames, np.astype_f, np.fdivide, np.true_divide. simpl.
  now rewrite !map_map.
Qed.

Lemma cast_int_small d x : 0 <= x < 2 ^ np.bits d -> np.cast_int d x = x.
Proof. intros H. unfold np.cast_int. now apply Z.mod_small. Qed.

(** The same raw sample, 2000 mm, through the two conversions. *)
Lemma two_metres_once :
  np.cast_float np.uint16 (np.div (np.of_int 2000) (np.of_int 1000)) = 2.
Proof. vm_compute. reflexivity. Qed.

Lemma two_metres_twice :
  np.cast_float np.uint16
                (np.div (np.div (np.of_int 2000) (np.of_int 1000)) (np.of_int 1000)) = 0.
Proof. vm_compute. reflexivity. Qed.

(** ** The frames the adapters return *)

Lemma Helios_intensity_format a :
  np.dtype_of (Helios.intensity_of a) = np.uint8
  /\ np.channels (Helios.intensity_of a) = 1%nat
  /\ np.shape (Helios.intensity_of a) = [nth 0 (np.shape a) 0%nat; nth 1 (np.shape a) 0%nat].
Proof. repeat split. Qed.

(** C2, as the code has it. [Helios.get_rgb] returns a single-channel 8-bit
    frame. [IntelRealsense.get_rgb], on an adapter built by the
    constructor and after any calls, returns the data of a [bgr8] colour
    frame: 8-bit elements, three channels. [Helios.get_rgb] returns when a
    buffer is waiting; the polling loop of [IntelRealsense.get_rgb] is over
    within as many iterations as the device has captures left, plus one. *)
Theorem get_rgb_frame_format :
  (forall s img s',
      Helios.get_rgb s = (Return img, s') ->
      np.dtype_of img = np.uint8 /\ np.channels img = 1%nat)
  /\ (forall connected rgb_resolution depth_resolution fps serial_number depth_in_meters
             out obj out' align_process cs fuel img s',
         IntelRealsense.__init__ connected rgb_resolution depth_resolution fps
                                 serial_number depth_in_meters out
         = (Return obj, out') ->
         IntelRealsense.get_rgb
           fuel (IntelRealsenseCalls.run_all align_process cs
                                             (IntelRealsense.mk_State obj out'))
         = (Return (Some img), s') ->
         np.dtype_of img = np.uint8 /\ np.channels img = 3%nat)
  /\ (forall s buffer rest,
         arena.queue (Helios.pipeline (Helios.self s)) = buffer :: rest ->
         exists img s', Helios.get_rgb s = (Return img, s'))
  /\ (forall fuel s,
         (List.length (IntelRealsense_feed s) < fuel)%nat ->
         fst (IntelRealsense.get_rgb fuel s) <> Return None).
Proof.
  split; [| split; [| split]].
  - intros s img s' H. apply Helios_get_rgb_inv in H.
    destruct H as (buffer & rest & _ & ->).
    split; apply Helios_intensity_format.
  - intros connected rgb depth fps sn dm out obj out' align cs fuel img s' Hinit H.
    destruct (IntelRealsense_constructed _ _ _ _ _ _ _ _ _ align cs Hinit) as [_ Hs].
    apply IntelRealsense_get_rgb_inv in H.
    destruct H as (frames & f & (streams & cap & Hst & _ & ->) & Hc & ->).
    rewrite Hs in Hst. inversion Hst; subst streams. simpl in Hc.
    apply frame_of_inv in Hc. destruct Hc as [Hf _].
    apply stream_config_color in Hf.
    unfold rs.get_data. rewrite Hf. split; reflexivity.
  - intros s buffer rest H. now apply (Helios_methods_return s buffer rest).
  - intros fuel s H.
    now apply (IntelRealsense_enough_fuel Samples.no_reprojection fuel s).
Qed.

Lemma get_rgb_frame_format_witness :
  (exists img s',
      Helios.get_rgb (Samples.helios_state [Samples.buffer_1x2]
                                           (Helios.mk_World Samples.no_device [] 0))
      = (Return img, s')
      /\ np.dtype_of img = np.uint8 /\ np.channels img = 1%nat)
  /\ (exists obj out' img s',
         IntelRealsense.__init__ [Samples.d455] Camera.HD Camera.HD 30 "" false []
         = (Return obj, out')
         /\ IntelRealsense.get_rgb
              2 (IntelRealsenseCalls.run_all Samples.no_reprojection []
                                             (IntelRealsense.mk_State obj out'))
            = (Return (Some img), s')
         /\ np.dtype_of img = np.uint8 /\ np.channels img = 3%nat).
Proof.
  split.
  - eexists. eexists. split; [lazy; reflexivity |].
    eapply (proj1 get_rgb_frame_format
                  (Samples.helios_state [Samples.buffer_1x2]
                                        (Helios.mk_World Samples.no_device [] 0))).
    lazy. reflexivity.
  - eexists. eexists. eexists. eexists.
    split; [lazy; reflexivity |]. split; [lazy; reflexivity |].
    eapply (proj1 (proj2 get_rgb_frame_format)
                  [Samples.d455] Camera.HD Camera.HD 30 "" false []
                  _ _ Samples.no_reprojection [] 2%nat); lazy; reflexivity.
Defined.

(** C2, as stated, fails: an [IntelRealsense] built with the default
    resolution on a 1280x720 camera returns, from [get_rgb], an array of
    three channels, not one. *)
Lemma IntelRealsense_get_rgb_three_channels :
  exists obj out' img s',
    IntelRealsense.__init__ [Samples.d455_full] Camera.HD Camera.HD 30 "" false []
    = (Return obj, out')
    /\ IntelRealsense.get_rgb 1 (IntelRealsense.mk_State obj out') = (Return (Some img), s')
    /\ np.shape img = [720; 1280; 3]%nat
    /\ np.flat img = Samples.full_color
    /\ np.channels img <> 1%nat.
Proof.
  eexists. eexists. eexists. eexists.
  split; [lazy - [Samples.full_color Samples.full_depth]; reflexivity |].
  split; [lazy - [Samples.full_color Samples.full_depth]; reflexivity |].
  split; [reflexivity |]. split; [reflexivity | discriminate].
Qed.

Lemma delivered_depth_frame s frames d :
  IntelRealsense_delivers s frames ->
  rs.get_depth_frame frames = Some d ->
  exists cap, In cap (IntelRealsense_feed s) /\ rs.depth_samples cap = Some (rs.samples d).
Proof.
  intros (streams & cap & _ & Hin & ->) Hd. simpl in Hd.
  apply frame_of_inv in Hd. destruct Hd as [_ Hp].
  exists cap. now split.
Qed.

(** C3. Every pixel of [Helios.get_depth] is [raw * scale_C + offset_C]
    converted to [uint16], [raw] being the channel-2 sample of that pixel
    in the buffer the device delivered. Every pixel of
    [IntelRealsense.get_depth] is [raw / (1000 if depth_in_meters else 1)]
    converted to [uint16], [raw] being the 16-bit sample of that pixel in
    a capture the device delivered. [Helios.get_depth] returns when a
    buffer is waiting; the polling loop of [IntelRealsense.get_depth] is
    over within as many iterations as the device has captures left, plus
    one. *)
Theorem get_depth_pixel_values :
  (forall s depth s',
      Helios.get_depth s = (Return depth, s') ->
      exists buffer rest,
        arena.queue (Helios.pipeline (Helios.self s)) = buffer :: rest
        /\ np.dtype_of depth = np.uint16
        /\ (Coord3D_ABCY16_buffer buffer ->
            forall r c,
              (r < arena.height buffer)%nat -> (c < arena.width buffer)%nat ->
              np.item depth r c
              = np.cast_float
                  np.uint16
                  (np.add (np.mul (np.of_int (np.item3 (Helios.uint16_view buffer) r c 2))
                                  (Helios.scale_C (Helios.self s)))
                          (Helios.offset_C (Helios.self s)))))
  /\ (forall connected rgb_resolution depth_resolution fps serial_number depth_in_meters
             out obj out' align_process cs fuel depth s',
         IntelRealsense.__init__ connected rgb_resolution depth_resolution fps
                                 serial_number depth_in_meters out
         = (Return obj, out') ->
         let s := IntelRealsenseCalls.run_all align_process cs
                                              (IntelRealsense.mk_State obj out') in
         IntelRealsense.get_depth fuel s = (Return (Some depth), s') ->
         exists cap raw,
           In cap (IntelRealsense_feed s)
           /\ rs.depth_samples cap = Some raw
           /\ np.dtype_of depth = np.uint16
           /\ List.length (np.flat depth) = List.length raw
           /\ forall i x,
               nth_error raw i = Some x -> 0 <= x < 65536 ->
               nth_error (np.flat depth) i
               = Some (np.cast_float
                         np.uint16
                         (np.div (np.of_int x)
                                 (np.of_int (if depth_in_meters then 1000 else 1)))))
  /\ (forall s buffer rest,
         arena.queue (Helios.pipeline (Helios.self s)) = buffer :: rest ->
         exists depth s', Helios.get_depth s = (Return depth, s'))
  /\ (forall fuel s,
         (List.length (IntelRealsense_feed s) < fuel)%nat ->
         fst (IntelRealsense.get_depth fuel s) <> Return None).
Proof.
  split; [| split; [| split]].
  - intros s depth s' H. apply Helios_get_depth_inv in H.
    destruct H as (buffer & rest & Hq & ->).
    exists buffer, rest. split; [assumption |]. split; [reflexivity |].
    intros Hwf r c Hr Hc. now apply Helios_depth_pixel.
  - intros connected rgb dres fps sn dm out obj out' align cs fuel depth s' Hinit s H.
    destruct (IntelRealsense_constructed _ _ _ _ _ _ _ _ _ align cs Hinit) as [Hm _].
    fold s in Hm.
    apply IntelRealsense_get_depth_inv in H.
    destruct H as (frames & f & Hdel & Hf & ->).
    destruct (delivered_depth_frame _ _ _ Hdel Hf) as (cap & Hin & Hraw).
    exists cap, (rs.samples f). rewrite Hm.
    split; [assumption |]. split; [assumption |]. split; [reflexivity |].
    rewrite depth_once_flat, get_data_flat. split; [apply length_map |].
    intros i x Hi Hx. rewrite nth_error_map, Hi. simpl.
    rewrite cast_int_small by (simpl; lia). reflexivity.
  - intros s buffer rest H. now apply (Helios_methods_return s buffer rest).
  - intros fuel s H.
    now apply (IntelRealsense_enough_fuel Samples.no_reprojection fuel s).
Qed.

Lemma get_depth_pixel_values_witness :
  (exists depth s',
      Helios.get_depth (Samples.helios_state [Samples.buffer_1x2]
                                             (Helios.mk_World Samples.no_device [] 0))
      = (Return depth, s')
      /\ np.item depth 0 1 = 500)
  /\ (exists obj out' depth s',
         IntelRealsense.__init__ [Samples.d455] Camera.HD Camera.HD 30 "" true []
         = (Return obj, out')
         /\ IntelRealsense.get_depth
              1 (IntelRealsenseCalls.run_all Samples.no_reprojection
                                             [IntelRealsenseCalls.call_get_depth 1]
                                             (IntelRealsense.mk_State obj out'))
            = (Return (Some depth), s')
         /\ nth_error (np.flat depth) 0 = Some 2).
Proof.
  split.
  - eexists. eexists. split; [lazy; reflexivity |].
    destruct (proj1 get_depth_pixel_values
                    (Samples.helios_state [Samples.buffer_1x2]
                                          (Helios.mk_World Samples.no_device [] 0))
                    _ _ eq_refl)
      as (buffer & rest & Hq & _ & Hpix).
    injection Hq as <- _.
    refine (eq_trans (Hpix _ 0%nat 1%nat _ _) _).
    + split; reflexivity.
    + simpl; lia.
    + simpl; lia.
    + vm_compute. reflexivity.
  - eexists. eexists. eexists. eexists.
    split; [lazy; reflexivity |]. split; [lazy; reflexivity |].
    destruct (proj1 (proj2 get_depth_pixel_values)
                    [Samples.d455] Camera.HD Camera.HD 30 "" true [] _ _
                    Samples.no_reprojection [IntelRealsenseCalls.call_get_depth 1]
                    1%nat _ _ eq_refl eq_refl)
      as (cap & raw & Hin & Hraw & _ & _ & Hpix).
    destruct Hin as [<- | []]. injection Hraw as <-.
    refine (eq_trans _ (eq_trans (Hpix 0%nat 2000 eq_refl _) _)).
    + reflexivity.
    + lia.
    + vm_compute. reflexivity.
Defined.

(** C1 does not hold of the code. On an adapter built with
    [depth_in_meters=True], [get_frames] and [get_aligned_frames] divide
    every raw depth sample by 1000 twice before the conversion to [uint16]
    ([get_depth] divides once): a raw sample of 2000 comes out as 0, where
    one division gives 2. *)
Theorem IntelRealsense_get_frames_divides_twice :
  forall connected rgb_resolution depth_resolution fps serial_number out obj out'
         align_process cs fuel color depth s',
    IntelRealsense.__init__ connected rgb_resolution depth_resolution fps
                            serial_number true out
    = (Return obj, out') ->
    let s := IntelRealsenseCalls.run_all align_process cs
                                         (IntelRealsense.mk_State obj out') in
    IntelRealsense.get_frames fuel s = (Return (Some (color, depth)), s')
    \/ IntelRealsense.get_aligned_frames align_process fuel s
       = (Return (Some (color, depth)), s') ->
    exists frames d,
      IntelRealsense_delivers s frames
      /\ (rs.get_depth_frame frames = Some d
          \/ rs.get_depth_frame (align_process rs.color frames) = Some d)
      /\ np.flat depth
         = map (fun raw =>
                  np.cast_float np.uint16
                                (np.div (np.div (np.of_int raw) (np.of_int 1000))
                                        (np.of_int 1000)))
               (rs.samples d)
      /\ (forall i,
             nth_error (rs.samples d) i = Some 2000 ->
             nth_error (np.flat depth) i = Some 0
             /\ np.cast_float np.uint16 (np.div (np.of_int 2000) (np.of_int 1000)) = 2).
Proof.
  intros connected rgb dres fps sn out obj out' align cs fuel color depth s' Hinit s H.
  destruct (IntelRealsense_constructed _ _ _ _ _ _ _ _ _ align cs Hinit) as [Hm _].
  fold s in Hm. cbv iota in Hm.
  assert (Hflat : forall d,
             depth = IntelRealsense.depth_of_frames
                       (IntelRealsense.mm2m_conversion (IntelRealsense.self s))
                       (rs.get_data d) ->
             np.flat depth
             = map (fun raw =>
                      np.cast_float np.uint16
                                    (np.div (np.div (np.of_int raw) (np.of_int 1000))
                                            (np.of_int 1000)))
                   (rs.samples d)).
  { intros d ->. now rewrite depth_of_frames_flat, get_data_flat, Hm. }
  assert (Hpix : forall d,
             np.flat depth
             = map (fun raw =>
                      np.cast_float np.uint16
                                    (np.div (np.div (np.of_int raw) (np.of_int 1000))
                                            (np.of_int 1000)))
                   (rs.samples d) ->
             forall i,
               nth_error (rs.samples d) i = Some 2000 ->
               nth_error (np.flat depth) i = Some 0
               /\ np.cast_float np.uint16 (np.div (np.of_int 2000) (np.of_int 1000)) = 2).
  { intros d E i Hi. split; [| exact two_metres_once].
    rewrite E, nth_error_map, Hi. cbn [option_map]. now rewrite two_metres_twice. }
  destruct H as [H | H].
  - apply IntelRealsense_get_frames_inv in H.
    destruct H as (frames & d & c & Hdel & Hd & _ & _ & Hdepth).
    exists frames, d. pose proof (Hflat d Hdepth) as E.
    split; [assumption |]. split; [now left |]. split; [exact E |]. exact (Hpix d E).
  - apply IntelRealsense_get_aligned_frames_inv in H.
    destruct H as (frames & d & c & Hdel & Hd & _ & _ & Hdepth).
    exists frames, d. pose proof (Hflat d Hdepth) as E.
    split; [assumption |]. split; [now right |]. split; [exact E |]. exact (Hpix d E).
Qed.

Lemma IntelRealsense_get_frames_divides_twice_witness :
  exists obj out' color depth s',
    IntelRealsense.__init__ [Samples.d455] Camera.HD Camera.HD 30 "" true []
    = (Return obj, out')
    /\ IntelRealsense.get_frames 2 (IntelRealsense.mk_State obj out')
       = (Return (Some (color, depth)), s')
    /\ np.flat depth = [0; 0; 0; 0]
    /\ exists frames d,
        IntelRealsense_delivers (IntelRealsense.mk_State obj out') frames
        /\ (rs.get_depth_frame frames = Some d
            \/ rs.get_depth_frame (Samples.no_reprojection rs.color frames) = Some d)
        /\ np.flat depth
           = map (fun raw =>
                    np.cast_float np.uint16
                                  (np.div (np.div (np.of_int raw) (np.of_int 1000))
                                          (np.of_int 1000)))
                 (rs.samples d)
        /\ (forall i,
               nth_error (rs.samples d) i = Some 2000 ->
               nth_error (np.flat depth) i = Some 0
               /\ np.cast_float np.uint16 (np.div (np.of_int 2000) (np.of_int 1000)) = 2).
Proof.
  eexists. eexists. eexists. eexists. eexists.
  split; [lazy; reflexivity |]. split; [lazy; reflexivity |].
  split; [reflexivity |].
  eapply (IntelRealsense_get_frames_divides_twice
            [Samples.d455] Camera.HD Camera.HD 30 "" [] _ _
            Samples.no_reprojection [] 2%nat).
  - lazy. reflexivity.
  - left. lazy. reflexivity.
Defined.

(** ** Min-max normalisation *)

Lemma cvRound_comp x y : (x == y)%Q -> cv2.cvRound x = cv2.cvRound y.
Proof.
  intros H. unfold cv2.cvRound.
  rewrite (Qfloor_comp _ _ H).
  assert (E : (x - inject_Z (Qfloor y) == y - inject_Z (Qfloor y))%Q) by now rewrite H.
  now rewrite (Qcompare_comp _ _ E (1 # 2)%Q (1 # 2)%Q (Qeq_refl _)).
Qed.

Lemma cvRound_Z n : cv2.cvRound (inject_Z n) = n.
Proof.
  unfold cv2.cvRound. rewrite Qfloor_Z.
  assert (E : (inject_Z n - inject_Z n == 0)%Q) by ring.
  rewrite (Qcompare_comp _ _ E (1 # 2)%Q (1 # 2)%Q (Qeq_refl _)). reflexivity.
Qed.

Lemma minimum_le l x : In x l -> cv2.minimum l <= x.
Proof.
  unfold cv2.minimum. generalize (hd 0 l). intros d.
  induction l as [| y l IH]; intros H; [contradiction |].
  simpl. destruct H as [-> | H]; [lia |]. specialize (IH H). lia.
Qed.

Lemma maximum_ge l x : In x l -> x <= cv2.maximum l.
Proof.
  unfold cv2.maximum. generalize (hd 0 l). intros d.
  induction l as [| y l IH]; intros H; [contradiction |].
  simpl. destruct H as [-> | H]; [lia |]. specialize (IH H). lia.
Qed.

Lemma minmax_scale_spread smin smax :
  smin < smax ->
  (cv2.minmax_scale smin smax 0 255
   == inject_Z 255 * (1 / (inject_Z smax - inject_Z smin)))%Q.
Proof.
  intros H. unfold cv2.minmax_scale.
  destruct (Qle_bool (inject_Z smax - inject_Z smin) cv2.DBL_EPSILON) eqn:E.
  - apply Qle_bool_iff in E. exfalso.
    unfold Qle, cv2.DBL_EPSILON in E. simpl in E. lia.
  - reflexivity.
Qed.

Lemma minmax_scale_flat smin :
  (cv2.minmax_scale smin smin 0 255 == 0)%Q.
Proof.
  unfold cv2.minmax_scale.
  destruct (Qle_bool (inject_Z smin - inject_Z smin) cv2.DBL_EPSILON) eqn:E.
  - ring.
  - exfalso. assert (Ht : Qle_bool (inject_Z smin - inject_Z smin) cv2.DBL_EPSILON = true).
    { apply Qle_bool_iff. unfold Qle, cv2.DBL_EPSILON. simpl. lia. }
    congruence.
Qed.

(** The three values the normalisation is pinned to. *)
Lemma convert_minimum d smin smax :
  smin < smax ->
  let scale := cv2.minmax_scale smin smax 0 255 in
  cv2.convert d scale (cv2.minmax_shift smin 0 scale) smin = 0.
Proof.
  intros H scale. unfold cv2.convert, cv2.minmax_shift.
  rewrite (cvRound_comp _ (inject_Z 0)) by (simpl; ring).
  rewrite cvRound_Z. unfold cv2.saturate_cast. destruct d; reflexivity.
Qed.

Lemma convert_maximum d smin smax :
  smin < smax ->
  let scale := cv2.minmax_scale smin smax 0 255 in
  cv2.convert d scale (cv2.minmax_shift smin 0 scale) smax = 255.
Proof.
  intros H scale. unfold cv2.convert, cv2.minmax_shift.
  rewrite (cvRound_comp _ (inject_Z 255)).
  - rewrite cvRound_Z. unfold cv2.saturate_cast. destruct d; reflexivity.
  - subst scale. rewrite (minmax_scale_spread smin smax H).
    assert (Hd : ~ (inject_Z smax - inject_Z smin == 0)%Q).
    { unfold Qeq. simpl. lia. }
    field. exact Hd.
Qed.

Lemma convert_flat d smin x :
  let scale := cv2.minmax_scale smin smin 0 255 in
  cv2.convert d scale (cv2.minmax_shift smin 0 scale) x = 0.
Proof.
  intros scale. unfold cv2.convert, cv2.minmax_shift.
  rewrite (cvRound_comp _ (inject_Z 0)).
  - rewrite cvRound_Z. unfold cv2.saturate_cast. destruct d; reflexivity.
  - subst scale. rewrite (minmax_scale_flat smin). simpl. ring.
Qed.

Lemma minimum_in l : l <> [] -> In (cv2.minimum l) l.
Proof.
  destruct l as [| x t]; [congruence | intros _].
  unfold cv2.minimum. simpl hd.
  assert (H : forall l, fold_right Z.min x l = x \/ In (fold_right Z.min x l) l).
  { induction l as [| y l IH]; simpl; [now left |].
    destruct (Z.min_spec y (fold_right Z.min x l)) as [[_ ->] | [_ ->]]; [tauto |].
    destruct IH as [-> | IH]; [now left | right; now right]. }
  destruct (H (x :: t)) as [-> | Hin]; [now left | assumption].
Qed.

Lemma maximum_in l : l <> [] -> In (cv2.maximum l) l.
Proof.
  destruct l as [| x t]; [congruence | intros _].
  unfold cv2.maximum. simpl hd.
  assert (H : forall l, fold_right Z.max x l = x \/ In (fold_right Z.max x l) l).
  { induction l as [| y l IH]; simpl; [now left |].
    destruct (Z.max_spec y (fold_right Z.max x l)) as [[_ ->] | [_ ->]]; [| tauto].
    destruct IH as [-> | IH]; [now left | right; now right]. }
  destruct (H (x :: t)) as [-> | Hin]; [now left | assumption].
Qed.

Lemma le_pairs_range :
  forall l, Forall (fun b => 0 <= b < 256) l ->
            Forall (fun x => 0 <= x < 65536) (npview.le_pairs l).
Proof.
  fix IH 1. intros l H.
  destruct l as [| lo [| hi rest]]; cbn [npview.le_pairs]; try constructor.
  - inversion H as [| ? ? Hlo H']; subst. inversion H' as [| ? ? Hhi H'']; subst.
    cbv beta in Hlo, Hhi. lia.
  - apply IH. inversion H as [| ? ? _ H']; subst. now inversion H'.
Qed.

Lemma uint16_view_range b :
  Forall (fun x => 0 <= x < 65536) (np.flat (Helios.uint16_view b)).
Proof.
  unfold Helios.uint16_view, npview.view_uint16, npview.as_array. simpl.
  apply le_pairs_range. apply Forall_forall. intros x Hx.
  apply in_map_iff in Hx. destruct Hx as (y & <- & _).
  pose proof (Byte.to_N_bounded y). lia.
Qed.

Lemma channel_range a k :
  Forall (fun x => 0 <= x < 65536) (np.flat a) ->
  Forall (fun x => 0 <= x < 65536) (np.flat (np.channel a k)).
Proof.
  intros H. unfold np.channel. simpl. apply Forall_forall. intros x Hx.
  apply in_map_iff in Hx. destruct Hx as (p & <- & _).
  destruct (Nat.lt_ge_cases (p * nth 2 (np.shape a) 0%nat + k) (List.length (np.flat a)))
    as [Hlt | Hge].
  - rewrite Forall_forall in H. apply H. now apply nth_In.
  - rewrite nth_overflow by assumption. lia.
Qed.

(** The intensity image, sample by sample. *)
Lemma Helios_intensity_flat a :
  Forall (fun x => 0 <= x < 65536) (np.flat (np.channel a 3)) ->
  let raw := np.flat (np.channel a 3) in
  let scale := cv2.minmax_scale (cv2.minimum raw) (cv2.maximum raw) 0 255 in
  np.flat (Helios.intensity_of a)
  = map (fun x => np.cast_int np.uint8
                              (cv2.convert np.uint16 scale
                                           (cv2.minmax_shift (cv2.minimum raw) 0 scale) x))
        raw.
Proof.
  intros H raw scale.
  assert (E : map (np.cast_int np.uint16) raw = raw).
  { rewrite <- (map_id raw) at 2. apply map_ext_in. intros x Hx.
    rewrite Forall_forall in H. apply cast_int_small. simpl. now apply H. }
  unfold Helios.intensity_of, cv2.normalize_minmax, np.astype.
  cbn [np.flat np.dtype_of np.shape]. fold raw. rewrite E, map_map. reflexivity.
Qed.

Lemma intensity_of_rescale_z o b :
  Coord3D_ABCY16_buffer b ->
  Helios.intensity_of (Helios.rescale_z o (Helios.uint16_view b))
  = Helios.intensity_of (Helios.uint16_view b).
Proof.
  intros Hwf. destruct (uint16_view_shape b Hwf) as (Hs & Hl & _).
  unfold Helios.intensity_of, Helios.rescale_z.
  rewrite (channel_set_channel_other _ 2 3 _ _ _ 4 Hs Hl) by lia. reflexivity.
Qed.

Lemma normalized_pixel raw p :
  (p < List.length raw)%nat ->
  let smin := cv2.minimum raw in
  let smax := cv2.maximum raw in
  let scale := cv2.minmax_scale smin smax 0 255 in
  let out := map (fun x => np.cast_int np.uint8
                                       (cv2.convert np.uint16 scale
                                                    (cv2.minmax_shift smin 0 scale) x))
                 raw in
  smin <= nth p raw 0 <= smax
  /\ 0 <= nth p out 0 < 256
  /\ (smin < smax -> nth p raw 0 = smin -> nth p out 0 = 0)
  /\ (smin < smax -> nth p raw 0 = smax -> nth p out 0 = 255)
  /\ (smin = smax -> nth p out 0 = 0).
Proof.
  intros Hp smin smax scale out.
  assert (Hin : In (nth p raw 0) raw) by now apply nth_In.
  assert (Hout : nth p out 0
                 = np.cast_int np.uint8
                               (cv2.convert np.uint16 scale
                                            (cv2.minmax_shift smin 0 scale) (nth p raw 0))).
  { subst out. now rewrite (nth_map_in _ _ _ 0). }
  split; [split; [now apply minimum_le | now apply maximum_ge] |].
  split; [rewrite Hout; unfold np.cast_int; simpl; apply Z.mod_pos_bound; lia |].
  split; [| split].
  - intros Hlt Hx. rewrite Hout, Hx. subst scale.
    now rewrite (convert_minimum np.uint16 smin smax Hlt).
  - intros Hlt Hx. rewrite Hout, Hx. subst scale.
    now rewrite (convert_maximum np.uint16 smin smax Hlt).
  - intros Heq. rewrite Hout. subst scale. rewrite <- Heq.
    now rewrite (convert_flat np.uint16 smin).
Qed.

(** C6, as the code has it. The intensity image of [get_rgb] and of
    [get_frames] is 8-bit, and is normalised against the extreme channel-3
    samples of its own frame: when they differ, a pixel with the minimum
    raw sample is 0 and a pixel with the maximum raw sample is 255; when
    all samples of the frame are equal, every pixel is 0. Both extremes
    occur in the frame. The two methods return when a buffer is waiting. *)
Theorem Helios_intensity_minmax :
  (forall s intensity,
    (exists s', Helios.get_rgb s = (Return intensity, s'))
    \/ (exists depth s', Helios.get_frames s = (Return (intensity, depth), s')) ->
    exists buffer rest,
      arena.queue (Helios.pipeline (Helios.self s)) = buffer :: rest
      /\ np.dtype_of intensity = np.uint8
      /\ (Coord3D_ABCY16_buffer buffer ->
          let raw := np.flat (np.channel (Helios.uint16_view buffer) 3) in
          let smin := cv2.minimum raw in
          let smax := cv2.maximum raw in
          List.length (np.flat intensity) = List.length raw
          /\ (raw <> [] -> In smin raw /\ In smax raw)
          /\ (forall p,
                 (p < List.length raw)%nat ->
                 smin <= nth p raw 0 <= smax
                 /\ 0 <= nth p (np.flat intensity) 0 < 256
                 /\ (smin < smax -> nth p raw 0 = smin -> nth p (np.flat intensity) 0 = 0)
                 /\ (smin < smax -> nth p raw 0 = smax ->
                     nth p (np.flat intensity) 0 = 255)
                 /\ (smin = smax -> nth p (np.flat intensity) 0 = 0))))
  /\ (forall s buffer rest,
         arena.queue (Helios.pipeline (Helios.self s)) = buffer :: rest ->
         (exists intensity s', Helios.get_rgb s = (Return intensity, s'))
         /\ (exists frames s', Helios.get_frames s = (Return frames, s'))).
Proof.
  split; [| intros s buffer rest H;
            destruct (Helios_methods_return s buffer rest H) as (H1 & _ & H3);
            now split].
  intros s intensity H.
  assert (Hb : exists buffer rest,
             arena.queue (Helios.pipeline (Helios.self s)) = buffer :: rest
             /\ np.dtype_of intensity = np.uint8
             /\ (Coord3D_ABCY16_buffer buffer ->
                 intensity = Helios.intensity_of (Helios.uint16_view buffer))).
  { destruct H as [[s' H] | (depth & s' & H)].
    - apply Helios_get_rgb_inv in H. destruct H as (buffer & rest & Hq & ->).
      exists buffer, rest. repeat split; assumption.
    - apply Helios_get_frames_inv in H. destruct H as (buffer & rest & Hq & _ & ->).
      exists buffer, rest. split; [assumption |]. split; [reflexivity |].
      intros Hwf. now apply intensity_of_rescale_z. }
  destruct Hb as (buffer & rest & Hq & Hd & Hi).
  exists buffer, rest. split; [assumption |]. split; [assumption |].
  intros Hwf raw smin smax. rewrite (Hi Hwf).
  pose proof (Helios_intensity_flat
                (Helios.uint16_view buffer)
                (channel_range _ 3 (uint16_view_range buffer))) as E.
  cbv zeta in E. fold raw in E. fold smin in E. fold smax in E. rewrite E.
  split; [apply length_map |].
  split; [intros Hne; split; [now apply minimum_in | now apply maximum_in] |].
  intros p Hp. exact (normalized_pixel raw p Hp).
Qed.

Lemma Helios_intensity_minmax_witness :
  exists intensity s',
    Helios.get_rgb (Samples.helios_state [Samples.buffer_1x2]
                                         (Helios.mk_World Samples.no_device [] 0))
    = (Return intensity, s')
    /\ np.dtype_of intensity = np.uint8
    /\ np.flat (np.channel (Helios.uint16_view Samples.buffer_1x2) 3) = [300; 500]
    /\ np.flat intensity = [0; 255].
Proof.
  eexists. eexists. split; [lazy; reflexivity |].
  destruct (proj1 Helios_intensity_minmax
              (Samples.helios_state [Samples.buffer_1x2]
                                    (Helios.mk_World Samples.no_device [] 0))
              _ (or_introl (ex_intro _ _ eq_refl)))
    as (buffer & rest & _ & Hd & _).
  split; [exact Hd |]. split; vm_compute; reflexivity.
Defined.

(** C6, as stated, fails on a frame whose intensity samples are all equal:
    the maximum raw sample (7, at both pixels) comes out as 0, not 255. *)
Lemma Helios_flat_frame_maximum_is_zero :
  exists intensity s',
    Helios.get_rgb (Samples.helios_state [Samples.buffer_flat]
                                         (Helios.mk_World Samples.no_device [] 0))
    = (Return intensity, s')
    /\ Coord3D_ABCY16_buffer Samples.buffer_flat
    /\ np.flat (np.channel (Helios.uint16_view Samples.buffer_flat) 3) = [7; 7]
    /\ cv2.maximum (np.flat (np.channel (Helios.uint16_view Samples.buffer_flat) 3)) = 7
    /\ np.flat intensity = [0; 0]
    /\ nth 0 (np.flat intensity) 0 <> 255.
Proof.
  eexists. eexists. split; [lazy; reflexivity |].
  split; [split; reflexivity |].
  split; [vm_compute; reflexivity |]. split; [vm_compute; reflexivity |].
  split; [vm_compute; reflexivity | vm_compute; discriminate].
Qed.

(** ** Teardown *)

Lemma IntelRealsense_del_stopped s :
  rs.active_profile (IntelRealsense.pipeline (IntelRealsense.self s)) = None ->
  IntelRealsense.__del__ s
  = (Return tt,
     set_stdout (IntelRealsense.stdout s
                   ++ [IntelRealsense.exception_message
                         (RuntimeError "stop() cannot be called before start()")]) s).
Proof.
  intros H. unfold IntelRealsense.__del__, try_except, bind, IntelRealsense.on_pipeline,
              rs.stop.
  rewrite H. simpl. unfold print, modify. simpl.
  destruct s as [o out]. simpl in *. unfold IntelRealsense.set_pipeline. simpl.
  destruct o; simpl in *. destruct pipeline. simpl in *. subst. reflexivity.
Qed.

Lemma IntelRealsense_del_first s :
  let r := IntelRealsense.__del__ s in
  fst r = Return tt
  /\ rs.active_profile (IntelRealsense.pipeline (IntelRealsense.self (snd r))) = None.
Proof.
  unfold IntelRealsense.__del__, try_except, bind, IntelRealsense.on_pipeline, rs.stop.
  destruct (rs.active_profile (IntelRealsense.pipeline (IntelRealsense.self s)))
    as [pp |] eqn:E; simpl; [split; reflexivity |].
  split; [reflexivity | exact E].
Qed.

Lemma Helios_del_released destroy_device s msg :
  destroy_device (Helios.system (Helios.world s))
  = (Raise (RuntimeError msg), Helios.system (Helios.world s)) ->
  Helios.__del__ destroy_device s
  = (Return tt,
     set_stdout (Helios.stdout (Helios.world s)
                   ++ [Helios.exception_message (RuntimeError msg)]) s).
Proof.
  intros H. unfold Helios.__del__, try_except, bind, Helios.on_system.
  rewrite H. simpl. unfold print, modify. simpl.
  destruct s as [o [sys out sl]]. reflexivity.
Qed.

Lemma Helios_del_first destroy_device s sys' :
  destroy_device (Helios.system (Helios.world s)) = (Return tt, sys') ->
  Helios.__del__ destroy_device s
  = (Return tt,
     Helios.mk_State (Helios.self s)
                     (Helios.mk_World sys'
                                      (Helios.stdout (Helios.world s)
                                         ++ [Helios.closed_message (Helios.self s)])
                                      (Helios.slept (Helios.world s)))).
Proof.
  intros H. unfold Helios.__del__, try_except, bind, Helios.on_system.
  rewrite H. reflexivity.
Qed.

Lemma try_except_never {S A : Type} (body : Py S A) catches (handler : exn -> Py S A) s e s' :
  (forall ex s0 e0 s1, handler ex s0 <> (Raise e0, s1)) ->
  try_except body catches handler s = (Raise e, s') ->
  catches e = false /\ body s = (Raise e, s').
Proof.
  intros Hh. unfold try_except.
  destruct (body s) as [[a | e0 | c] s1]; try discriminate.
  destruct (catches e0) eqn:E.
  - intros H. now apply Hh in H.
  - intros H. inversion H; subst. now split.
Qed.

Lemma print_never_raises {S : Type} `{Console S} text (s : S) e s1 :
  print text s <> (Raise e, s1).
Proof. discriminate. Qed.

Lemma try_except_passes {S A : Type} (body : Py S A) catches (handler : exn -> Py S A) s e s' :
  body s = (Raise e, s') -> catches e = false ->
  try_except body catches handler s = (Raise e, s').
Proof. intros H E. unfold try_except. now rewrite H, E. Qed.

(** C8. A second teardown does not crash on the [RuntimeError] of the
    release. For [IntelRealsense]: whatever the state, [__del__] returns
    normally and leaves the pipeline stopped, and [__del__] on a stopped
    pipeline returns normally, its only effect being one printed line, the
    report of the [RuntimeError] of [pipeline.stop()]. For [Helios], whose
    release is the SDK's [system.destroy_device()]: no invocation of
    [__del__], the first, the second or one on an already released
    registry, ends with a [RuntimeError]; when the release raises a
    [RuntimeError] and leaves the registry as it was, the invocation returns
    normally and its only effect is one printed line, the report of that
    error; when the release returns, the invocation returns normally and
    prints the "closed" line, once more if it did before. *)
Theorem second_teardown_outcomes :
  (forall s,
      let r1 := IntelRealsense.__del__ s in
      fst r1 = Return tt
      /\ exists msg,
          IntelRealsense.__del__ (snd r1)
          = (Return tt,
             set_stdout (IntelRealsense.stdout (snd r1)
                           ++ [IntelRealsense.exception_message (RuntimeError msg)])
                        (snd r1)))
  /\ (forall destroy_device s,
         let s1 := snd (Helios.__del__ destroy_device s) in
         let outcomes s0 :=
           (forall e s', Helios.__del__ destroy_device s0 = (Raise e, s') ->
                         is_RuntimeError e = false)
           /\ (forall msg,
                  destroy_device (Helios.system (Helios.world s0))
                  = (Raise (RuntimeError msg), Helios.system (Helios.world s0)) ->
                  Helios.__del__ destroy_device s0
                  = (Return tt,
                     set_stdout (Helios.stdout (Helios.world s0)
                                   ++ [Helios.exception_message (RuntimeError msg)]) s0))
           /\ (forall sys',
                  destroy_device (Helios.system (Helios.world s0)) = (Return tt, sys') ->
                  Helios.__del__ destroy_device s0
                  = (Return tt,
                     Helios.mk_State
                       (Helios.self s0)
                       (Helios.mk_World sys'
                                        (Helios.stdout (Helios.world s0)
                                           ++ [Helios.closed_message (Helios.self s0)])
                                        (Helios.slept (Helios.world s0))))) in
         outcomes s /\ outcomes s1).
Proof.
  split.
  - intros s r1. destruct (IntelRealsense_del_first s) as [H1 H2]. fold r1 in H1, H2.
    split; [assumption |].
    exists "stop() cannot be called before start()".
    now apply IntelRealsense_del_stopped.
  - intros destroy_device s s1 outcomes.
    assert (H : forall s0, outcomes s0); [| split; apply H].
    intros s0. split; [| split].
    + intros e s' He. unfold Helios.__del__ in He.
      apply try_except_never in He; [tauto |].
      intros ex s2 e0 s3. apply print_never_raises.
    + intros msg Hd. now apply Helios_del_released.
    + intros sys' Hd. now apply Helios_del_first.
Qed.

Lemma second_teardown_outcomes_witness :
  (exists msg,
      IntelRealsense.__del__ (snd (IntelRealsense.__del__ Samples.d455_state))
      = (Return tt,
         set_stdout (IntelRealsense.stdout (snd (IntelRealsense.__del__ Samples.d455_state))
                       ++ [IntelRealsense.exception_message (RuntimeError msg)])
                    (snd (IntelRealsense.__del__ Samples.d455_state))))
  /\ (let s := Samples.helios_state [] Samples.one_created in
      let s1 := snd (Helios.__del__ Samples.strict_destroy s) in
      Helios.stdout (Helios.world s1) = [Helios.closed_message (Helios.self s)]
      /\ Helios.__del__ Samples.strict_destroy s1
         = (Return tt,
            set_stdout (Helios.stdout (Helios.world s1)
                          ++ [Helios.exception_message
                                (RuntimeError "no device to destroy")]) s1)).
Proof.
  split.
  - exact (proj2 (proj1 second_teardown_outcomes Samples.d455_state)).
  - split; [reflexivity |].
    apply (proj1 (proj2 (proj2 (proj2 second_teardown_outcomes Samples.strict_destroy
                                      (Samples.helios_state [] Samples.one_created))))
                 "no device to destroy").
    reflexivity.
Defined.

(** With an SDK whose [system.destroy_device()] has nothing to do on a
    registry that holds no device, and returns: the second teardown of a
    [Helios] prints the "closed" line a second time, and no report of an
    error. *)
Lemma Helios_second_teardown_closes_again :
  let s := Samples.helios_state [] Samples.one_created in
  let s1 := snd (Helios.__del__ Samples.lenient_destroy s) in
  let r2 := Helios.__del__ Samples.lenient_destroy s1 in
  arena.created (Helios.system (Helios.world s1)) = []
  /\ fst r2 = Return tt
  /\ Helios.stdout (Helios.world (snd r2))
     = ["LucidVision Helios H-42 camera closed"; "LucidVision Helios H-42 camera closed"]
  /\ ~ (exists ex,
           Helios.stdout (Helios.world (snd r2))
           = Helios.stdout (Helios.world s1) ++ [Helios.exception_message ex]).
Proof.
  cbv zeta. split; [reflexivity |]. split; [reflexivity |]. split; [reflexivity |].
  intros [ex H]. vm_compute in H. destruct ex; discriminate H.
Qed.

(** * Further properties *)

(** ** Helios: the constructor when a device is there *)

Lemma wait_for_device_failed_attempt_lines n tries w :
  arena.discover (Helios.system w) (arena.calls (Helios.system w)) = [] ->
  exists w',
    Helios.wait_for_device (S n) tries w = Helios.wait_for_device n (tries + 1) w'
    /\ Helios.system w'
       = arena.mk_System (arena.discover (Helios.system w))
                         (S (arena.calls (Helios.system w))) []
    /\ Helios.slept w' = (Helios.slept w + Helios.sleep_time_secs)%nat
    /\ List.length (Helios.stdout w') = (List.length (Helios.stdout w) + 4)%nat.
Proof.
  intros H. destruct w as [[disc calls created] out sl]. simpl in H.
  eexists. split.
  - cbn [Helios.wait_for_device].
    unfold bind at 1. unfold Helios.create_device, arena.create_device.
    cbn [Helios.system arena.discover arena.calls Helios.stdout Helios.slept].
    rewrite H.
    cbv [bind print modify Helios.sleep Helios.print_end Helios.for_each seq
              Helios.sleep_time_secs get_stdout set_stdout Helios.Console_World
              Helios.system Helios.stdout Helios.slept ret].
    reflexivity.
  - cbn [Helios.system Helios.slept Helios.stdout].
    split; [reflexivity |]. split; [unfold Helios.sleep_time_secs; lia |].
    rewrite !length_app. simpl. lia.
Qed.

Lemma wait_for_device_found_lines n tries w d ds :
  arena.discover (Helios.system w) (arena.calls (Helios.system w)) = d :: ds ->
  exists w',
    Helios.wait_for_device (S n) tries w = (Return (d :: ds), w')
    /\ Helios.system w'
       = arena.mk_System (arena.discover (Helios.system w))
                         (S (arena.calls (Helios.system w))) (d :: ds)
    /\ Helios.slept w' = Helios.slept w
    /\ List.length (Helios.stdout w') = (List.length (Helios.stdout w) + 1)%nat.
Proof.
  intros H. destruct w as [[disc calls created] out sl]. simpl in H.
  eexists. split.
  - cbn [Helios.wait_for_device].
    unfold bind at 1. unfold Helios.create_device, arena.create_device.
    cbn [Helios.system arena.discover arena.calls Helios.stdout Helios.slept].
    rewrite H.
    cbv [bind print modify get_stdout set_stdout Helios.Console_World
              Helios.system Helios.stdout Helios.slept ret].
    reflexivity.
  - cbn [Helios.system Helios.slept Helios.stdout].
    split; [reflexivity |]. split; [reflexivity |].
    rewrite length_app. simpl. lia.
Qed.

(** The discovery loop that meets a device at its attempt [k + 1]. *)
Lemma wait_for_device_at k :
  forall remaining tries w d rest,
    (k < remaining)%nat ->
    arena.discover (Helios.system w) (arena.calls (Helios.system w) + k) = d :: rest ->
    (forall j, (j < k)%nat ->
               arena.discover (Helios.system w) (arena.calls (Helios.system w) + j) = []) ->
    exists w1,
      Helios.wait_for_device remaining tries w = (Return (d :: rest), w1)
      /\ Helios.system w1
         = arena.mk_System (arena.discover (Helios.system w))
                           (arena.calls (Helios.system w) + k + 1) (d :: rest)
      /\ Helios.slept w1 = (Helios.slept w + k * Helios.sleep_time_secs)%nat
      /\ List.length (Helios.stdout w1)
         = (List.length (Helios.stdout w) + 4 * k + 1)%nat.
Proof.
  induction k as [| k IH]; intros remaining tries w d rest Hlt Hf Hn;
    (destruct remaining as [| n]; [lia |]).
  - rewrite Nat.add_0_r in Hf.
    destruct (wait_for_device_found_lines n tries w d rest Hf)
      as (w1 & E & Hsys & Hsl & Hout).
    exists w1. rewrite E, Hsys, Hsl, Hout.
    split; [reflexivity |]. split; [f_equal; lia |]. split; lia.
  - pose proof (Hn 0%nat ltac:(lia)) as H0. rewrite Nat.add_0_r in H0.
    destruct (wait_for_device_failed_attempt_lines n tries w H0)
      as (w1 & E & Hsys & Hsl & Hout).
    destruct (IH n (tries + 1)%nat w1 d rest) as (w2 & E2 & Hs2 & Hsl2 & Hout2).
    + lia.
    + rewrite Hsys. simpl. rewrite <- Nat.add_succ_r. exact Hf.
    + intros j Hj. rewrite Hsys. simpl. rewrite <- Nat.add_succ_r. apply Hn. lia.
    + exists w2. rewrite E, E2, Hs2, Hsl2, Hout2, Hsys, Hsl, Hout. simpl.
      split; [reflexivity |]. split; [f_equal; lia |].
      unfold Helios.sleep_time_secs. split; lia.
Qed.

(** X1. When the first device appears at the discovery attempt [k + 1] of
    the six, the [Helios] constructor returns an adapter after [k + 1]
    calls of [system.create_device()], having slept three seconds for each
    of the [k] failed attempts and printed four lines for each of them
    (the try message and the three countdown lines), then the "Created"
    line and the "configured" line; the discovered devices are the ones
    the SDK holds as created. *)
Theorem Helios_init_returns_at_first_device :
  forall rgb_resolution depth_resolution fps serial_number depth_in_meters w k d rest,
    (k < Helios.tries_max)%nat ->
    arena.discover (Helios.system w) (arena.calls (Helios.system w) + k) = d :: rest ->
    (forall j, (j < k)%nat ->
               arena.discover (Helios.system w) (arena.calls (Helios.system w) + j) = []) ->
    exists obj w',
      Helios.__init__ rgb_resolution depth_resolution fps serial_number depth_in_meters w
      = (Return obj, w')
      /\ arena.calls (Helios.system w') = (arena.calls (Helios.system w) + k + 1)%nat
      /\ arena.created (Helios.system w') = d :: rest
      /\ Helios.slept w' = (Helios.slept w + 3 * k)%nat
      /\ List.length (Helios.stdout w')
         = (List.length (Helios.stdout w) + 4 * k + 2)%nat.
Proof.
  intros rgb depth fps sn dm w k d rest Hk Hfound Hnone.
  destruct (wait_for_device_at k Helios.tries_max 0%nat w d rest Hk Hfound Hnone)
    as (w1 & E & Hsys & Hsl & Hout).
  unfold Helios.__init__. cbn zeta. rewrite Nat.sub_0_r.
  rewrite (bind_Return _ _ _ _ _ E).
  eexists. eexists. split; [reflexivity |].
  cbn [bind print modify ret get_stdout set_stdout Helios.Console_World
            Helios.system Helios.stdout Helios.slept fst snd].
  rewrite Hsys, Hsl, length_app, Hout. simpl.
  unfold Helios.sleep_time_secs. repeat split; lia.
Qed.

Lemma Helios_init_returns_at_first_device_witness :
  exists obj w',
    Helios.__init__ Camera.HD Camera.HD 30 "" false
                    (Samples.empty_world Samples.late_devices)
    = (Return obj, w')
    /\ arena.calls (Helios.system w') = (0 + 2 + 1)%nat
    /\ arena.created (Helios.system w')
       = [Samples.helios_device "H-42" [Samples.buffer_1x2; Samples.buffer_flat];
          Samples.helios_device "H-77" []]
    /\ Helios.slept w' = (0 + 3 * 2)%nat
    /\ List.length (Helios.stdout w') = (0 + 4 * 2 + 2)%nat.
Proof.
  apply (Helios_init_returns_at_first_device
           Camera.HD Camera.HD 30 "" false (Samples.empty_world Samples.late_devices)
           2%nat).
  - unfold Helios.tries_max. lia.
  - reflexivity.
  - intros j Hj. destruct j as [| [| j]]; [reflexivity | reflexivity | lia].
Defined.

Lemma wait_for_device_created remaining :
  forall tries w devices w1,
    Helios.wait_for_device remaining tries w = (Return devices, w1) ->
    arena.created (Helios.system w1) = devices.
Proof.
  induction remaining as [| n IH]; intros tries w devices w1 H; [discriminate |].
  destruct (arena.discover (Helios.system w) (arena.calls (Helios.system w)))
    as [| d ds] eqn:E0.
  - destruct (wait_for_device_failed_attempt n tries w E0) as (w' & E & _).
    rewrite E in H. eapply IH. eassumption.
  - destruct (wait_for_device_found n tries w d ds E0) as (w' & E & Hsys & _).
    rewrite E in H. inversion H; subst. now rewrite Hsys.
Qed.

(** X2. A [Helios] constructor that returns has configured the first
    created device and read its calibration: the pixel format is
    [Coord3D_ABCY16], confidence gating is off, the amplitude gain is 5.0,
    the stream keeps the newest buffer only with packet-size negotiation
    and packet resend on, and the device is streaming; the buffers the
    device holds, its serial number and its calibration nodes are
    untouched. The stored intrinsics are the calibration nodes of the
    device, and [scale_A], [scale_B], [scale_C] and the offsets are the
    values of [Scan3dCoordinateScale] and [Scan3dCoordinateOffset] for
    their own coordinate, although the selector is left on
    [CoordinateC]. The resolution and fps arguments are stored as given. *)
Theorem Helios_init_configuration :
  forall rgb_resolution depth_resolution fps serial_number depth_in_meters w obj w',
    Helios.__init__ rgb_resolution depth_resolution fps serial_number depth_in_meters w
    = (Return obj, w') ->
    exists d rest,
      arena.created (Helios.system w') = d :: rest
      /\ (let n := arena.nodemap d in
          let p := Helios.pipeline obj in
          let n' := arena.nodemap p in
          arena.PixelFormat n' = "Coord3D_ABCY16"
          /\ arena.Scan3dConfidenceThresholdEnable n' = false
          /\ arena.Scan3dAmplitudeGain n' = np.of_int 5
          /\ arena.Scan3dCoordinateSelector n' = "CoordinateC"
          /\ arena.tl_stream_nodemap p = arena.mk_StreamNodemap "NewestOnly" true true
          /\ arena.streaming p = true
          /\ arena.queue p = arena.queue d
          /\ arena.DeviceSerialNumber n' = arena.DeviceSerialNumber n
          /\ arena.coordinate_scale n' = arena.coordinate_scale n
          /\ arena.coordinate_offset n' = arena.coordinate_offset n
          /\ Helios.intr obj
             = Camera.mk_Intrinsics (arena.CalibFocalLengthX n) (arena.CalibFocalLengthY n)
                                    (arena.CalibOpticalCenterX n)
                                    (arena.CalibOpticalCenterY n)
                                    (arena.Width n) (arena.Height n)
          /\ Helios.scale_A obj = arena.coordinate_scale n "CoordinateA"
          /\ Helios.offset_A obj = arena.coordinate_offset n "CoordinateA"
          /\ Helios.scale_B obj = arena.coordinate_scale n "CoordinateB"
          /\ Helios.offset_B obj = arena.coordinate_offset n "CoordinateB"
          /\ Helios.scale_C obj = arena.coordinate_scale n "CoordinateC"
          /\ Helios.offset_C obj = arena.coordinate_offset n "CoordinateC")
      /\ Helios.camera_name obj = "LucidVision Helios"
      /\ Helios.rgb_resolution obj = rgb_resolution
      /\ Helios.depth_resolution obj = depth_resolution
      /\ Helios.fps obj = fps.
Proof.
  intros rgb depth fps sn dm w obj w' H.
  unfold Helios.__init__ in H. cbn zeta in H.
  apply bind_Return_inv in H. destruct H as (devices & w1 & Hw & Hk).
  pose proof (wait_for_device_created _ _ _ _ _ Hw) as Hc.
  apply wait_for_device_returns in Hw.
  destruct Hw as (k & d & rest & _ & -> & _ & _).
  apply bind_Return_inv in Hk. destruct Hk as ([] & w2 & Hp & Hret).
  unfold print, modify in Hp. inversion Hp; subst w2. clear Hp.
  inversion Hret; subst obj w'. clear Hret.
  exists d, rest. split; [exact Hc |].
  split; [cbv zeta; repeat split |]. repeat split.
Qed.

Lemma Helios_init_configuration_witness :
  exists obj w',
    Helios.__init__ Camera.FullHD Camera.HD 30 "" false
                    (Samples.empty_world Samples.late_devices)
    = (Return obj, w')
    /\ arena.PixelFormat (arena.nodemap (Helios.pipeline obj)) = "Coord3D_ABCY16"
    /\ arena.streaming (Helios.pipeline obj) = true
    /\ Helios.scale_C obj = Samples.quarter
    /\ Helios.rgb_resolution obj = Camera.FullHD.
Proof.
  destruct (Helios.__init__ Camera.FullHD Camera.HD 30 "" false
                            (Samples.empty_world Samples.late_devices))
    as [[obj | e | c] w'] eqn:E.
  - exists obj, w'. split; [reflexivity |].
    destruct (Helios_init_configuration _ _ _ _ _ _ _ _ E)
      as (d & rest & Hc & Hn & _ & Hrgb & _).
    cbv zeta in Hn.
    destruct Hn as (Hpf & _ & _ & _ & _ & Hst & _ & _ & _ & _ & _ & _ & _ & _ & _ & HsC & _).
    split; [exact Hpf |]. split; [exact Hst |]. split; [| exact Hrgb].
    rewrite HsC. vm_compute in E. inversion E as [[Eo Ew]].
    rewrite <- Ew in Hc. simpl in Hc. inversion Hc. reflexivity.
  - vm_compute in E. discriminate E.
  - vm_compute in E. discriminate E.
Defined.

(** ** Helios: one buffer, one frame *)

Lemma Helios_set_pipeline_same s : Helios.set_pipeline (Helios.pipeline (Helios.self s)) s = s.
Proof. destruct s as [o w]. destruct o. reflexivity. Qed.

Lemma Helios_frame_methods_eq s buffer rest :
  arena.queue (Helios.pipeline (Helios.self s)) = buffer :: rest ->
  let d := Helios.pipeline (Helios.self s) in
  let s' := Helios.set_pipeline
              (arena.mk_Device (arena.nodemap d) (arena.tl_stream_nodemap d)
                               (arena.streaming d) rest) s in
  let npndarray := Helios.rescale_z (Helios.self s) (Helios.uint16_view buffer) in
  Helios.get_rgb s = (Return (Helios.intensity_of (Helios.uint16_view buffer)), s')
  /\ Helios.get_depth s = (Return (np.astype np.uint16 (np.channel npndarray 2)), s')
  /\ Helios.get_frames s
     = (Return (Helios.intensity_of npndarray,
                np.astype np.uint16 (np.channel npndarray 2)), s').
Proof.
  intros H d s' npndarray.
  unfold Helios.get_rgb, Helios.get_depth, Helios.get_frames, bind, get, ret,
    Helios.requeue_buffer, Helios.on_pipeline, arena.get_buffer, arena.requeue_buffer.
  rewrite H. destruct s as [o w]. destruct o. simpl in *. repeat split.
Qed.

Lemma Helios_frame_methods_empty s :
  arena.queue (Helios.pipeline (Helios.self s)) = [] ->
  Helios.get_rgb s = (Raise (TimeoutError "get_buffer timed out"), s)
  /\ Helios.get_depth s = (Raise (TimeoutError "get_buffer timed out"), s)
  /\ Helios.get_frames s = (Raise (TimeoutError "get_buffer timed out"), s).
Proof.
  intros H.
  unfold Helios.get_rgb, Helios.get_depth, Helios.get_frames, bind,
    Helios.on_pipeline, arena.get_buffer.
  rewrite H. rewrite Helios_set_pipeline_same. repeat split.
Qed.

(** X3. The two arrays [Helios.get_frames] returns have the same shape,
    the height and the width of the buffer they were decoded from, and
    that many samples each; the intensity is [uint8], the depth
    [uint16]. *)
Theorem Helios_get_frames_shapes :
  forall s intensity depth s',
    Helios.get_frames s = (Return (intensity, depth), s') ->
    exists buffer rest,
      arena.queue (Helios.pipeline (Helios.self s)) = buffer :: rest
      /\ np.shape intensity = [arena.height buffer; arena.width buffer]
      /\ np.shape depth = [arena.height buffer; arena.width buffer]
      /\ List.length (np.flat intensity) = (arena.height buffer * arena.width buffer)%nat
      /\ List.length (np.flat depth) = (arena.height buffer * arena.width buffer)%nat
      /\ np.dtype_of intensity = np.uint8
      /\ np.dtype_of depth = np.uint16.
Proof.
  intros s intensity depth s' H. apply Helios_get_frames_inv in H.
  destruct H as (buffer & rest & Hq & -> & ->).
  exists buffer, rest. split; [assumption |].
  unfold Helios.intensity_of, cv2.normalize_minmax, np.astype, np.channel,
    Helios.rescale_z, npview.set_channel, Helios.uint16_view, npview.view_uint16,
    npview.as_array.
  cbn [np.shape np.flat np.dtype_of nth].
  rewrite !length_map, !length_seq. repeat split.
Qed.

Lemma Helios_get_frames_shapes_witness :
  exists intensity depth s',
    Helios.get_frames (Samples.helios_state [Samples.buffer_1x2]
                                            (Helios.mk_World Samples.no_device [] 0))
    = (Return (intensity, depth), s')
    /\ np.shape intensity = [1; 2]%nat
    /\ np.shape depth = [1; 2]%nat.
Proof.
  eexists. eexists. eexists. split; [lazy; reflexivity |].
  destruct (Helios_get_frames_shapes
              (Samples.helios_state [Samples.buffer_1x2]
                                    (Helios.mk_World Samples.no_device [] 0))
              _ _ _ eq_refl)
    as (buffer & rest & Hq & Hi & Hd & _).
  injection Hq as <- _. split; [exact Hi | exact Hd].
Defined.

(** X4. On a state with a [Coord3D_ABCY16] buffer waiting, [get_frames]
    returns exactly the pair of what [get_rgb] and [get_depth] return on
    that state, [get_aligned_frames] likewise, and each of the four calls
    leaves the same state: the first waiting buffer is taken and the
    others stay, in order; nothing else changes. *)
Theorem Helios_get_frames_is_rgb_and_depth :
  forall s buffer rest,
    arena.queue (Helios.pipeline (Helios.self s)) = buffer :: rest ->
    Coord3D_ABCY16_buffer buffer ->
    exists intensity depth s',
      Helios.get_rgb s = (Return intensity, s')
      /\ Helios.get_depth s = (Return depth, s')
      /\ Helios.get_frames s = (Return (intensity, depth), s')
      /\ Helios.get_aligned_frames s = (Return (intensity, depth), s')
      /\ arena.queue (Helios.pipeline (Helios.self s')) = rest
      /\ Helios.world s' = Helios.world s
      /\ Helios_static s' = Helios_static s.
Proof.
  intros s buffer rest Hq Hwf.
  destruct (Helios_frame_methods_eq s buffer rest Hq) as (H1 & H2 & H3).
  cbv zeta in H1, H2, H3. rewrite (intensity_of_rescale_z _ _ Hwf) in H3.
  eexists. eexists. eexists.
  split; [exact H1 |]. split; [exact H2 |]. split; [exact H3 |].
  split; [exact H3 |]. repeat split.
Qed.

Lemma Helios_get_frames_is_rgb_and_depth_witness :
  exists intensity depth s',
    Helios.get_rgb (Samples.helios_state [Samples.buffer_1x2; Samples.buffer_flat]
                                         (Helios.mk_World Samples.no_device [] 0))
    = (Return intensity, s')
    /\ Helios.get_frames (Samples.helios_state [Samples.buffer_1x2; Samples.buffer_flat]
                                               (Helios.mk_World Samples.no_device [] 0))
       = (Return (intensity, depth), s')
    /\ arena.queue (Helios.pipeline (Helios.self s')) = [Samples.buffer_flat].
Proof.
  destruct (Helios_get_frames_is_rgb_and_depth
              (Samples.helios_state [Samples.buffer_1x2; Samples.buffer_flat]
                                    (Helios.mk_World Samples.no_device [] 0))
              Samples.buffer_1x2 [Samples.buffer_flat] eq_refl
              (conj eq_refl eq_refl))
    as (intensity & depth & s' & H1 & _ & H3 & _ & Hq & _).
  exists intensity, depth, s'. split; [exact H1 |]. split; [exact H3 | exact Hq].
Defined.

(** X5. With no buffer waiting, [get_rgb], [get_depth], [get_frames] and
    [get_aligned_frames] end with the error of [get_buffer], which they do
    not catch, and leave the adapter and the process as they were. *)
Theorem Helios_frame_methods_without_buffer :
  forall s,
    arena.queue (Helios.pipeline (Helios.self s)) = [] ->
    exists e,
      Helios.get_rgb s = (Raise e, s)
      /\ Helios.get_depth s = (Raise e, s)
      /\ Helios.get_frames s = (Raise e, s)
      /\ Helios.get_aligned_frames s = (Raise e, s).
Proof.
  intros s H. destruct (Helios_frame_methods_empty s H) as (H1 & H2 & H3).
  exists (TimeoutError "get_buffer timed out").
  split; [exact H1 |]. split; [exact H2 |]. split; exact H3.
Qed.

Lemma Helios_frame_methods_without_buffer_witness :
  exists e,
    Helios.get_rgb (Samples.helios_state [] (Helios.mk_World Samples.no_device [] 0))
    = (Raise e, Samples.helios_state [] (Helios.mk_World Samples.no_device [] 0))
    /\ Helios.get_frames (Samples.helios_state [] (Helios.mk_World Samples.no_device [] 0))
       = (Raise e, Samples.helios_state [] (Helios.mk_World Samples.no_device [] 0)).
Proof.
  destruct (Helios_frame_methods_without_buffer
              (Samples.helios_state [] (Helios.mk_World Samples.no_device [] 0)) eq_refl)
    as (e & H1 & _ & H3 & _).
  exists e. split; [exact H1 | exact H3].
Defined.

(** X6. The layout [get_depth] reads: the raw depth of pixel [(r, c)] is
    the little-endian 16-bit number in bytes [8 p + 4] and [8 p + 5] of the
    buffer, [p = r * width + c] (eight bytes a pixel, channel 2 of four),
    and the returned pixel is that number times [scale_C] plus [offset_C],
    converted to [uint16]. *)
Theorem Helios_depth_from_bytes :
  forall s depth s',
    Helios.get_depth s = (Return depth, s') ->
    exists buffer rest,
      arena.queue (Helios.pipeline (Helios.self s)) = buffer :: rest
      /\ (Coord3D_ABCY16_buffer buffer ->
          forall r c,
            (r < arena.height buffer)%nat -> (c < arena.width buffer)%nat ->
            let byte_at i := Z.of_N (Byte.to_N (nth i (arena.pdata buffer) x00)) in
            let p := (r * arena.width buffer + c)%nat in
            np.item depth r c
            = np.cast_float
                np.uint16
                (np.add (np.mul (np.of_int (byte_at (8 * p + 4)%nat
                                            + 256 * byte_at (8 * p + 5)%nat))
                                (Helios.scale_C (Helios.self s)))
                        (Helios.offset_C (Helios.self s)))).
Proof.
  intros s depth s' H. apply Helios_get_depth_inv in H.
  destruct H as (buffer & rest & Hq & ->).
  exists buffer, rest. split; [assumption |].
  intros Hwf r c Hr Hc byte_at p.
  rewrite (Helios_depth_pixel _ _ _ _ Hwf Hr Hc).
  pose proof (Helios_raw_sample buffer r c 2 Hwf Hr Hc ltac:(lia)) as E.
  cbv zeta in E. rewrite E. subst byte_at p. cbv beta.
  replace (2 * ((r * arena.width buffer + c) * 4 + 2))%nat
    with (8 * (r * arena.width buffer + c) + 4)%nat by lia.
  replace (8 * (r * arena.width buffer + c) + 4 + 1)%nat
    with (8 * (r * arena.width buffer + c) + 5)%nat by lia.
  reflexivity.
Qed.

Lemma Helios_depth_from_bytes_witness :
  exists depth s',
    Helios.get_depth (Samples.helios_state [Samples.buffer_1x2]
                                           (Helios.mk_World Samples.no_device [] 0))
    = (Return depth, s')
    /\ Z.of_N (Byte.to_N (nth 12 (arena.pdata Samples.buffer_1x2) x00)) = 209
    /\ Z.of_N (Byte.to_N (nth 13 (arena.pdata Samples.buffer_1x2) x00)) = 7
    /\ np.item depth 0 1 = 500.
Proof.
  eexists. eexists. split; [lazy; reflexivity |].
  split; [reflexivity |]. split; [reflexivity |].
  destruct (Helios_depth_from_bytes
              (Samples.helios_state [Samples.buffer_1x2]
                                    (Helios.mk_World Samples.no_device [] 0))
              _ _ eq_refl)
    as (buffer & rest & Hq & Hpix).
  injection Hq as <- _.
  refine (eq_trans (Hpix (conj eq_refl eq_refl) 0%nat 1%nat _ _) _).
  - simpl; lia.
  - simpl; lia.
  - vm_compute. reflexivity.
Defined.

(** ** IntelRealsense: which capture a polling loop returns *)

Lemma wait_for_frames_step s pp cap rest :
  rs.active_profile (IntelRealsense.pipeline (IntelRealsense.self s)) = Some pp ->
  rs.feed (rs.pp_device pp) = cap :: rest ->
  exists s1 pp1,
    IntelRealsense.on_pipeline rs.wait_for_frames s
    = (Return (rs.frameset_of (rs.pp_streams pp) cap), s1)
    /\ rs.active_profile (IntelRealsense.pipeline (IntelRealsense.self s1)) = Some pp1
    /\ rs.pp_streams pp1 = rs.pp_streams pp
    /\ rs.feed (rs.pp_device pp1) = rest
    /\ rs.sensors (rs.pp_device pp1) = rs.sensors (rs.pp_device pp)
    /\ IntelRealsense_static s1 = IntelRealsense_static s
    /\ IntelRealsense.stdout s1 = IntelRealsense.stdout s.
Proof.
  intros Hp Hf.
  unfold IntelRealsense.on_pipeline, rs.wait_for_frames. rewrite Hp, Hf.
  eexists. eexists. split; [reflexivity |].
  unfold IntelRealsense_static, IntelRealsense_streams. simpl. rewrite Hp.
  repeat split.
Qed.

Lemma wait_for_frames_dry s pp :
  rs.active_profile (IntelRealsense.pipeline (IntelRealsense.self s)) = Some pp ->
  rs.feed (rs.pp_device pp) = [] ->
  IntelRealsense.on_pipeline rs.wait_for_frames s
  = (Raise (RuntimeError "Frame didn't arrive within 5000"), s).
Proof.
  intros Hp Hf.
  unfold IntelRealsense.on_pipeline, rs.wait_for_frames. rewrite Hp, Hf.
  destruct s as [o out]. destruct o. reflexivity.
Qed.

Lemma wait_for_frames_stopped s :
  rs.active_profile (IntelRealsense.pipeline (IntelRealsense.self s)) = None ->
  IntelRealsense.on_pipeline rs.wait_for_frames s
  = (Raise (RuntimeError "wait_for_frames cannot be called before start()"), s).
Proof.
  intros Hp.
  unfold IntelRealsense.on_pipeline, rs.wait_for_frames. rewrite Hp.
  destruct s as [o out]. destruct o. reflexivity.
Qed.

(** A polling loop skips the captures that yield nothing and stops at the
    first that yields a value; the captures after it stay with the device. *)
Lemma IntelRealsense_poll_first {A : Type}
      (k : rs.composite_frame -> Py IntelRealsense.State (option A))
      (r : rs.composite_frame -> outcome (option A)) streams cap post a :
  (forall frames s0, k frames s0 = (r frames, s0)) ->
  r (rs.frameset_of streams cap) = Return (Some a) ->
  forall pre fuel s pp,
    (forall c, In c pre -> r (rs.frameset_of streams c) = Return None) ->
    rs.active_profile (IntelRealsense.pipeline (IntelRealsense.self s)) = Some pp ->
    rs.pp_streams pp = streams ->
    rs.feed (rs.pp_device pp) = pre ++ cap :: post ->
    (List.length pre < fuel)%nat ->
    exists s',
      while_not fuel (bind (IntelRealsense.on_pipeline rs.wait_for_frames) k) s
      = (Return (Some a), s')
      /\ IntelRealsense_feed s' = post
      /\ IntelRealsense_static s' = IntelRealsense_static s
      /\ IntelRealsense.stdout s' = IntelRealsense.stdout s.
Proof.
  intros Hkr Hcap.
  induction pre as [| c pre IH]; intros fuel s pp Hpre Hp Hs Hf Hlen;
    (destruct fuel as [| n]; [simpl in Hlen; lia |]);
    destruct (wait_for_frames_step s pp _ _ Hp Hf)
      as (s1 & pp1 & Hw & Hp1 & Hs1 & Hf1 & _ & Hst1 & Hout1);
    pose proof (bind_Return _ k _ _ _ Hw) as Hb; rewrite Hkr, Hs in Hb;
    cbn [while_not].
  - rewrite Hcap in Hb. rewrite (bind_Return _ _ _ _ _ Hb).
    exists s1. split; [reflexivity |].
    unfold IntelRealsense_feed. rewrite Hp1, Hf1. repeat split; assumption.
  - rewrite (Hpre c (or_introl eq_refl)) in Hb. rewrite (bind_Return _ _ _ _ _ Hb).
    destruct (IH n s1 pp1) as (s' & E & Hfeed & Hst & Hout).
    + intros c' Hc'. apply Hpre. now right.
    + assumption.
    + congruence.
    + assumption.
    + simpl in Hlen. lia.
    + exists s'. split; [exact E |]. repeat split; congruence.
Qed.

(** X8. Which capture the frame methods of [IntelRealsense] return. With
    the device about to deliver [pre ++ cap :: post], [get_rgb] returns
    the colour data of [cap] when no capture of [pre] has a colour frame
    and [cap] has one; [get_depth] likewise for the depth frame;
    [get_frames] returns the frames of [cap] when every capture of [pre]
    lacks one of the two frames and [cap] has both. The captures of [pre]
    are dropped, those of [post] stay with the device, and as many loop
    iterations as [pre] has captures, plus one, are enough. *)
Theorem IntelRealsense_returns_first_usable_capture :
  forall fuel s pp pre cap post,
    rs.active_profile (IntelRealsense.pipeline (IntelRealsense.self s)) = Some pp ->
    rs.feed (rs.pp_device pp) = pre ++ cap :: post ->
    (List.length pre < fuel)%nat ->
    let frames c := rs.frameset_of (rs.pp_streams pp) c in
    let mm2m := IntelRealsense.mm2m_conversion (IntelRealsense.self s) in
    (forall color,
        (forall c, In c pre -> rs.get_color_frame (frames c) = None) ->
        rs.get_color_frame (frames cap) = Some color ->
        exists s',
          IntelRealsense.get_rgb fuel s = (Return (Some (rs.get_data color)), s')
          /\ IntelRealsense_feed s' = post)
    /\ (forall depth,
           (forall c, In c pre -> rs.get_depth_frame (frames c) = None) ->
           rs.get_depth_frame (frames cap) = Some depth ->
           exists s',
             IntelRealsense.get_depth fuel s
             = (Return (Some (IntelRealsense.depth_once mm2m (rs.get_data depth))), s')
             /\ IntelRealsense_feed s' = post)
    /\ (forall color depth,
           (forall c, In c pre ->
                      rs.get_color_frame (frames c) = None
                      \/ rs.get_depth_frame (frames c) = None) ->
           rs.get_color_frame (frames cap) = Some color ->
           rs.get_depth_frame (frames cap) = Some depth ->
           exists s',
             IntelRealsense.get_frames fuel s
             = (Return (Some (rs.get_data color,
                              IntelRealsense.depth_of_frames mm2m (rs.get_data depth))),
                s')
             /\ IntelRealsense_feed s' = post).
Proof.
  intros fuel s pp pre cap post Hp Hf Hlen frames mm2m.
  split; [| split].
  - intros color Hpre Hcap.
    destruct (IntelRealsense_poll_first
                (fun fr => ret (rs.get_color_frame fr))
                (fun fr => Return (rs.get_color_frame fr))
                (rs.pp_streams pp) cap post color (fun _ _ => eq_refl)
                (f_equal Return Hcap) pre fuel s pp)
      as (s' & E & Hfeed & _); try assumption; try reflexivity.
    { intros c Hc. f_equal. now apply Hpre. }
    exists s'. split; [| assumption].
    unfold IntelRealsense.get_rgb. rewrite (bind_Return _ _ _ _ _ E). reflexivity.
  - intros depth Hpre Hcap.
    destruct (IntelRealsense_poll_first
                (fun fr => ret (rs.get_depth_frame fr))
                (fun fr => Return (rs.get_depth_frame fr))
                (rs.pp_streams pp) cap post depth (fun _ _ => eq_refl)
                (f_equal Return Hcap) pre fuel s pp)
      as (s' & E & Hfeed & Hst & _); try assumption; try reflexivity.
    { intros c Hc. f_equal. now apply Hpre. }
    exists s'. split; [| assumption].
    unfold IntelRealsense.get_depth. rewrite (bind_Return _ _ _ _ _ E).
    unfold bind, get, ret. simpl.
    unfold IntelRealsense_static in Hst. injection Hst as _ _ Hm _. now rewrite Hm.
  - intros color depth Hpre Hc Hd.
    destruct (IntelRealsense_poll_first
                (fun fr => ret (IntelRealsense.both (rs.get_depth_frame fr)
                                                    (rs.get_color_frame fr)))
                (fun fr => Return (IntelRealsense.both (rs.get_depth_frame fr)
                                                       (rs.get_color_frame fr)))
                (rs.pp_streams pp) cap post (depth, color) (fun _ _ => eq_refl))
      with (pre := pre) (fuel := fuel) (s := s) (pp := pp)
      as (s' & E & Hfeed & Hst & _); try assumption; try reflexivity.
    { fold (frames cap). now rewrite Hc, Hd. }
    { intros c Hin. fold (frames c). f_equal.
      destruct (Hpre c Hin) as [-> | ->]; [reflexivity |].
      unfold IntelRealsense.both. now destruct (rs.get_color_frame (frames c)). }
    exists s'. split; [| assumption].
    unfold IntelRealsense.get_frames. rewrite (bind_Return _ _ _ _ _ E).
    unfold bind, get, ret. simpl.
    unfold IntelRealsense_static in Hst. injection Hst as _ _ Hm _. now rewrite Hm.
Qed.

Lemma IntelRealsense_returns_first_usable_capture_witness :
  exists img s',
    IntelRealsense.get_rgb 2 Samples.d455_state = (Return (Some img), s')
    /\ np.flat img = [10; 20; 30; 40; 50; 60; 70; 80; 90; 100; 110; 120]
    /\ IntelRealsense_feed s' = [].
Proof.
  destruct (proj1 (IntelRealsense_returns_first_usable_capture
                     2 Samples.d455_state
                     (rs.mk_pipeline_profile
                        Samples.d455
                        (rs.cfg_streams
                           (IntelRealsense.stream_config
                              (Camera.__init__ Camera.HD Camera.HD 30 ""))))
                     [rs.mk_capture (Some [1; 2; 3; 4]) None]
                     (rs.mk_capture
                        (Some [2000; 1500; 999; 65535])
                        (Some [10; 20; 30; 40; 50; 60; 70; 80; 90; 100; 110; 120]))
                     [] eq_refl eq_refl (Nat.lt_succ_diag_r 1))
                  (rs.mk_frame (rs.mk_stream_profile rs.color 1280 720 rs.bgr8 30)
                               [10; 20; 30; 40; 50; 60; 70; 80; 90; 100; 110; 120]))
    as (s' & E & Hfeed).
  - intros c [<- | []]. reflexivity.
  - reflexivity.
  - eexists. exists s'. split; [exact E |]. split; [reflexivity | exact Hfeed].
Defined.

(** ** IntelRealsense: when no usable capture arrives *)

Lemma IntelRealsense_poll_dry {A : Type}
      (k : rs.composite_frame -> Py IntelRealsense.State (option A))
      (r : rs.composite_frame -> outcome (option A)) streams :
  (forall frames s0, k frames s0 = (r frames, s0)) ->
  forall pending fuel s pp,
    (forall c, In c pending -> r (rs.frameset_of streams c) = Return None) ->
    rs.active_profile (IntelRealsense.pipeline (IntelRealsense.self s)) = Some pp ->
    rs.pp_streams pp = streams ->
    rs.feed (rs.pp_device pp) = pending ->
    (List.length pending < fuel)%nat ->
    exists s',
      while_not fuel (bind (IntelRealsense.on_pipeline rs.wait_for_frames) k) s
      = (Raise (RuntimeError "Frame didn't arrive within 5000"), s')
      /\ IntelRealsense_feed s' = []
      /\ IntelRealsense_static s' = IntelRealsense_static s
      /\ IntelRealsense.stdout s' = IntelRealsense.stdout s.
Proof.
  intros Hkr.
  induction pending as [| c pending IH]; intros fuel s pp Hall Hp Hs Hf Hlen;
    (destruct fuel as [| n]; [simpl in Hlen; lia |]); cbn [while_not].
  - pose proof (wait_for_frames_dry s pp Hp Hf) as Hw.
    rewrite (bind_Raise _ _ _ _ _ (bind_Raise _ k _ _ _ Hw)).
    exists s. split; [reflexivity |].
    unfold IntelRealsense_feed. rewrite Hp, Hf. repeat split.
  - destruct (wait_for_frames_step s pp _ _ Hp Hf)
      as (s1 & pp1 & Hw & Hp1 & Hs1 & Hf1 & _ & Hst1 & Hout1).
    pose proof (bind_Return _ k _ _ _ Hw) as Hb. rewrite Hkr, Hs in Hb.
    rewrite (Hall c (or_introl eq_refl)) in Hb. rewrite (bind_Return _ _ _ _ _ Hb).
    destruct (IH n s1 pp1) as (s' & E & Hfeed & Hst & Hout).
    + intros c' Hc'. apply Hall. now right.
    + assumption.
    + congruence.
    + assumption.
    + simpl in Hlen. lia.
    + exists s'. split; [exact E |]. repeat split; congruence.
Qed.

(** X9. When the device stops delivering before a usable capture comes,
    the frame methods end with the [RuntimeError] of
    [pipeline.wait_for_frames()], which they do not catch: [get_rgb] when
    no pending capture has a colour frame, [get_depth] when none has a
    depth frame, [get_frames] when each lacks one of the two. The pending
    captures are consumed; nothing is printed. *)
Theorem IntelRealsense_frame_methods_when_feed_runs_dry :
  forall fuel s pp,
    rs.active_profile (IntelRealsense.pipeline (IntelRealsense.self s)) = Some pp ->
    (List.length (rs.feed (rs.pp_device pp)) < fuel)%nat ->
    let frames c := rs.frameset_of (rs.pp_streams pp) c in
    let ends (r : outcome (option np.ndarray) * IntelRealsense.State) :=
      (exists msg, fst r = Raise (RuntimeError msg))
      /\ IntelRealsense_feed (snd r) = []
      /\ IntelRealsense.stdout (snd r) = IntelRealsense.stdout s in
    ((forall c, In c (rs.feed (rs.pp_device pp)) -> rs.get_color_frame (frames c) = None) ->
     ends (IntelRealsense.get_rgb fuel s))
    /\ ((forall c, In c (rs.feed (rs.pp_device pp)) ->
                   rs.get_depth_frame (frames c) = None) ->
        ends (IntelRealsense.get_depth fuel s))
    /\ ((forall c, In c (rs.feed (rs.pp_device pp)) ->
                   rs.get_color_frame (frames c) = None
                   \/ rs.get_depth_frame (frames c) = None) ->
        exists msg s',
          IntelRealsense.get_frames fuel s = (Raise (RuntimeError msg), s')
          /\ IntelRealsense_feed s' = []
          /\ IntelRealsense.stdout s' = IntelRealsense.stdout s).
Proof.
  intros fuel s pp Hp Hlen frames ends.
  split; [| split].
  - intros Hall.
    destruct (IntelRealsense_poll_dry
                (fun fr => ret (rs.get_color_frame fr))
                (fun fr => Return (rs.get_color_frame fr))
                (rs.pp_streams pp) (fun _ _ => eq_refl)
                (rs.feed (rs.pp_device pp)) fuel s pp)
      as (s' & E & Hfeed & _ & Hout); try assumption; try reflexivity.
    { intros c Hc. f_equal. now apply Hall. }
    unfold ends, IntelRealsense.get_rgb. rewrite (bind_Raise _ _ _ _ _ E). simpl.
    split; [eexists; reflexivity |]. now split.
  - intros Hall.
    destruct (IntelRealsense_poll_dry
                (fun fr => ret (rs.get_depth_frame fr))
                (fun fr => Return (rs.get_depth_frame fr))
                (rs.pp_streams pp) (fun _ _ => eq_refl)
                (rs.feed (rs.pp_device pp)) fuel s pp)
      as (s' & E & Hfeed & _ & Hout); try assumption; try reflexivity.
    { intros c Hc. f_equal. now apply Hall. }
    unfold ends, IntelRealsense.get_depth. rewrite (bind_Raise _ _ _ _ _ E). simpl.
    split; [eexists; reflexivity |]. now split.
  - intros Hall.
    destruct (IntelRealsense_poll_dry
                (fun fr => ret (IntelRealsense.both (rs.get_depth_frame fr)
                                                    (rs.get_color_frame fr)))
                (fun fr => Return (IntelRealsense.both (rs.get_depth_frame fr)
                                                       (rs.get_color_frame fr)))
                (rs.pp_streams pp) (fun _ _ => eq_refl)
                (rs.feed (rs.pp_device pp)) fuel s pp)
      as (s' & E & Hfeed & _ & Hout); try assumption; try reflexivity.
    { intros c Hin. fold (frames c). f_equal.
      destruct (Hall c Hin) as [-> | ->]; [reflexivity |].
      unfold IntelRealsense.both. now destruct (rs.get_color_frame (frames c)). }
    eexists. exists s'. unfold IntelRealsense.get_frames.
    rewrite (bind_Raise _ _ _ _ _ E). split; [reflexivity |]. now split.
Qed.

Lemma IntelRealsense_frame_methods_when_feed_runs_dry_witness :
  exists msg s',
    IntelRealsense.get_rgb 2 (snd (IntelRealsense.get_rgb 2 Samples.d455_state))
    = (Raise (RuntimeError msg), s')
    /\ IntelRealsense_feed s' = [].
Proof.
  pose (s := snd (IntelRealsense.get_rgb 2 Samples.d455_state)).
  destruct (rs.active_profile (IntelRealsense.pipeline (IntelRealsense.self s)))
    as [pp |] eqn:Hp; [| vm_compute in Hp; discriminate Hp].
  assert (Hf : rs.feed (rs.pp_device pp) = []).
  { vm_compute in Hp. injection Hp as <-. reflexivity. }
  destruct (proj1 (IntelRealsense_frame_methods_when_feed_runs_dry 2 s pp Hp
                     ltac:(rewrite Hf; simpl; lia)))
    as ((msg & Hr) & Hfeed & _).
  - rewrite Hf. intros c [].
  - exists msg, (snd (IntelRealsense.get_rgb 2 s)). fold s.
    split; [| exact Hfeed].
    destruct (IntelRealsense.get_rgb 2 s) as [r s']. simpl in Hr. now subst r.
Defined.

(** X10. After a teardown the pipeline is stopped, and every frame method
    then ends at its first [wait_for_frames()] with the [RuntimeError] of
    the SDK: it neither returns a frame nor keeps polling, and it changes
    nothing. *)
Theorem IntelRealsense_frame_methods_after_teardown :
  forall align_process fuel s,
    let s1 := snd (IntelRealsense.__del__ s) in
    exists msg,
      IntelRealsense.get_rgb (S fuel) s1 = (Raise (RuntimeError msg), s1)
      /\ IntelRealsense.get_depth (S fuel) s1 = (Raise (RuntimeError msg), s1)
      /\ IntelRealsense.get_frames (S fuel) s1 = (Raise (RuntimeError msg), s1)
      /\ IntelRealsense.get_aligned_frames align_process (S fuel) s1
         = (Raise (RuntimeError msg), s1).
Proof.
  intros align fuel s s1.
  destruct (IntelRealsense_del_first s) as [_ Hstop]. fold s1 in Hstop.
  pose proof (wait_for_frames_stopped s1 Hstop) as Hw.
  exists "wait_for_frames cannot be called before start()".
  unfold IntelRealsense.get_rgb, IntelRealsense.get_depth, IntelRealsense.get_frames,
    IntelRealsense.get_aligned_frames.
  cbn [while_not].
  repeat split;
    apply bind_Raise; apply bind_Raise; apply bind_Raise; exact Hw.
Qed.

(** ** IntelRealsense: aligned frames *)

(** X11. [get_aligned_frames] looks at one capture at a time, aligned by the
    SDK. If the aligned frame set has no colour frame, the call ends with
    the [RuntimeError] of [aligned_frames.first(rs.stream.color)] and the
    capture is lost; [get_frames], on a capture without colour, goes on to
    the next one instead. If the aligned set has both frames, the call
    returns the colour data and the depth data of the aligned frames, the
    depth having gone through the conversion of [get_frames]. *)
Theorem IntelRealsense_get_aligned_frames_first_capture :
  forall align_process fuel s pp cap post,
    rs.active_profile (IntelRealsense.pipeline (IntelRealsense.self s)) = Some pp ->
    rs.feed (rs.pp_device pp) = cap :: post ->
    let frames := rs.frameset_of (rs.pp_streams pp) cap in
    let aligned := align_process rs.color frames in
    let mm2m := IntelRealsense.mm2m_conversion (IntelRealsense.self s) in
    (rs.get_color_frame aligned = None ->
     exists msg s',
       IntelRealsense.get_aligned_frames align_process (S fuel) s
       = (Raise (RuntimeError msg), s')
       /\ IntelRealsense_feed s' = post)
    /\ (rs.get_color_frame frames = None ->
        IntelRealsense.get_frames (S fuel) s
        = IntelRealsense.get_frames
            fuel (snd (IntelRealsense.on_pipeline rs.wait_for_frames s)))
    /\ (forall color depth,
           rs.get_color_frame aligned = Some color ->
           rs.get_depth_frame aligned = Some depth ->
           exists s',
             IntelRealsense.get_aligned_frames align_process (S fuel) s
             = (Return (Some (rs.get_data color,
                              IntelRealsense.depth_of_frames mm2m (rs.get_data depth))),
                s')
             /\ IntelRealsense_feed s' = post).
Proof.
  intros align fuel s pp cap post Hp Hf frames aligned mm2m.
  destruct (wait_for_frames_step s pp _ _ Hp Hf)
    as (s1 & pp1 & Hw & Hp1 & Hs1 & Hf1 & _ & Hst1 & _).
  fold frames in Hw.
  assert (Hfeed : IntelRealsense_feed s1 = post).
  { unfold IntelRealsense_feed. now rewrite Hp1. }
  split; [| split].
  - intros Hc. eexists. exists s1. split; [| exact Hfeed].
    unfold IntelRealsense.get_aligned_frames. cbn [while_not].
    apply bind_Raise. apply bind_Raise. rewrite (bind_Return _ _ _ _ _ Hw).
    fold aligned. unfold rs.first. rewrite Hc. reflexivity.
  - intros Hc. rewrite Hw. simpl snd.
    unfold IntelRealsense.get_frames. cbn [while_not].
    unfold bind at 1. unfold bind at 1.
    rewrite (bind_Return _ _ _ _ _ Hw). unfold ret at 1.
    rewrite Hc. unfold IntelRealsense.both at 1. reflexivity.
  - intros color depth Hc Hd. exists s1. split; [| exact Hfeed].
    unfold IntelRealsense.get_aligned_frames. cbn [while_not].
    assert (Hbody :
             bind (IntelRealsense.on_pipeline rs.wait_for_frames)
                  (fun frames0 =>
                     let aligned_frames := align rs.color frames0 in
                     bind (IntelRealsense.lift (rs.first aligned_frames rs.color))
                          (fun color_frame_cam =>
                             let depth_frame_cam := rs.get_depth_frame aligned_frames in
                             ret (IntelRealsense.both depth_frame_cam
                                                      (Some color_frame_cam)))) s
             = (Return (Some (depth, color)), s1)).
    { rewrite (bind_Return _ _ _ _ _ Hw). cbv zeta. fold aligned.
      unfold rs.first. rewrite Hc, Hd. reflexivity. }
    rewrite (bind_Return _ _ _ _ _ (bind_Return _ _ _ _ _ Hbody)).
    unfold ret at 1. unfold bind, get, ret. simpl.
    unfold IntelRealsense_static in Hst1. injection Hst1 as _ _ Hm _.
    subst mm2m. now rewrite Hm.
Qed.

Lemma IntelRealsense_get_aligned_frames_first_capture_witness :
  exists msg s',
    IntelRealsense.get_aligned_frames Samples.no_reprojection 3 Samples.d455_state
    = (Raise (RuntimeError msg), s')
    /\ IntelRealsense_feed s'
       = [rs.mk_capture (Some [2000; 1500; 999; 65535])
                        (Some [10; 20; 30; 40; 50; 60; 70; 80; 90; 100; 110; 120])].
Proof.
  apply (proj1 (IntelRealsense_get_aligned_frames_first_capture
                  Samples.no_reprojection 2 Samples.d455_state
                  (rs.mk_pipeline_profile
                     Samples.d455
                     (rs.cfg_streams
                        (IntelRealsense.stream_config
                           (Camera.__init__ Camera.HD Camera.HD 30 ""))))
                  (rs.mk_capture (Some [1; 2; 3; 4]) None)
                  [rs.mk_capture
                     (Some [2000; 1500; 999; 65535])
                     (Some [10; 20; 30; 40; 50; 60; 70; 80; 90; 100; 110; 120])]
                  eq_refl eq_refl)).
  reflexivity.
Defined.

(** ** IntelRealsense: the sizes of the frames *)

Lemma stream_config_profiles base sp st :
  rs.find_stream (rs.cfg_streams (IntelRealsense.stream_config base)) st = Some sp ->
  sp = match st with
       | rs.depth => rs.mk_stream_profile rs.depth 1280 720 rs.z16 (Camera.fps base)
       | rs.color =>
           if Camera.Resolution_eqb (Camera.rgb_resolution base) Camera.HD
           then rs.mk_stream_profile rs.color 1280 720 rs.bgr8 (Camera.fps base)
           else rs.mk_stream_profile rs.color 1920 1080 rs.bgr8 (Camera.fps base)
       end.
Proof.
  unfold IntelRealsense.stream_config.
  destruct st, (negb _), (Camera.Resolution_eqb _ _); simpl;
    intros H; inversion H; reflexivity.
Qed.

Lemma delivered_frame_profile s frames streams st f :
  IntelRealsense_delivers s frames ->
  IntelRealsense_streams (IntelRealsense.pipeline (IntelRealsense.self s)) = Some streams ->
  match st with
  | rs.depth => rs.get_depth_frame frames
  | rs.color => rs.get_color_frame frames
  end = Some f ->
  rs.find_stream streams st = Some (rs.profile f).
Proof.
  intros (streams' & cap & Hs & _ & ->) Hst Hf.
  rewrite Hs in Hst. inversion Hst; subst streams'.
  destruct st; simpl in Hf; now apply frame_of_inv in Hf.
Qed.

(** X12. The sizes of the frames of an adapter built by the constructor.
    The depth array of [get_depth] and [get_frames] is always 720 x 1280
    [uint16], whatever [rgb_resolution] and [depth_resolution] were asked
    for; the colour array of [get_rgb] and [get_frames] is 720 x 1280 x 3
    [uint8] when [rgb_resolution] is [HD] and 1080 x 1920 x 3 otherwise.
    So without alignment the two arrays of [get_frames] have the same
    height and width only in the [HD] case. *)
Theorem IntelRealsense_frame_shapes :
  forall connected rgb_resolution depth_resolution fps serial_number depth_in_meters
         out obj out' align_process cs fuel,
    IntelRealsense.__init__ connected rgb_resolution depth_resolution fps
                            serial_number depth_in_meters out
    = (Return obj, out') ->
    let s := IntelRealsenseCalls.run_all align_process cs
                                         (IntelRealsense.mk_State obj out') in
    let color_shape :=
      if Camera.Resolution_eqb rgb_resolution Camera.HD
      then [720; 1280; 3]%nat else [1080; 1920; 3]%nat in
    (forall img s',
        IntelRealsense.get_rgb fuel s = (Return (Some img), s') ->
        np.shape img = color_shape /\ np.dtype_of img = np.uint8)
    /\ (forall depth s',
           IntelRealsense.get_depth fuel s = (Return (Some depth), s') ->
           np.shape depth = [720; 1280]%nat /\ np.dtype_of depth = np.uint16)
    /\ (forall color depth s',
           IntelRealsense.get_frames fuel s = (Return (Some (color, depth)), s') ->
           np.shape color = color_shape /\ np.dtype_of color = np.uint8
           /\ np.shape depth = [720; 1280]%nat /\ np.dtype_of depth = np.uint16).
Proof.
  intros connected rgb dres fps sn dm out obj out' align cs fuel Hinit s color_shape.
  destruct (IntelRealsense_constructed _ _ _ _ _ _ _ _ _ align cs Hinit) as [_ Hs].
  fold s in Hs.
  assert (Hcolor : forall frames f,
             IntelRealsense_delivers s frames -> rs.get_color_frame frames = Some f ->
             np.shape (rs.get_data f) = color_shape
             /\ np.dtype_of (rs.get_data f) = np.uint8).
  { intros frames f Hd Hf.
    pose proof (delivered_frame_profile s frames _ rs.color f Hd Hs Hf) as Hp.
    apply stream_config_profiles in Hp. simpl in Hp.
    unfold rs.get_data. rewrite Hp. subst color_shape.
    destruct (Camera.Resolution_eqb rgb Camera.HD); split; reflexivity. }
  assert (Hdepth : forall frames f,
             IntelRealsense_delivers s frames -> rs.get_depth_frame frames = Some f ->
             np.shape (rs.get_data f) = [720; 1280]%nat
             /\ np.dtype_of (rs.get_data f) = np.uint16).
  { intros frames f Hd Hf.
    pose proof (delivered_frame_profile s frames _ rs.depth f Hd Hs Hf) as Hp.
    apply stream_config_profiles in Hp.
    unfold rs.get_data. rewrite Hp. split; reflexivity. }
  split; [| split].
  - intros img s' H. apply IntelRealsense_get_rgb_inv in H.
    destruct H as (frames & f & Hd & Hf & ->). now apply (Hcolor frames).
  - intros depth s' H. apply IntelRealsense_get_depth_inv in H.
    destruct H as (frames & f & Hd & Hf & ->).
    destruct (Hdepth frames f Hd Hf) as [Hsh _]. split; [exact Hsh | reflexivity].
  - intros color depth s' H. apply IntelRealsense_get_frames_inv in H.
    destruct H as (frames & d & c & Hdel & Hd & Hc & -> & ->).
    destruct (Hcolor frames c Hdel Hc) as [H1 H2].
    destruct (Hdepth frames d Hdel Hd) as [H3 _].
    repeat split; assumption.
Qed.

Lemma IntelRealsense_frame_shapes_witness :
  exists obj out' color depth s',
    IntelRealsense.__init__ [Samples.d455] Camera.HD Camera.VGA 30 "" false []
    = (Return obj, out')
    /\ IntelRealsense.get_frames 2 (IntelRealsense.mk_State obj out')
       = (Return (Some (color, depth)), s')
    /\ np.shape color = [720; 1280; 3]%nat
    /\ np.shape depth = [720; 1280]%nat.
Proof.
  eexists. eexists. eexists. eexists. eexists.
  split; [lazy; reflexivity |]. split; [lazy; reflexivity |].
  destruct (proj2 (proj2 (IntelRealsense_frame_shapes
                            [Samples.d455] Camera.HD Camera.VGA 30 "" false []
                            _ _ Samples.no_reprojection [] 2%nat eq_refl))
                  _ _ _ eq_refl)
    as (H1 & _ & H3 & _).
  split; [exact H1 | exact H3].
Defined.

(** ** IntelRealsense: the depth values, sample by sample *)

Lemma all_from_spec n P :
  forall x, all_from n x P = true ->
            forall y, x <= y < x + Z.of_nat n -> P y = true.
Proof.
  induction n as [| n IH]; intros x H y Hy; [lia |].
  cbn [all_from] in H. apply andb_prop in H. destruct H as [Hx Hrest].
  destruct (Z.eq_dec y x) as [-> | Hne]; [assumption |].
  apply (IH (x + 1) Hrest). lia.
Qed.

(** Checked on each of the 65536 values a 16-bit sample can have. *)
Lemma depth_conversions_checked :
  forall x, 0 <= x < 65536 -> depth_conversions_agree x = true.
Proof.
  assert (H : all_from (Z.to_nat 65536) 0 depth_conversions_agree = true)
    by (vm_cast_no_check (eq_refl true)).
  intros x Hx. apply (all_from_spec _ _ _ H). rewrite Z2Nat.id; lia.
Qed.

Lemma depth_conversions x :
  0 <= x < 65536 ->
  np.cast_float np.uint16 (np.div (np.of_int x) (np.of_int 1)) = x
  /\ np.cast_float np.uint16 (np.div (np.div (np.of_int x) (np.of_int 1)) (np.of_int 1)) = x
  /\ np.cast_float np.uint16 (np.div (np.of_int x) (np.of_int 1000)) = x / 1000.
Proof.
  intros Hx. pose proof (depth_conversions_checked x Hx) as H.
  unfold depth_conversions_agree in H. cbv zeta in H.
  apply andb_prop in H. destruct H as [H H3].
  apply andb_prop in H. destruct H as [H1 H2].
  apply Z.eqb_eq in H1, H2, H3. now repeat split.
Qed.

Lemma map_fixed {A : Type} (f : A -> A) (l : list A) :
  (forall x, In x l -> f x = x) -> map f l = l.
Proof.
  intros H. rewrite <- (map_id l) at 2. now apply map_ext_in.
Qed.

(** X13. The depth values of an adapter built by the constructor, for
    16-bit raw samples. [get_depth] returns the raw samples unchanged
    when [depth_in_meters] is false, and the whole metres of each sample
    ([raw // 1000]) when it is true. With [depth_in_meters] false,
    [get_frames] and [get_aligned_frames] also return the samples of their
    depth frame unchanged. *)
Theorem IntelRealsense_depth_values :
  forall connected rgb_resolution depth_resolution fps serial_number depth_in_meters
         out obj out' align_process cs fuel,
    IntelRealsense.__init__ connected rgb_resolution depth_resolution fps
                            serial_number depth_in_meters out
    = (Return obj, out') ->
    let s := IntelRealsenseCalls.run_all align_process cs
                                         (IntelRealsense.mk_State obj out') in
    let u16 l := Forall (fun x => 0 <= x < 65536) l in
    (forall depth s',
        IntelRealsense.get_depth fuel s = (Return (Some depth), s') ->
        exists cap raw,
          In cap (IntelRealsense_feed s)
          /\ rs.depth_samples cap = Some raw
          /\ (u16 raw ->
              np.flat depth = if depth_in_meters then map (fun x => x / 1000) raw else raw))
    /\ (depth_in_meters = false ->
        forall color depth s',
          IntelRealsense.get_frames fuel s = (Return (Some (color, depth)), s')
          \/ IntelRealsense.get_aligned_frames align_process fuel s
             = (Return (Some (color, depth)), s') ->
          exists frames d,
            IntelRealsense_delivers s frames
            /\ (rs.get_depth_frame frames = Some d
                \/ rs.get_depth_frame (align_process rs.color frames) = Some d)
            /\ (u16 (rs.samples d) -> np.flat depth = rs.samples d)).
Proof.
  intros connected rgb dres fps sn dm out obj out' align cs fuel Hinit s u16.
  destruct (IntelRealsense_constructed _ _ _ _ _ _ _ _ _ align cs Hinit) as [Hm _].
  fold s in Hm.
  split.
  - intros depth s' H. apply IntelRealsense_get_depth_inv in H.
    destruct H as (frames & f & Hdel & Hf & ->).
    destruct (delivered_depth_frame _ _ _ Hdel Hf) as (cap & Hin & Hraw).
    exists cap, (rs.samples f). split; [assumption |]. split; [assumption |].
    intros Hu. unfold u16 in Hu. rewrite Forall_forall in Hu.
    rewrite depth_once_flat, get_data_flat, Hm.
    destruct dm.
    + apply map_ext_in. intros x Hx.
      rewrite cast_int_small by exact (Hu x Hx).
      destruct (depth_conversions x (Hu x Hx)) as (_ & _ & H3). exact H3.
    + apply map_fixed. intros x Hx.
      rewrite cast_int_small by exact (Hu x Hx).
      destruct (depth_conversions x (Hu x Hx)) as (H1 & _ & _). exact H1.
  - intros -> color depth s' H.
    assert (Hflat : forall d,
               depth = IntelRealsense.depth_of_frames
                         (IntelRealsense.mm2m_conversion (IntelRealsense.self s))
                         (rs.get_data d) ->
               u16 (rs.samples d) -> np.flat depth = rs.samples d).
    { intros d -> Hu. unfold u16 in Hu. rewrite Forall_forall in Hu.
      rewrite depth_of_frames_flat, get_data_flat, Hm.
      apply map_fixed. intros x Hx.
      destruct (depth_conversions x (Hu x Hx)) as (_ & H2 & _). exact H2. }
    destruct H as [H | H].
    + apply IntelRealsense_get_frames_inv in H.
      destruct H as (frames & d & c & Hdel & Hd & _ & _ & Hdepth).
      exists frames, d. split; [assumption |]. split; [now left | now apply Hflat].
    + apply IntelRealsense_get_aligned_frames_inv in H.
      destruct H as (frames & d & c & Hdel & Hd & _ & _ & Hdepth).
      exists frames, d. split; [assumption |]. split; [now right | now apply Hflat].
Qed.

Lemma IntelRealsense_depth_values_witness :
  exists obj out' depth s',
    IntelRealsense.__init__ [Samples.d455] Camera.HD Camera.HD 30 "" true []
    = (Return obj, out')
    /\ IntelRealsense.get_depth
         1 (IntelRealsenseCalls.run_all Samples.no_reprojection
                                        [IntelRealsenseCalls.call_get_depth 1]
                                        (IntelRealsense.mk_State obj out'))
       = (Return (Some depth), s')
    /\ np.flat depth = map (fun x => x / 1000) [2000; 1500; 999; 65535].
Proof.
  eexists. eexists. eexists. eexists.
  split; [lazy; reflexivity |]. split; [lazy; reflexivity |].
  destruct (proj1 (IntelRealsense_depth_values
                     [Samples.d455] Camera.HD Camera.HD 30 "" true [] _ _
                     Samples.no_reprojection [IntelRealsenseCalls.call_get_depth 1]
                     1%nat eq_refl)
                  _ _ eq_refl)
    as (cap & raw & Hin & Hraw & Hflat).
  destruct Hin as [<- | []]. injection Hraw as <-.
  refine (eq_trans _ (Hflat _)); [reflexivity |].
  repeat constructor; lia.
Defined.

(** ** IntelRealsense: the device the constructor binds *)

Lemma stream_config_requests rgb dres fps sn :
  rs.cfg_streams (IntelRealsense.stream_config (Camera.__init__ rgb dres fps sn))
  = IntelRealsense_requests rgb fps.
Proof.
  unfold IntelRealsense.stream_config, IntelRealsense_requests. simpl.
  destruct (negb _), (Camera.Resolution_eqb rgb Camera.HD); reflexivity.
Qed.

Lemma stream_config_device rgb dres fps sn :
  rs.cfg_device (IntelRealsense.stream_config (Camera.__init__ rgb dres fps sn))
  = if String.eqb sn "" then None else Some sn.
Proof.
  unfold IntelRealsense.stream_config. simpl.
  destruct (String.eqb sn ""), (Camera.Resolution_eqb rgb Camera.HD); reflexivity.
Qed.

Lemma resolve_serves connected rgb dres fps sn :
  rs.resolve connected (IntelRealsense.stream_config (Camera.__init__ rgb dres fps sn))
  = find (IntelRealsense_serves rgb fps sn) connected.
Proof.
  unfold rs.resolve. rewrite stream_config_requests, stream_config_device.
  induction connected as [| d ds IH]; [reflexivity |].
  cbn [find]. rewrite IH. unfold IntelRealsense_serves.
  destruct (String.eqb sn ""); reflexivity.
Qed.

Lemma find_first {A : Type} (f : A -> bool) before x after :
  (forall y, In y before -> f y = false) -> f x = true ->
  find f (before ++ x :: after) = Some x.
Proof.
  intros Hb Hx. induction before as [| y ys IH]; simpl.
  - now rewrite Hx.
  - rewrite (Hb y (or_introl eq_refl)). apply IH. intros z Hz. apply Hb. now right.
Qed.

Lemma find_none {A : Type} (f : A -> bool) l :
  (forall y, In y l -> f y = false) -> find f l = None.
Proof.
  intros H. induction l as [| y ys IH]; simpl; [reflexivity |].
  rewrite (H y (or_introl eq_refl)). apply IH. intros z Hz. apply H. now right.
Qed.

Lemma find_requests_color rgb fps :
  rs.find_stream (IntelRealsense_requests rgb fps) rs.color
  = Some (if Camera.Resolution_eqb rgb Camera.HD
          then rs.mk_stream_profile rs.color 1280 720 rs.bgr8 fps
          else rs.mk_stream_profile rs.color 1920 1080 rs.bgr8 fps).
Proof.
  unfold IntelRealsense_requests. destruct (Camera.Resolution_eqb rgb Camera.HD); reflexivity.
Qed.

(** X14. The [IntelRealsense] constructor binds the first connected device
    that serves the request: the one with the given serial number when
    [serial_number] is not empty, and in every case one that supports the
    1280 x 720 depth stream and the colour stream of the asked size. The
    object it returns keeps the arguments as they were passed (the serial
    number stays empty when none was given, and [depth_resolution] takes
    no part in the request), holds the started pipeline of that device,
    the intrinsics of its colour stream and the divisor 1000 or 1; one line
    is printed. *)
Theorem IntelRealsense_init_binds_first_serving_device :
  forall before d after rgb_resolution depth_resolution fps serial_number
         depth_in_meters out,
    (forall d', In d' before ->
                IntelRealsense_serves rgb_resolution fps serial_number d' = false) ->
    IntelRealsense_serves rgb_resolution fps serial_number d = true ->
    let requests := IntelRealsense_requests rgb_resolution fps in
    let i := rs.intrinsics_of d (nth 1 requests (rs.mk_stream_profile rs.color 0 0 rs.bgr8 0)) in
    IntelRealsense.__init__ (before ++ d :: after) rgb_resolution depth_resolution fps
                            serial_number depth_in_meters out
    = (Return (IntelRealsense.mk_instance
                 "Intel Realsense" rgb_resolution depth_resolution fps serial_number
                 (rs.mk_pipeline (Some (rs.mk_pipeline_profile d requests)))
                 (Camera.mk_Intrinsics (rs.fx i) (rs.fy i) (rs.ppx i) (rs.ppy i)
                                       (rs.width i) (rs.height i))
                 (if depth_in_meters then 1000 else 1)),
       out ++ [("Intel Realsense " ++ serial_number ++ " camera configured." ++ LF)%string]).
Proof.
  intros before d after rgb dres fps sn dm out Hb Hd requests i.
  unfold IntelRealsense.__init__. cbn zeta.
  unfold rs.start. cbn [rs.active_profile rs.pipeline_new].
  rewrite resolve_serves, (find_first _ _ _ _ Hb Hd).
  unfold rs.get_stream. cbn [rs.pp_streams].
  rewrite stream_config_requests, find_requests_color.
  subst i requests. unfold IntelRealsense_requests.
  destruct (Camera.Resolution_eqb rgb Camera.HD); reflexivity.
Qed.

Lemma IntelRealsense_init_binds_first_serving_device_witness :
  exists obj out',
    IntelRealsense.__init__ ([Samples.d455] ++ Samples.d455_full :: [])
                            Camera.HD Camera.VGA 30 "0002" true []
    = (Return obj, out')
    /\ rs.active_profile (IntelRealsense.pipeline obj)
       = Some (rs.mk_pipeline_profile Samples.d455_full
                                      (IntelRealsense_requests Camera.HD 30))
    /\ IntelRealsense.serial_number obj = "0002"
    /\ out' = [] ++ [("Intel Realsense 0002 camera configured." ++ LF)%string].
Proof.
  eexists. eexists. split.
  - apply (IntelRealsense_init_binds_first_serving_device
             [Samples.d455] Samples.d455_full [] Camera.HD Camera.VGA 30 "0002" true []).
    + intros d' [<- | []]. vm_compute. reflexivity.
    + vm_compute. reflexivity.
  - cbn [IntelRealsense.pipeline IntelRealsense.serial_number rs.active_profile].
    split; [reflexivity |]. split; reflexivity.
Defined.

(** X15. The [IntelRealsense] constructor never raises: when a connected
    device serves the request it returns an object bound to the first such
    device, and otherwise it leaves through [exit(1)]; either way exactly
    one line is added to the standard output. *)
Theorem IntelRealsense_init_returns_or_exits :
  forall connected rgb_resolution depth_resolution fps serial_number depth_in_meters out,
    let r := IntelRealsense.__init__ connected rgb_resolution depth_resolution fps
                                     serial_number depth_in_meters out in
    match find (IntelRealsense_serves rgb_resolution fps serial_number) connected with
    | Some d =>
        exists obj line,
          r = (Return obj, out ++ [line])
          /\ option_map rs.pp_device (rs.active_profile (IntelRealsense.pipeline obj))
             = Some d
    | None => r = (SystemExit 1, out ++ [IntelRealsense.start_failed_message])
    end.
Proof.
  intros connected rgb dres fps sn dm out r. subst r.
  unfold IntelRealsense.__init__. cbn zeta.
  unfold rs.start. cbn [rs.active_profile rs.pipeline_new].
  rewrite resolve_serves.
  destruct (find (IntelRealsense_serves rgb fps sn) connected) as [d |]; [| reflexivity].
  unfold rs.get_stream. cbn [rs.pp_streams].
  rewrite stream_config_requests, find_requests_color.
  eexists. eexists. split; reflexivity.
Qed.

(** ** IntelRealsense: the sensor options *)

Lemma IntelRealsense_set_pipeline_same s :
  IntelRealsense.set_pipeline (IntelRealsense.pipeline (IntelRealsense.self s)) s = s.
Proof. destruct s as [[] out]. reflexivity. Qed.

Lemma second_sensor_same p : snd (IntelRealsense.second_sensor p) = p.
Proof.
  unfold IntelRealsense.second_sensor.
  destruct (rs.active_profile p) as [pp |]; [| reflexivity].
  destruct (nth_error (rs.sensors (rs.pp_device pp)) 1); reflexivity.
Qed.

Lemma on_second_sensor s :
  IntelRealsense.on_pipeline IntelRealsense.second_sensor s
  = (fst (IntelRealsense.second_sensor (IntelRealsense.pipeline (IntelRealsense.self s))), s).
Proof.
  unfold IntelRealsense.on_pipeline.
  pose proof (second_sensor_same (IntelRealsense.pipeline (IntelRealsense.self s))) as H.
  destruct (IntelRealsense.second_sensor _) as [r p]. simpl in *. subst p.
  now rewrite IntelRealsense_set_pipeline_same.
Qed.

Lemma second_sensor_found p pp sensor :
  rs.active_profile p = Some pp ->
  nth_error (rs.sensors (rs.pp_device pp)) 1 = Some sensor ->
  IntelRealsense.second_sensor p = (Return sensor, p).
Proof. intros Hp Hs. unfold IntelRealsense.second_sensor. now rewrite Hp, Hs. Qed.








Lemma sensor_set_option_mismatch sensor option value :
  (exists repr, option = rs.not_an_option repr) \/ rs.value_float value = None ->
  exists msg, rs.sensor_set_option sensor option value = Raise (TypeError msg).
Proof.
  intros [[repr ->] | Hv]; unfold rs.sensor_set_option.
  - eexists. reflexivity.
  - rewrite Hv. destruct option; eexists; reflexivity.
Qed.

(** X17. An argument of the wrong Python type is reported, not raised.
    On a started device with two sensors, [set_option] with something that
    is no [rs.option], or with a value that is no number, returns normally,
    leaves the object and the device as they were and prints one line that
    names the exception and [str(option)] as it is; [get_option] with
    something that is no [rs.option] does the same, but its line names the
    option without [option.] and in capitals, and uses another colour
    code. *)
Theorem IntelRealsense_option_type_mismatch_is_reported :
  forall option value s pp sensor,
    rs.active_profile (IntelRealsense.pipeline (IntelRealsense.self s)) = Some pp ->
    nth_error (rs.sensors (rs.pp_device pp)) 1 = Some sensor ->
    ((exists repr, option = rs.not_an_option repr) \/ rs.value_float value = None ->
     IntelRealsense.set_option option value s
     = (Return tt,
        set_stdout (IntelRealsense.stdout s
                      ++ [(ESC ++ "[0;33;40m Exception (TypeError): the option "
                               ++ rs.option_str option ++ " has NOT been set.")%string])
                   s))
    /\ (forall repr,
           option = rs.not_an_option repr ->
           IntelRealsense.get_option option s
           = (Return tt,
              set_stdout (IntelRealsense.stdout s
                            ++ [(ESC ++ "[1;33;40m Exception (TypeError): the option "
                                     ++ upper (replace "option." "" repr)
                                     ++ " has NOT been set.")%string])
                         s)).
Proof.
  intros option value s pp sensor Hp Hs. split.
  - intros H. destruct (sensor_set_option_mismatch sensor option value H) as [msg Hm].
    unfold IntelRealsense.set_option, try_except.
    erewrite bind_Return
      by (rewrite on_second_sensor, (second_sensor_found _ _ _ Hp Hs); reflexivity).
    erewrite bind_Raise by (unfold IntelRealsense.lift; rewrite Hm; reflexivity).
    reflexivity.
  - intros repr ->.
    unfold IntelRealsense.get_option, try_except.
    erewrite bind_Return
      by (rewrite on_second_sensor, (second_sensor_found _ _ _ Hp Hs); reflexivity).
    reflexivity.
Qed.

Lemma IntelRealsense_option_type_mismatch_is_reported_witness :
  IntelRealsense.set_option (rs.option "exposure") (rs.not_a_number "'high'")
                            Samples.d455_state
  = (Return tt,
     set_stdout [(ESC ++ "[0;33;40m Exception (TypeError): the option option.exposure has NOT been set.")%string]
                Samples.d455_state)
  /\ IntelRealsense.get_option (rs.not_an_option "option.exposure") Samples.d455_state
     = (Return tt,
        set_stdout [(ESC ++ "[1;33;40m Exception (TypeError): the option EXPOSURE has NOT been set.")%string]
                   Samples.d455_state).
Proof.
  split.
  - apply (proj1 (IntelRealsense_option_type_mismatch_is_reported
                    (rs.option "exposure") (rs.not_a_number "'high'")
                    Samples.d455_state _ _ eq_refl eq_refl)).
    right. reflexivity.
  - apply (proj2 (IntelRealsense_option_type_mismatch_is_reported
                    (rs.not_an_option "option.exposure") (rs.py_int 0)
                    Samples.d455_state _ _ eq_refl eq_refl)
                 "option.exposure" eq_refl).
Defined.

(** X18. What [set_option] and [get_option] do not handle. Neither ever
    raises a [TypeError]; every other exception of the SDK passes through
    them, with nothing printed and nothing changed: the [RuntimeError] of a
    pipeline that is not started, the [IndexError] of a device with fewer
    than two sensors, and the [RuntimeError] of an option the second sensor
    does not have. *)
Theorem IntelRealsense_option_methods_pass_other_errors :
  forall option value s,
    let p := IntelRealsense.pipeline (IntelRealsense.self s) in
    (forall e s',
        IntelRealsense.set_option option value s = (Raise e, s')
        \/ IntelRealsense.get_option option s = (Raise e, s') ->
        is_TypeError e = false)
    /\ (rs.active_profile p = None ->
        exists msg,
          IntelRealsense.set_option option value s = (Raise (RuntimeError msg), s)
          /\ IntelRealsense.get_option option s = (Raise (RuntimeError msg), s))
    /\ (forall pp,
           rs.active_profile p = Some pp ->
           nth_error (rs.sensors (rs.pp_device pp)) 1 = None ->
           exists msg,
             IntelRealsense.set_option option value s = (Raise (IndexError msg), s)
             /\ IntelRealsense.get_option option s = (Raise (IndexError msg), s))
    /\ (forall pp sensor name x,
           rs.active_profile p = Some pp ->
           nth_error (rs.sensors (rs.pp_device pp)) 1 = Some sensor ->
           option = rs.option name ->
           rs.assoc name sensor = None ->
           rs.value_float value = Some x ->
           exists msg,
             IntelRealsense.set_option option value s = (Raise (RuntimeError msg), s)
             /\ IntelRealsense.get_option option s = (Raise (RuntimeError msg), s)).
Proof.
  intros option value s p. subst p. split; [| split; [| split]].
  - intros e s' [H | H];
      apply try_except_never in H;
      try (intros ex s0 e0 s1; apply print_never_raises);
      tauto.
  - intros Hp.
    exists "get_active_profile() can only be called between a start() and a following stop()".
    assert (H2 : IntelRealsense.on_pipeline IntelRealsense.second_sensor s
                 = (Raise (RuntimeError "get_active_profile() can only be called between a start() and a following stop()"), s)).
    { rewrite on_second_sensor. unfold IntelRealsense.second_sensor.
      now rewrite Hp. }
    split; apply try_except_passes; try reflexivity; apply bind_Raise; exact H2.
  - intros pp Hp Hs.
    exists "list index out of range".
    assert (H2 : IntelRealsense.on_pipeline IntelRealsense.second_sensor s
                 = (Raise (IndexError "list index out of range"), s)).
    { rewrite on_second_sensor. unfold IntelRealsense.second_sensor.
      now rewrite Hp, Hs. }
    split; apply try_except_passes; try reflexivity; apply bind_Raise; exact H2.
  - intros pp sensor name x Hp Hs -> Ha Hx.
    exists "object doesn't support option".
    assert (H2 : IntelRealsense.on_pipeline IntelRealsense.second_sensor s
                 = (Return sensor, s)).
    { rewrite on_second_sensor. now rewrite (second_sensor_found _ _ _ Hp Hs). }
    split; apply try_except_passes; try reflexivity;
      rewrite (bind_Return _ _ _ _ _ H2); apply bind_Raise;
      unfold IntelRealsense.lift, rs.sensor_set_option, rs.sensor_get_option;
      rewrite ?Hx, Ha; reflexivity.
Qed.

Lemma IntelRealsense_option_methods_pass_other_errors_witness :
  exists msg,
    IntelRealsense.set_option (rs.option "laser_power") (rs.py_int 200) Samples.d455_state
    = (Raise (RuntimeError msg), Samples.d455_state)
    /\ IntelRealsense.get_option (rs.option "laser_power") Samples.d455_state
       = (Raise (RuntimeError msg), Samples.d455_state)
    /\ is_TypeError (RuntimeError msg) = false.
Proof.
  destruct (IntelRealsense_option_methods_pass_other_errors
              (rs.option "laser_power") (rs.py_int 200) Samples.d455_state)
    as (Hnever & _ & _ & Hlacks).
  destruct (Hlacks _ _ "laser_power" (np.of_int 200) eq_refl eq_refl eq_refl eq_refl eq_refl)
    as (msg & Hset & Hget).
  exists msg. split; [exact Hset |]. split; [exact Hget |].
  exact (Hnever _ _ (or_introl Hset)).
Defined.

(** X19. [get_option] only reads: whatever the option and whatever the
    outcome, the object, its pipeline and the device behind it are what
    they were, and at most one line is printed. *)
Theorem IntelRealsense_get_option_reads_only :
  forall option s,
    let s' := snd (IntelRealsense.get_option option s) in
    IntelRealsense.self s' = IntelRealsense.self s
    /\ (IntelRealsense.stdout s' = IntelRealsense.stdout s
        \/ exists line, IntelRealsense.stdout s' = IntelRealsense.stdout s ++ [line]).
Proof.
  intros option s. cbv zeta.
  unfold IntelRealsense.get_option, try_except, bind.
  rewrite on_second_sensor.
  destruct (fst (IntelRealsense.second_sensor _)) as [sensor | e | c]; cbn [fst snd].
  - unfold IntelRealsense.lift.
    destruct (rs.sensor_get_option sensor option) as [x | e | c]; cbn [fst snd].
    + destruct (rs.int_of_float x) as [v | e | c]; cbn [fst snd].
      * split; [reflexivity | right; eexists; reflexivity].
      * destruct (is_TypeError e); cbn; split; auto. right; eexists; reflexivity.
      * split; auto.
    + destruct (is_TypeError e); cbn; split; auto. right; eexists; reflexivity.
    + split; auto.
  - destruct (is_TypeError e); cbn; split; auto. right; eexists; reflexivity.
  - split; auto.
Qed.

(** ** IntelRealsense: what each call can change *)

Lemma IntelRealsense_view_on_pipeline {Y A : Type} (g : rs.pipeline -> Y)
      (op : rs.pipeline -> outcome A * rs.pipeline) :
  (forall p, g (snd (op p)) = g p) ->
  keeps (IntelRealsense_view g) (IntelRealsense.on_pipeline op).
Proof.
  intros H s. unfold IntelRealsense.on_pipeline.
  specialize (H (IntelRealsense.pipeline (IntelRealsense.self s))).
  destruct (op (IntelRealsense.pipeline (IntelRealsense.self s))) as [r p].
  unfold IntelRealsense_view. simpl in *. now rewrite H.
Qed.

Lemma IntelRealsense_view_lift {Y A : Type} (g : rs.pipeline -> Y) (r : outcome A) :
  keeps (IntelRealsense_view g) (IntelRealsense.lift r).
Proof. intros s. reflexivity. Qed.

Lemma IntelRealsense_view_print {Y : Type} (g : rs.pipeline -> Y) text :
  keeps (IntelRealsense_view g) (print text).
Proof. apply keeps_print. intros out s. reflexivity. Qed.

Lemma list_set_length {A : Type} (l : list A) i x :
  List.length (IntelRealsense.list_set l i x) = List.length l.
Proof.
  revert i. induction l as [| h t IH]; intros [| i]; simpl; auto.
Qed.

Lemma wait_for_frames_binding p :
  pipeline_binding (snd (rs.wait_for_frames p)) = pipeline_binding p.
Proof.
  unfold rs.wait_for_frames, pipeline_binding.
  destruct (rs.active_profile p) as [pp |] eqn:E; simpl.
  - destruct (rs.feed (rs.pp_device pp)); simpl; now rewrite ?E.
  - now rewrite E.
Qed.

Lemma wait_for_frames_sensors p :
  pipeline_sensors (snd (rs.wait_for_frames p)) = pipeline_sensors p.
Proof.
  unfold rs.wait_for_frames, pipeline_sensors.
  destruct (rs.active_profile p) as [pp |] eqn:E; simpl.
  - destruct (rs.feed (rs.pp_device pp)); simpl; now rewrite ?E.
  - now rewrite E.
Qed.

Lemma second_sensor_view {Y : Type} (g : rs.pipeline -> Y) p :
  g (snd (IntelRealsense.second_sensor p)) = g p.
Proof. now rewrite second_sensor_same. Qed.

Lemma store_second_sensor_binding sensor p :
  pipeline_binding (snd (IntelRealsense.store_second_sensor sensor p)) = pipeline_binding p.
Proof.
  unfold IntelRealsense.store_second_sensor, pipeline_binding.
  destruct (rs.active_profile p) as [pp |] eqn:E; simpl; [| now rewrite E].
  now rewrite list_set_length.
Qed.

Lemma store_second_sensor_feed sensor p :
  pipeline_feed (snd (IntelRealsense.store_second_sensor sensor p)) = pipeline_feed p.
Proof.
  unfold IntelRealsense.store_second_sensor, pipeline_feed.
  destruct (rs.active_profile p) as [pp |] eqn:E; simpl; now rewrite ?E.
Qed.

Ltac view_steps :=
  repeat first
         [ apply keeps_bind; [| intros ?]
         | apply keeps_while_not
         | apply keeps_try_except; [| intros ?]
         | apply keeps_ret
         | apply keeps_get
         | apply IntelRealsense_view_lift
         | apply IntelRealsense_view_print
         | apply IntelRealsense_view_on_pipeline; intros ?;
           first [ apply second_sensor_view
                 | apply wait_for_frames_binding
                 | apply wait_for_frames_sensors
                 | apply store_second_sensor_binding
                 | apply store_second_sensor_feed ] ].

Ltac as_keeps view :=
  match goal with
  | |- view (snd (?m ?s)) = view ?s => revert s; change (keeps view m)
  end.

Ltac unfold_calls :=
  unfold IntelRealsense.get_rgb, IntelRealsense.get_depth, IntelRealsense.get_frames,
    IntelRealsense.get_aligned_frames, IntelRealsense.set_option,
    IntelRealsense.get_option.

Lemma IntelRealsense_run_binding align c s :
  IntelRealsense_view pipeline_binding (IntelRealsenseCalls.run align c s)
  = IntelRealsense_view pipeline_binding s.
Proof.
  destruct c; cbn [IntelRealsenseCalls.run];
    as_keeps (@IntelRealsense_view _ pipeline_binding); unfold_calls; view_steps.
Qed.

Lemma IntelRealsense_run_all_binding align cs :
  forall s, IntelRealsense_view pipeline_binding (IntelRealsenseCalls.run_all align cs s)
            = IntelRealsense_view pipeline_binding s.
Proof.
  induction cs as [| c cs IH]; intros s; [reflexivity |].
  change (IntelRealsenseCalls.run_all align (c :: cs) s)
    with (IntelRealsenseCalls.run_all align cs (IntelRealsenseCalls.run align c s)).
  rewrite IH. apply IntelRealsense_run_binding.
Qed.

Lemma IntelRealsense_stdout_on_pipeline {A : Type}
      (op : rs.pipeline -> outcome A * rs.pipeline) :
  keeps IntelRealsense.stdout (IntelRealsense.on_pipeline op).
Proof.
  intros s. unfold IntelRealsense.on_pipeline.
  destruct (op (IntelRealsense.pipeline (IntelRealsense.self s))) as [r p]. reflexivity.
Qed.

Lemma IntelRealsense_stdout_lift {A : Type} (r : outcome A) :
  keeps IntelRealsense.stdout (IntelRealsense.lift r).
Proof. intros s. reflexivity. Qed.

Ltac silent_steps :=
  repeat first
         [ apply keeps_bind; [| intros ?]
         | apply keeps_while_not
         | apply keeps_ret
         | apply keeps_get
         | apply IntelRealsense_stdout_lift
         | apply IntelRealsense_stdout_on_pipeline ].

(** X20. What a call on an [IntelRealsense] can change. No frame-retrieval
    or option call changes an attribute of the object other than the
    pipeline, and of the pipeline none changes whether it is started, the
    streams, the identity of the device or the number of its sensors. The
    frame-retrieval calls print nothing and leave every option of every
    sensor as it was; the option calls take no capture from the device. So
    does any sequence of calls, for the attributes and the binding of the
    pipeline. *)
Theorem IntelRealsense_calls_change_only_captures_and_options :
  forall align_process,
    (forall c s,
        let s' := IntelRealsenseCalls.run align_process c s in
        IntelRealsense_view pipeline_binding s' = IntelRealsense_view pipeline_binding s
        /\ match c with
           | IntelRealsenseCalls.call_set_option _ _
           | IntelRealsenseCalls.call_get_option _ =>
               IntelRealsense_view pipeline_feed s' = IntelRealsense_view pipeline_feed s
           | _ =>
               IntelRealsense_view pipeline_sensors s'
               = IntelRealsense_view pipeline_sensors s
               /\ IntelRealsense.stdout s' = IntelRealsense.stdout s
           end)
    /\ (forall cs s,
           IntelRealsense_view pipeline_binding
                               (IntelRealsenseCalls.run_all align_process cs s)
           = IntelRealsense_view pipeline_binding s).
Proof.
  intros align. split; [| intros cs s; apply IntelRealsense_run_all_binding].
  intros c s s'. subst s'. split; [apply IntelRealsense_run_binding |].
  destruct c; cbn [IntelRealsenseCalls.run];
    [ split; [as_keeps (@IntelRealsense_view _ pipeline_sensors)
             | as_keeps IntelRealsense.stdout]
    | split; [as_keeps (@IntelRealsense_view _ pipeline_sensors)
             | as_keeps IntelRealsense.stdout]
    | split; [as_keeps (@IntelRealsense_view _ pipeline_sensors)
             | as_keeps IntelRealsense.stdout]
    | split; [as_keeps (@IntelRealsense_view _ pipeline_sensors)
             | as_keeps IntelRealsense.stdout]
    | as_keeps (@IntelRealsense_view _ pipeline_feed)
    | as_keeps (@IntelRealsense_view _ pipeline_feed) ];
    unfold_calls; first [solve [view_steps] | solve [silent_steps]].
Qed.

(** ** From the constructor to the teardown *)

Lemma IntelRealsense_init_fields connected rgb dres fps sn dm out obj out' :
  IntelRealsense.__init__ connected rgb dres fps sn dm out = (Return obj, out') ->
  IntelRealsense.camera_name obj = "Intel Realsense"
  /\ IntelRealsense.serial_number obj = sn
  /\ out' = out ++ [("Intel Realsense " ++ sn ++ " camera configured." ++ LF)%string]
  /\ exists pp, rs.active_profile (IntelRealsense.pipeline obj) = Some pp.
Proof.
  unfold IntelRealsense.__init__. cbn zeta.
  unfold rs.start. cbn [rs.active_profile rs.pipeline_new].
  destruct (rs.resolve connected _) as [d |]; [| discriminate].
  destruct (rs.get_stream _ rs.color) as [profile |]; [| discriminate].
  intros H. unfold bind, print, modify, ret in H. simpl in H.
  inversion H; subst. repeat split. eexists. reflexivity.
Qed.

Lemma IntelRealsense_del_started s pp :
  rs.active_profile (IntelRealsense.pipeline (IntelRealsense.self s)) = Some pp ->
  IntelRealsense.__del__ s
  = (Return tt,
     set_stdout (IntelRealsense.stdout s ++ [IntelRealsense.closed_message (IntelRealsense.self s)])
                (IntelRealsense.set_pipeline (rs.mk_pipeline None) s)).
Proof.
  intros H. unfold IntelRealsense.__del__, try_except, bind, IntelRealsense.on_pipeline,
              rs.stop.
  rewrite H. reflexivity.
Qed.

(** X21. The life of an [IntelRealsense] on the standard output. A
    constructor that returns has printed the "configured" line with the
    serial number it was given; after any frame-retrieval and option calls
    the pipeline is still started, so the teardown stops it and prints the
    "closed" line with the same name and serial number, and changes nothing
    else. *)
Theorem IntelRealsense_configured_then_closed :
  forall connected rgb_resolution depth_resolution fps serial_number depth_in_meters
         out obj out' align_process cs,
    IntelRealsense.__init__ connected rgb_resolution depth_resolution fps
                            serial_number depth_in_meters out
    = (Return obj, out') ->
    let s := IntelRealsenseCalls.run_all align_process cs
                                         (IntelRealsense.mk_State obj out') in
    out' = out ++ [("Intel Realsense " ++ serial_number ++ " camera configured." ++ LF)%string]
    /\ IntelRealsense.__del__ s
       = (Return tt,
          set_stdout (IntelRealsense.stdout s
                        ++ [("Intel Realsense " ++ serial_number ++ " camera closed")%string])
                     (IntelRealsense.set_pipeline (rs.mk_pipeline None) s)).
Proof.
  intros connected rgb dres fps sn dm out obj out' align cs Hinit s.
  destruct (IntelRealsense_init_fields _ _ _ _ _ _ _ _ _ Hinit)
    as (Hname & Hsn & Hout & pp & Hpp).
  split; [exact Hout |].
  pose proof (IntelRealsense_run_all_binding align cs (IntelRealsense.mk_State obj out'))
    as K.
  fold s in K. unfold IntelRealsense_view, pipeline_binding in K.
  cbn [IntelRealsense.self] in K. rewrite Hpp in K. cbn [option_map] in K.
  inversion K as [[Kname Krgb Kd Kfps Ksn Kintr Kmm Kpipe]].
  destruct (rs.active_profile (IntelRealsense.pipeline (IntelRealsense.self s)))
    as [pp' |] eqn:E; [| discriminate].
  rewrite (IntelRealsense_del_started s pp' E).
  unfold IntelRealsense.closed_message. now rewrite Kname, Ksn, Hname, Hsn.
Qed.

Lemma IntelRealsense_configured_then_closed_witness :
  exists obj out' s1,
    IntelRealsense.__init__ [Samples.d455] Camera.HD Camera.HD 30 "" false []
    = (Return obj, out')
    /\ IntelRealsense.__del__
         (IntelRealsenseCalls.run_all Samples.no_reprojection
                                      [IntelRealsenseCalls.call_get_rgb 2]
                                      (IntelRealsense.mk_State obj out'))
       = (Return tt, s1)
    /\ IntelRealsense.stdout s1
       = [("Intel Realsense  camera configured." ++ LF)%string;
          "Intel Realsense  camera closed"].
Proof.
  eexists. eexists. eexists.
  split; [lazy; reflexivity |].
  split.
  - apply (proj2 (IntelRealsense_configured_then_closed
                    [Samples.d455] Camera.HD Camera.HD 30 "" false [] _ _
                    Samples.no_reprojection [IntelRealsenseCalls.call_get_rgb 2]
                    eq_refl)).
  - lazy. reflexivity.
Defined.

Lemma Helios_surroundings_on_pipeline {A : Type}
      (op : arena.Device -> outcome A * arena.Device) :
  keeps Helios_surroundings (Helios.on_pipeline op).
Proof.
  intros s. unfold Helios.on_pipeline.
  destruct (op (Helios.pipeline (Helios.self s))) as [r d]. reflexivity.
Qed.

Lemma Helios_run_surroundings c s :
  Helios_surroundings (HeliosCalls.run c s) = Helios_surroundings s.
Proof.
  destruct c; simpl; revert s;
    match goal with
    | |- forall s, Helios_surroundings (snd (?m s)) = _ =>
        change (keeps Helios_surroundings m)
    end;
    unfold Helios.get_aligned_frames, Helios.get_rgb, Helios.get_depth, Helios.get_frames,
      Helios.requeue_buffer;
    repeat first
           [ apply keeps_bind; [| intros ?]
           | apply Helios_surroundings_on_pipeline
           | apply keeps_get
           | apply keeps_ret ].
Qed.

Lemma Helios_run_all_surroundings cs :
  forall s, Helios_surroundings (HeliosCalls.run_all cs s) = Helios_surroundings s.
Proof.
  induction cs as [| c cs IH]; intros s; [reflexivity |].
  change (HeliosCalls.run_all (c :: cs) s)
    with (HeliosCalls.run_all cs (HeliosCalls.run c s)).
  rewrite IH. apply Helios_run_surroundings.
Qed.

Lemma Helios_init_fields rgb dres fps sn dm w obj w' :
  Helios.__init__ rgb dres fps sn dm w = (Return obj, w') ->
  exists d rest w1,
    arena.created (Helios.system w') = d :: rest
    /\ Helios.camera_name obj = "LucidVision Helios"
    /\ Helios.serial_number obj = arena.DeviceSerialNumber (arena.nodemap d)
    /\ Helios.wait_for_device Helios.tries_max 0 w = (Return (d :: rest), w1)
    /\ w' = set_stdout (Helios.stdout w1
                          ++ [("LucidVision Helios "
                                 ++ arena.DeviceSerialNumber (arena.nodemap d)
                                 ++ " camera configured." ++ LF)%string]) w1.
Proof.
  intros H. unfold Helios.__init__ in H. cbn zeta in H.
  apply bind_Return_inv in H. destruct H as (devices & w1 & Hw & Hk).
  rewrite Nat.sub_0_r in Hw.
  pose proof (wait_for_device_created _ _ _ _ _ Hw) as Hc.
  destruct (wait_for_device_returns _ _ _ _ _ Hw) as (k & d & rest & _ & -> & _ & _).
  apply bind_Return_inv in Hk. destruct Hk as ([] & w2 & Hp & Hret).
  unfold print, modify in Hp. inversion Hp; subst w2. clear Hp.
  inversion Hret; subst obj w'. clear Hret.
  exists d, rest, w1. repeat split; try reflexivity; assumption.
Qed.

(** X22. The life of a [Helios] on the standard output. A constructor that
    returns has printed, last, the "configured" line with the serial number
    of the first created device, not the one it was given. The
    frame-retrieval calls print nothing and do not touch the process, so
    after any of them a teardown whose [system.destroy_device()] succeeds
    prints the "closed" line with the serial number of that device and
    changes nothing but the registry of the SDK. When
    [system.destroy_device()] raises something that is no [RuntimeError],
    the teardown lets it through and prints nothing. *)
Theorem Helios_configured_then_closed :
  forall rgb_resolution depth_resolution fps serial_number depth_in_meters w obj w'
         cs destroy_device,
    Helios.__init__ rgb_resolution depth_resolution fps serial_number depth_in_meters w
    = (Return obj, w') ->
    let s := HeliosCalls.run_all cs (Helios.mk_State obj w') in
    exists d rest,
      arena.created (Helios.system w') = d :: rest
      /\ last (Helios.stdout w') ""
         = ("LucidVision Helios " ++ arena.DeviceSerialNumber (arena.nodemap d)
                                  ++ " camera configured." ++ LF)%string
      /\ Helios.world s = w'
      /\ (forall sys',
             destroy_device (Helios.system w') = (Return tt, sys') ->
             Helios.__del__ destroy_device s
             = (Return tt,
                Helios.mk_State
                  (Helios.self s)
                  (Helios.mk_World
                     sys'
                     (Helios.stdout w'
                        ++ [("LucidVision Helios "
                               ++ arena.DeviceSerialNumber (arena.nodemap d)
                               ++ " camera closed")%string])
                     (Helios.slept w'))))
      /\ (forall e sys',
             destroy_device (Helios.system w') = (Raise e, sys') ->
             is_RuntimeError e = false ->
             Helios.__del__ destroy_device s
             = (Raise e,
                Helios.mk_State (Helios.self s)
                                (Helios.mk_World sys' (Helios.stdout w') (Helios.slept w')))).
Proof.
  intros rgb dres fps sn dm w obj w' cs destroy_device Hinit s.
  destruct (Helios_init_fields _ _ _ _ _ _ _ _ Hinit)
    as (d & rest & w1 & Hc & Hname & Hsn & _ & Hw').
  pose proof (Helios_run_all_surroundings cs (Helios.mk_State obj w')) as K.
  fold s in K. unfold Helios_surroundings in K. cbn [Helios.self Helios.world] in K.
  injection K as Kname Ksn Kw.
  exists d, rest. split; [exact Hc |].
  split; [rewrite Hw'; simpl; apply last_last |].
  split; [exact Kw |].
  split.
  - intros sys' Hd.
    rewrite (Helios_del_first destroy_device s sys') by (rewrite Kw; exact Hd).
    unfold Helios.closed_message. now rewrite Kname, Ksn, Kw, Hname, Hsn.
  - intros e sys' Hd He.
    unfold Helios.__del__. apply try_except_passes; [| exact He].
    apply bind_Raise. unfold Helios.on_system. rewrite Kw, Hd. reflexivity.
Qed.

Lemma Helios_configured_then_closed_witness :
  exists obj w' s1,
    Helios.__init__ Camera.HD Camera.HD 30 "REQUESTED" false
                    (Samples.empty_world Samples.late_devices)
    = (Return obj, w')
    /\ Helios.__del__ Samples.strict_destroy
                      (HeliosCalls.run_all [HeliosCalls.call_get_depth]
                                           (Helios.mk_State obj w'))
       = (Return tt, s1)
    /\ last (Helios.stdout (Helios.world s1)) "" = "LucidVision Helios H-42 camera closed".
Proof.
  destruct (Helios.__init__ Camera.HD Camera.HD 30 "REQUESTED" false
                            (Samples.empty_world Samples.late_devices))
    as [[obj | e | c] w'] eqn:E.
  - destruct (Helios_configured_then_closed
                Camera.HD Camera.HD 30 "REQUESTED" false
                (Samples.empty_world Samples.late_devices) obj w'
                [HeliosCalls.call_get_depth] Samples.strict_destroy E)
      as (d & rest & Hc & _ & _ & Hdel & _).
    assert (Hd : Samples.strict_destroy (Helios.system w')
                 = (Return tt,
                    arena.mk_System (arena.discover (Helios.system w'))
                                    (arena.calls (Helios.system w')) [])).
    { unfold Samples.strict_destroy. rewrite Hc. reflexivity. }
    exists obj, w'. eexists. split; [reflexivity |].
    split; [exact (Hdel _ Hd) |].
    cbn [Helios.world Helios.stdout]. rewrite last_last.
    vm_compute in E. inversion E as [[Eo Ew]].
    rewrite <- Ew in Hc. simpl in Hc. inversion Hc. reflexivity.
  - vm_compute in E. discriminate E.
  - vm_compute in E. discriminate E.
Defined.
